(** * gotodolist: the credential issuance and verification core

    A shallow embedding of the authentication code of the Go todo-list
    service: [utils.GenerateAccessToken], [utils.GenerateRefreshToken],
    [utils.HashString], [middleware.Protect] and the [AuthController]
    handlers [Register], [Login], [Logout], [RefreshToken], [GetMe]
    with their helper [sendTokenResponse]; and of the task side behind
    it: the [TaskController] handlers [GetTasks], [GetTask],
    [CreateTask], [UpdateTask], [DeleteTask] and the routes of
    [SetupTaskRoutes].

    The Go packages the code calls into (crypto, encoding/json, base64,
    bcrypt, golang-jwt, the MongoDB driver, gin) are modelled by what
    the handlers observe of them.  Cryptographic primitives and wire
    codecs are fields of the class [Externals]; nothing is assumed
    about them except, where a statement says so, that decoding
    inverts encoding ([CodecLaws]).  Logging is left out: it writes to
    a file and never feeds back into a handler. *)

From Stdlib Require Import ZArith Ascii String List Lia Bool.
From stdpp Require Import base option list strings gmap countable.

Local Set Warnings "-register-all".
Local Open Scope string_scope.
Local Open Scope Z_scope.

(** ** Go values shared by the packages *)

(** A Go [string] and a Go [[]byte] are both sequences of bytes; both
    are [string] here, so the conversions [[]byte(s)] and [string(b)]
    are the identity. *)

(** Values that travel through [map[string]interface{}] ([jwt.MapClaims],
    [gin.H]): what encoding/json produces and consumes.  Numbers are
    whole ([int64], or a [float64] holding a whole number, which is all
    that the issuing code writes). *)
Inductive JValue : Type :=
  | JNull
  | JBool (b : bool)
  | JNumber (n : Z)
  | JString (s : string)
  | JArray (l : list JValue)
  | JObject (kvs : list (string * JValue)).

(** ** package time *)
Module time.

(** Instants and durations, both counted in nanoseconds; an instant
    is counted from the Unix epoch. *)
Definition Time := Z.
Definition Duration := Z.

Definition Millisecond : Duration := 1000000.
Definition Second : Duration := 1000000000.
Definition Hour : Duration := 3600 * Second.

Definition Add (t : Time) (d : Duration) : Time := t + d.

(** [t.Unix()]: whole seconds since the epoch, rounded down. *)
Definition Unix (t : Time) : Z := t / Second.

(** [time.Unix(sec, 0)]. *)
Definition FromUnix (sec : Z) : Time := sec * Second.

Definition Before (t u : Time) : bool := t <? u.

End time.

(** ** package encoding/hex *)
Module hex.

(** [hextable = "0123456789abcdef"], indexed by a nibble. *)
Definition hextable (n : N) : ascii :=
  match n with
  | 0 => "0" | 1 => "1" | 2 => "2" | 3 => "3" | 4 => "4" | 5 => "5"
  | 6 => "6" | 7 => "7" | 8 => "8" | 9 => "9" | 10 => "a" | 11 => "b"
  | 12 => "c" | 13 => "d" | 14 => "e" | _ => "f"
  end%N%char.

(** [fromHexChar]: both cases of the letters are accepted. *)
Definition fromHexChar (c : ascii) : option N :=
  let n := N_of_ascii c in
  if (48 <=? n)%N && (n <=? 57)%N then Some (n - 48)%N
  else if (97 <=? n)%N && (n <=? 102)%N then Some (n - 97 + 10)%N
  else if (65 <=? n)%N && (n <=? 70)%N then Some (n - 65 + 10)%N
  else None.

Fixpoint EncodeToString (src : string) : string :=
  match src with
  | EmptyString => EmptyString
  | String v rest =>
      String (hextable (N_of_ascii v / 16))
        (String (hextable (N_of_ascii v mod 16)) (EncodeToString rest))
  end.

(** [hex.DecodeString]; [None] stands for [ErrLength] and
    [InvalidByteError]. *)
Fixpoint DecodeString (s : string) : option string :=
  match s with
  | EmptyString => Some EmptyString
  | String _ EmptyString => None
  | String p (String q rest) =>
      match fromHexChar p, fromHexChar q, DecodeString rest with
      | Some a, Some b, Some out =>
          Some (String (ascii_of_N (a * 16 + b)) out)
      | _, _, _ => None
      end
  end.

End hex.

(** ** package strings *)
Module gostrings.

(** [strings.Split(s, sep)] for a separator of one byte, which is how
    both callers use it ([" "] in the middleware, ["."] in the token
    parser).  The result is never empty: [Split "" sep = [""]]. *)
Fixpoint Split (s : string) (sep : ascii) : list string :=
  match s with
  | EmptyString => [EmptyString]
  | String c rest =>
      if Ascii.eqb c sep then EmptyString :: Split rest sep
      else match Split rest sep with
           | p :: ps => String c p :: ps
           | [] => [String c EmptyString]
           end
  end.

(** The byte [sep] occurs in [s]. *)
Fixpoint Contains (s : string) (sep : ascii) : bool :=
  match s with
  | EmptyString => false
  | String c rest => Ascii.eqb c sep || Contains rest sep
  end.

End gostrings.

(** ** package crypto/rand *)
Module rand.

(** [rand.Read(b)] on a zeroed buffer of [n] bytes, [src] being the
    bytes the generator delivers: the buffer is filled from [src], and
    what [src] does not cover stays zero (the caller ignores the
    error of a short read). *)
Fixpoint Read (n : nat) (src : string) : string :=
  match n with
  | O => EmptyString
  | S k =>
      match src with
      | EmptyString => String zero (Read k EmptyString)
      | String c rest => String c (Read k rest)
      end
  end.

End rand.

(** ** What the handlers take from outside *)

Inductive Hash : Type := SHA256 | SHA384 | SHA512.

(** The library functions that are not unfolded further.  Each field
    is the named Go function, read as a function of its inputs. *)
Class Externals : Type := {
  (** [sha256.Sum256]. *)
  sha256_Sum256 : string -> string;
  (** [hmac.New(h, key)] written with [msg], then [Sum(nil)]. *)
  hmac_Sum : Hash -> string -> string -> string;
  (** [bcrypt.GenerateFromPassword] at the default cost, with the salt
      it draws; [None] is its error. *)
  bcrypt_GenerateFromPassword : string -> string -> option string;
  (** [bcrypt.CompareHashAndPassword hash password] returns [nil]. *)
  bcrypt_CompareHashAndPassword : string -> string -> bool;
  (** [time.ParseDuration]; [None] is its error. *)
  time_ParseDuration : string -> option time.Duration;
  (** [base64.RawURLEncoding], as [Token.EncodeSegment] and
      [Parser.DecodeSegment] use it. *)
  EncodeSegment : string -> string;
  DecodeSegment : string -> option string;
  (** [json.Marshal] and [json.Unmarshal] of a
      [map[string]interface{}]. *)
  json_Marshal : gmap string JValue -> string;
  json_Unmarshal : string -> option (gmap string JValue);
  (** [json] decoding of a request body into a struct whose fields are
      all strings, given the fields' JSON names; a field the body does
      not mention keeps its zero value [""]. *)
  json_DecodeStrings : string -> list string -> option (list string);
  (** The validator's [email] and [min] tags. *)
  validator_isEmail : string -> bool;
  utf8_RuneCountInString : string -> Z;
}.

(** What the codecs are expected to satisfy: decoding inverts
    encoding, and a base64url segment holds neither a dot nor a
    space. *)
Class CodecLaws (E : Externals) : Prop := {
  DecodeSegment_EncodeSegment :
    forall b, DecodeSegment (EncodeSegment b) = Some b;
  json_Unmarshal_Marshal :
    forall m, json_Unmarshal (json_Marshal m) = Some m;
  EncodeSegment_no_dot :
    forall b, gostrings.Contains (EncodeSegment b) "." = false;
  EncodeSegment_no_space :
    forall b, gostrings.Contains (EncodeSegment b) " " = false;
}.

(** What one request reads from its surroundings, in the order of the
    reads: the process environment, the successive readings of
    [time.Now()], whether the successive calls to the store fail,
    the bytes the random generator delivers, the salt bcrypt draws
    and the [ObjectID] the driver mints for an insert. *)
Record Env : Type := {
  environ : gmap string string;
  clock : nat -> time.Time;
  storeErr : nat -> bool;
  entropy : string;
  salt : string;
  freshID : string;
}.

(** The surroundings as seen after [k] clock readings and [j] store
    calls have been consumed. *)
Definition advance (k j : nat) (env : Env) : Env :=
  {| environ := environ env;
     clock := fun i => clock env (k + i)%nat;
     storeErr := fun i => storeErr env (j + i)%nat;
     entropy := entropy env;
     salt := salt env;
     freshID := freshID env |}.

(** ** package github.com/golang-jwt/jwt/v5 *)
Module jwt.

Abbreviation MapClaims := (gmap string JValue).

Inductive SigningMethod : Type :=
  | SigningMethodHMAC (h : Hash)
  | SigningMethodRSA (h : Hash)
  | SigningMethodRSAPSS (h : Hash)
  | SigningMethodECDSA (h : Hash)
  | SigningMethodEd25519
  | SigningMethodNone.

Definition SigningMethodHS256 : SigningMethod := SigningMethodHMAC SHA256.

Definition Alg (m : SigningMethod) : string :=
  match m with
  | SigningMethodHMAC SHA256 => "HS256"
  | SigningMethodHMAC SHA384 => "HS384"
  | SigningMethodHMAC SHA512 => "HS512"
  | SigningMethodRSA SHA256 => "RS256"
  | SigningMethodRSA SHA384 => "RS384"
  | SigningMethodRSA SHA512 => "RS512"
  | SigningMethodRSAPSS SHA256 => "PS256"
  | SigningMethodRSAPSS SHA384 => "PS384"
  | SigningMethodRSAPSS SHA512 => "PS512"
  | SigningMethodECDSA SHA256 => "ES256"
  | SigningMethodECDSA SHA384 => "ES384"
  | SigningMethodECDSA SHA512 => "ES512"
  | SigningMethodEd25519 => "EdDSA"
  | SigningMethodNone => "none"
  end.

(** The registry of signing methods, by the [alg] header. *)
Definition GetSigningMethod (alg : string) : option SigningMethod :=
  if String.eqb alg "HS256" then Some (SigningMethodHMAC SHA256)
  else if String.eqb alg "HS384" then Some (SigningMethodHMAC SHA384)
  else if String.eqb alg "HS512" then Some (SigningMethodHMAC SHA512)
  else if String.eqb alg "RS256" then Some (SigningMethodRSA SHA256)
  else if String.eqb alg "RS384" then Some (SigningMethodRSA SHA384)
  else if String.eqb alg "RS512" then Some (SigningMethodRSA SHA512)
  else if String.eqb alg "PS256" then Some (SigningMethodRSAPSS SHA256)
  else if String.eqb alg "PS384" then Some (SigningMethodRSAPSS SHA384)
  else if String.eqb alg "PS512" then Some (SigningMethodRSAPSS SHA512)
  else if String.eqb alg "ES256" then Some (SigningMethodECDSA SHA256)
  else if String.eqb alg "ES384" then Some (SigningMethodECDSA SHA384)
  else if String.eqb alg "ES512" then Some (SigningMethodECDSA SHA512)
  else if String.eqb alg "EdDSA" then Some SigningMethodEd25519
  else if String.eqb alg "none" then Some SigningMethodNone
  else None.

(** [Method] is an interface value: [None] is its [nil]. *)
Record Token : Type := {
  Raw : string;
  Method : option SigningMethod;
  Header : gmap string JValue;
  Claims : MapClaims;
  Signature : string;
  Valid : bool;
}.

(** The errors of the package that a caller can tell apart with
    [errors.Is]. *)
Inductive ClaimError : Type :=
  | ErrTokenExpired
  | ErrTokenNotValidYet
  | ErrTokenRequiredClaimMissing
  | ErrInvalidType.

Inductive Error : Type :=
  | ErrTokenMalformed
  | ErrTokenUnverifiable
  | ErrTokenSignatureInvalid
  | ErrTokenInvalidClaims (errs : list ClaimError).

(** A [Keyfunc] that answers with a [[]byte] key or an error. *)
Definition Keyfunc : Type := Token -> option string.

Section Codec.
Context {E : Externals}.

Definition NewWithClaims (method : SigningMethod) (claims : MapClaims)
  : Token :=
  {| Raw := "";
     Method := Some method;
     Header := <["typ" := JString "JWT"]>
                 (<["alg" := JString (Alg method)]> ∅);
     Claims := claims;
     Signature := "";
     Valid := false |}.

Definition SigningString (t : Token) : string :=
  EncodeSegment (json_Marshal (Header t)) +:+ "." +:+
  EncodeSegment (json_Marshal (Claims t)).

(** [Method.Sign] with a key of type [[]byte]: the HMAC methods
    accept it, every other method answers with an error. *)
Definition Sign (m : SigningMethod) (signingString key : string)
  : option string :=
  match m with
  | SigningMethodHMAC h => Some (hmac_Sum h key signingString)
  | _ => None
  end.

(** [Method.Verify] with a key of type [[]byte]; [true] is [nil]. *)
Definition Verify (m : SigningMethod) (signingString sig key : string)
  : bool :=
  match m with
  | SigningMethodHMAC h => String.eqb sig (hmac_Sum h key signingString)
  | _ => false
  end.

Definition SignedString (t : Token) (key : string) : option string :=
  let sstr := SigningString t in
  match Method t with
  | None => None
  | Some m =>
      match Sign m sstr key with
      | None => None
      | Some sig => Some (sstr +:+ "." +:+ EncodeSegment sig)
      end
  end.

Definition ParseUnverified (tokenString : string)
  : option Token * list string * option Error :=
  let parts := gostrings.Split tokenString "." in
  if negb (length parts =? 3)%nat then
    (None, parts, Some ErrTokenMalformed)
  else
    let token := {| Raw := tokenString; Method := None; Header := ∅;
                    Claims := ∅; Signature := ""; Valid := false |} in
    match DecodeSegment (nth 0 parts "") with
    | None => (Some token, parts, Some ErrTokenMalformed)
    | Some headerBytes =>
    match json_Unmarshal headerBytes with
    | None => (Some token, parts, Some ErrTokenMalformed)
    | Some header =>
    let token := {| Raw := tokenString; Method := None; Header := header;
                    Claims := ∅; Signature := ""; Valid := false |} in
    match DecodeSegment (nth 1 parts "") with
    | None => (Some token, parts, Some ErrTokenMalformed)
    | Some claimBytes =>
    match json_Unmarshal claimBytes with
    | None => (Some token, parts, Some ErrTokenMalformed)
    | Some c =>
    let token := {| Raw := tokenString; Method := None; Header := header;
                    Claims := c; Signature := ""; Valid := false |} in
    match header !! "alg" with
    | Some (JString method) =>
        match GetSigningMethod method with
        | None => (Some token, parts, Some ErrTokenUnverifiable)
        | Some m =>
            (Some {| Raw := tokenString; Method := Some m;
                     Header := header; Claims := c; Signature := "";
                     Valid := false |}, parts, None)
        end
    | _ => (Some token, parts, Some ErrTokenUnverifiable)
    end end end end end.

(** [MapClaims.parseNumericDate]: an absent claim and a zero are
    both "no date"; anything but a number is a type error. *)
Definition parseNumericDate (m : MapClaims) (key : string)
  : ClaimError + option time.Time :=
  match m !! key with
  | None => inr None
  | Some (JNumber n) =>
      if n =? 0 then inr None else inr (Some (time.FromUnix n))
  | Some _ => inl ErrInvalidType
  end.

Definition verifyExpiresAt (claims : MapClaims) (cmp : time.Time)
    (required : bool) : option ClaimError :=
  match parseNumericDate claims "exp" with
  | inl err => Some err
  | inr None =>
      if required then Some ErrTokenRequiredClaimMissing else None
  | inr (Some exp) =>
      if time.Before cmp exp then None else Some ErrTokenExpired
  end.

Definition verifyNotBefore (claims : MapClaims) (cmp : time.Time)
    (required : bool) : option ClaimError :=
  match parseNumericDate claims "nbf" with
  | inl err => Some err
  | inr None =>
      if required then Some ErrTokenRequiredClaimMissing else None
  | inr (Some nbf) =>
      if negb (time.Before cmp nbf) then None
      else Some ErrTokenNotValidYet
  end.

(** [Validator.Validate] of the default validator: no leeway, [exp]
    not required, [iat] not verified, no expected audience, issuer
    or subject. *)
Definition Validate (claims : MapClaims) (now : time.Time)
  : option Error :=
  let errs :=
    (option_list (verifyExpiresAt claims now false) ++
     option_list (verifyNotBefore claims now false))%list in
  match errs with
  | [] => None
  | _ => Some (ErrTokenInvalidClaims errs)
  end.

(** [Parser.ParseWithClaims] of the default parser; [now] is the
    reading of the clock the validator takes. *)
Definition ParseWithClaims (tokenString : string) (keyFunc : Keyfunc)
    (now : time.Time) : option Token * option Error :=
  match ParseUnverified tokenString with
  | (token, _, Some err) => (token, Some err)
  | (None, _, None) => (None, Some ErrTokenMalformed)
  | (Some token, parts, None) =>
  match DecodeSegment (nth 2 parts "") with
  | None => (Some token, Some ErrTokenMalformed)
  | Some sig =>
  let token := {| Raw := Raw token; Method := Method token;
                  Header := Header token; Claims := Claims token;
                  Signature := sig; Valid := false |} in
  let text := nth 0 parts "" +:+ "." +:+ nth 1 parts "" in
  match keyFunc token with
  | None => (Some token, Some ErrTokenUnverifiable)
  | Some key =>
  match Method token with
  | None => (Some token, Some ErrTokenUnverifiable)
  | Some m =>
  if negb (Verify m text sig key) then
    (Some token, Some ErrTokenSignatureInvalid)
  else
    match Validate (Claims token) now with
    | Some err => (Some token, Some err)
    | None =>
        (Some {| Raw := Raw token; Method := Method token;
                 Header := Header token; Claims := Claims token;
                 Signature := sig; Valid := true |}, None)
    end
  end end end end.

End Codec.

End jwt.

(** ** package go.mongodb.org/mongo-driver/bson/primitive *)
Module primitive.

(** [ObjectID] is [[12]byte]: a string of twelve bytes. *)
Definition ObjectID := string.

Definition NilObjectID : ObjectID :=
  String.concat "" (repeat (String zero EmptyString) 12).

Definition Hex (id : ObjectID) : string := hex.EncodeToString id.

Definition ObjectIDFromHex (s : string) : option ObjectID :=
  if negb (String.length s =? 24)%nat then None
  else hex.DecodeString s.

(** [DateTime]: milliseconds since the epoch, the precision at which
    the store keeps an instant. *)
Definition DateTime := Z.

Definition NewDateTimeFromTime (t : time.Time) : DateTime :=
  time.Unix t * 1000 + (t mod time.Second) / time.Millisecond.

Definition Time (d : DateTime) : time.Time := d * time.Millisecond.

End primitive.

(** ** package models *)
Module models.

Record User : Type := {
  ID : primitive.ObjectID;
  Username : string;
  Email : string;
  Password : string;
  RefreshToken : string;
  RefreshTokenExpire : option time.Time;
  CreatedAt : time.Time;
  UpdatedAt : time.Time;
}.

Definition NewUser (username email hashedPassword : string)
    (now : time.Time) : User :=
  {| ID := primitive.NilObjectID;
     Username := username;
     Email := email;
     Password := hashedPassword;
     RefreshToken := "";
     RefreshTokenExpire := None;
     CreatedAt := now;
     UpdatedAt := now |}.

Definition withID (u : User) (id : primitive.ObjectID) : User :=
  {| ID := id;
     Username := Username u;
     Email := Email u;
     Password := Password u;
     RefreshToken := RefreshToken u;
     RefreshTokenExpire := RefreshTokenExpire u;
     CreatedAt := CreatedAt u;
     UpdatedAt := UpdatedAt u |}.

Record UserResponse : Type := {
  resp_ID : primitive.ObjectID;
  resp_Username : string;
  resp_Email : string;
  resp_CreatedAt : time.Time;
}.

Definition ToResponse (u : User) : UserResponse :=
  {| resp_ID := ID u;
     resp_Username := Username u;
     resp_Email := Email u;
     resp_CreatedAt := CreatedAt u |}.

End models.

(** ** package bson: the documents of the users collection *)
Module bson.

(** A field of a stored document is absent, holds [null], or holds
    a value. *)
Inductive Field (A : Type) : Type :=
  | Absent
  | Null
  | Value (a : A).
Arguments Absent {A}.
Arguments Null {A}.
Arguments Value {A} a.

(** A document of the users collection, by the [bson] tags of
    [models.User]. *)
Record D : Type := {
  _id : primitive.ObjectID;
  username : string;
  email : string;
  password : string;
  refreshToken : Field string;
  refreshTokenExpire : Field primitive.DateTime;
  createdAt : primitive.DateTime;
  updatedAt : primitive.DateTime;
}.

(** Encoding of a [models.User] whose [ID] is zero: [_id] is left
    out by [omitempty] and the driver mints [id]; an empty
    [RefreshToken] and a nil [RefreshTokenExpire] are left out too. *)
Definition Marshal (u : models.User) (id : primitive.ObjectID) : D :=
  {| _id := if String.eqb (models.ID u) primitive.NilObjectID then id
            else models.ID u;
     username := models.Username u;
     email := models.Email u;
     password := models.Password u;
     refreshToken :=
       if String.eqb (models.RefreshToken u) "" then Absent
       else Value (models.RefreshToken u);
     refreshTokenExpire :=
       match models.RefreshTokenExpire u with
       | None => Absent
       | Some t => Value (primitive.NewDateTimeFromTime t)
       end;
     createdAt := primitive.NewDateTimeFromTime (models.CreatedAt u);
     updatedAt := primitive.NewDateTimeFromTime (models.UpdatedAt u) |}.

(** [SingleResult.Decode] into a [models.User]: an absent field and
    a [null] both leave the zero value. *)
Definition Decode (d : D) : models.User :=
  {| models.ID := _id d;
     models.Username := username d;
     models.Email := email d;
     models.Password := password d;
     models.RefreshToken :=
       match refreshToken d with Value s => s | _ => "" end;
     models.RefreshTokenExpire :=
       match refreshTokenExpire d with
       | Value t => Some (primitive.Time t)
       | _ => None
       end;
     models.CreatedAt := primitive.Time (createdAt d);
     models.UpdatedAt := primitive.Time (updatedAt d) |}.

End bson.

(** ** package mongo: the users collection *)
Module mongo.

(** The collection in its natural order. *)
Definition Collection := list bson.D.

(** [ErrStore] stands for every failure of the store itself: a
    timeout of the request context, a lost connection, a duplicate
    key. *)
Inductive Error : Type :=
  | ErrNoDocuments
  | ErrStore.

(** The query documents the handlers build. *)
Inductive Filter : Type :=
  (** [bson.M{"_id": id}] *)
  | ById (id : primitive.ObjectID)
  (** [bson.M{"email": e}] *)
  | ByEmail (e : string)
  (** [bson.M{"$or": []bson.M{{"username": u}, {"email": e}}}] *)
  | ByUsernameOrEmail (u e : string)
  (** [bson.M{"refreshToken": h, "refreshTokenExpire": bson.M{"$gt": now}}];
      [now] is encoded as a [DateTime]. *)
  | ByRefreshToken (h : string) (now : time.Time).

Definition matches (f : Filter) (d : bson.D) : bool :=
  match f with
  | ById id => String.eqb (bson._id d) id
  | ByEmail e => String.eqb (bson.email d) e
  | ByUsernameOrEmail u e =>
      String.eqb (bson.username d) u || String.eqb (bson.email d) e
  | ByRefreshToken h now =>
      match bson.refreshToken d, bson.refreshTokenExpire d with
      | bson.Value h', bson.Value e =>
          String.eqb h' h && (primitive.NewDateTimeFromTime now <? e)
      | _, _ => false
      end
  end.

(** The one update document the handlers build:
    [bson.M{"$set": bson.M{"refreshToken": h, "refreshTokenExpire": e}}],
    where a Go [nil] is stored as [null]. *)
Inductive Update : Type :=
  | SetRefresh (h : option string) (e : option time.Time).

Definition apply (u : Update) (d : bson.D) : bson.D :=
  match u with
  | SetRefresh h e =>
      {| bson._id := bson._id d;
         bson.username := bson.username d;
         bson.email := bson.email d;
         bson.password := bson.password d;
         bson.refreshToken :=
           match h with Some s => bson.Value s | None => bson.Null end;
         bson.refreshTokenExpire :=
           match e with
           | Some t => bson.Value (primitive.NewDateTimeFromTime t)
           | None => bson.Null
           end;
         bson.createdAt := bson.createdAt d;
         bson.updatedAt := bson.updatedAt d |}
  end.

(** [fail] tells whether this call to the store fails. *)
Definition FindOne (fail : bool) (coll : Collection) (f : Filter)
  : Error + bson.D :=
  if fail then inl ErrStore
  else match List.find (matches f) coll with
       | Some d => inr d
       | None => inl ErrNoDocuments
       end.

(** The first document that matches is updated; no match is no
    error. *)
Fixpoint updateFirst (f : Filter) (u : Update) (coll : Collection)
  : Collection :=
  match coll with
  | [] => []
  | d :: rest =>
      if matches f d then apply u d :: rest
      else d :: updateFirst f u rest
  end.

Definition UpdateOne (fail : bool) (coll : Collection) (f : Filter)
    (u : Update) : Error + Collection :=
  if fail then inl ErrStore else inr (updateFirst f u coll).

(** [_id] carries a unique index: inserting a second document with
    the same [_id] is a duplicate-key error. *)
Definition InsertOne (fail : bool) (coll : Collection) (d : bson.D)
  : Error + (Collection * primitive.ObjectID) :=
  if fail then inl ErrStore
  else if existsb (matches (ById (bson._id d))) coll then inl ErrStore
  else inr ((coll ++ [d])%list, bson._id d).

End mongo.

(** ** package net/http and package gin *)
Module http.
Definition StatusOK : Z := 200.
Definition StatusBadRequest : Z := 400.
Definition StatusUnauthorized : Z := 401.
Definition StatusInternalServerError : Z := 500.
End http.

Module gin.

(** The Go values the handlers put into a [gin.H]. *)
Inductive Any : Type :=
  | Bool (b : bool)
  | Str (s : string)
  | UserResponse (u : models.UserResponse).

Abbreviation H := (gmap string Any).

Record Response : Type := {
  Status : Z;
  Body : H;
}.

(** The values the middleware stores under [c.Keys]. *)
Inductive KeyValue : Type :=
  | KUser (u : models.User)
  | KObjectID (id : primitive.ObjectID).

(** The part of [gin.Context] the handlers touch: the request
    headers as [Header.Get] reads them ([""] when the header is not
    set), the request body, the keys set on the context, the
    responses written so far and whether the chain was aborted. *)
Record Context : Type := {
  Request_Header : string -> string;
  Request_Body : string;
  Keys : gmap string KeyValue;
  Writer : list Response;
  IsAborted : bool;
}.

Definition GetHeader (c : Context) (key : string) : string :=
  Request_Header c key.

Definition JSON (c : Context) (code : Z) (obj : H) : Context :=
  {| Request_Header := Request_Header c;
     Request_Body := Request_Body c;
     Keys := Keys c;
     Writer := (Writer c ++ [{| Status := code; Body := obj |}])%list;
     IsAborted := IsAborted c |}.

Definition Abort (c : Context) : Context :=
  {| Request_Header := Request_Header c;
     Request_Body := Request_Body c;
     Keys := Keys c;
     Writer := Writer c;
     IsAborted := true |}.

Definition Set_ (c : Context) (key : string) (v : KeyValue) : Context :=
  {| Request_Header := Request_Header c;
     Request_Body := Request_Body c;
     Keys := <[key := v]> (Keys c);
     Writer := Writer c;
     IsAborted := IsAborted c |}.

Definition Get (c : Context) (key : string) : option KeyValue :=
  Keys c !! key.

(** A handler, run against the surroundings of the request and the
    users collection it closes over; it leaves a context and a
    collection. *)
Definition HandlerFunc : Type :=
  Env -> mongo.Collection -> Context -> Context * mongo.Collection.

(** [gin.H{"success": false, "error": msg}]. *)
Definition failure (msg : string) : H :=
  <["success" := Bool false]> (<["error" := Str msg]> ∅).

End gin.

(** ** package utils *)
Module utils.

(** Modelled from the spec: [GetEnv] is declared in a file of package
    utils that is not at hand.  It is the value of the environment
    variable [key] when the variable is set and [defaultValue]
    otherwise: the spec lists the access-token lifetime with
    "default 24h", and the caller [GetTokenExpiration] describes its
    call as parsing the variable "with a default of 24 hours". *)
Definition GetEnv (env : Env) (key defaultValue : string) : string :=
  match environ env !! key with
  | Some value => value
  | None => defaultValue
  end.

Section Tokens.
Context {E : Externals}.

Definition GetTokenExpiration (env : Env) : time.Time :=
  let expireStr := GetEnv env "JWT_EXPIRE" "24h" in
  let duration :=
    match time_ParseDuration expireStr with
    | Some d => d
    | None => 24 * time.Hour
    end in
  time.Add (clock env 0) duration.

(** Two readings of the clock: one in [GetTokenExpiration], one
    for [iat].  [None] is the error of [SignedString]. *)
Definition GenerateAccessToken (env : Env) (userID : string)
  : option string :=
  let expireTime := GetTokenExpiration env in
  let claims : jwt.MapClaims :=
    <["id" := JString userID]>
      (<["exp" := JNumber (time.Unix expireTime)]>
         (<["iat" := JNumber (time.Unix (clock env 1))]> ∅)) in
  let token := jwt.NewWithClaims jwt.SigningMethodHS256 claims in
  jwt.SignedString token (GetEnv env "JWT_SECRET" "your-secret-key").

Definition HashString (input : string) : string :=
  let hash := sha256_Sum256 input in
  hex.EncodeToString hash.

(** One reading of the clock, one draw of 32 random bytes. *)
Definition GenerateRefreshToken (env : Env)
  : string * string * time.Time :=
  let b := rand.Read 32 (entropy env) in
  let refreshToken := hex.EncodeToString b in
  let hash := sha256_Sum256 refreshToken in
  let hashedToken := hex.EncodeToString hash in
  let expireTime := time.Add (clock env 0) (7 * 24 * time.Hour) in
  (refreshToken, hashedToken, expireTime).

End Tokens.

(** [GetQueryDefault]; [query] is [c.Query], which yields [""]
    for a parameter the request does not carry. *)
Definition GetQueryDefault (query : string -> string)
    (key defaultValue : string) : string :=
  let value := query key in
  if String.eqb value "" then defaultValue else value.

End utils.

(** ** package middleware *)
Module middleware.

Section Auth.
Context {E : Externals}.

(** The key function handed to the parser. *)
Definition keyFunc (env : Env) : jwt.Keyfunc :=
  fun token =>
    match jwt.Method token with
    | Some (jwt.SigningMethodHMAC _) =>
        Some (utils.GetEnv env "JWT_SECRET" "your-secret-key")
    | _ => None
    end.

Definition reject (c : gin.Context) (msg : string) : gin.Context :=
  gin.Abort (gin.JSON c http.StatusUnauthorized (gin.failure msg)).

(** [Protect]; [next] is what [c.Next()] runs, the handlers behind
    the middleware. *)
Definition Protect (next : gin.HandlerFunc) : gin.HandlerFunc :=
  fun env coll c =>
  let authHeader := gin.GetHeader c "Authorization" in
  if String.eqb authHeader "" then
    (reject c "Authorization header required", coll)
  else
  let parts := gostrings.Split authHeader " " in
  if negb (length parts =? 2)%nat
     || negb (String.eqb (nth 0 parts "") "Bearer") then
    (reject c "Invalid authorization format, use Bearer {token}", coll)
  else
  let tokenString := nth 1 parts "" in
  let '(token, err) :=
    jwt.ParseWithClaims tokenString (keyFunc env) (clock env 0) in
  let claims :=
    match token with Some t => jwt.Claims t | None => ∅ end in
  if match err with Some _ => true | None => false end
     || negb (match token with Some t => jwt.Valid t | None => false end)
  then
    (reject c "Invalid or expired token", coll)
  else
  match claims !! "id" with
  | Some (JString userIDStr) =>
      match primitive.ObjectIDFromHex userIDStr with
      | None => (reject c "Invalid user ID in token", coll)
      | Some userID =>
          match mongo.FindOne (storeErr env 0) coll (mongo.ById userID) with
          | inl mongo.ErrNoDocuments => (reject c "User not found", coll)
          | inl _ =>
              (gin.Abort
                 (gin.JSON c http.StatusInternalServerError
                    (gin.failure "Failed to authenticate user")), coll)
          | inr d =>
              let user := bson.Decode d in
              let c := gin.Set_ c "user" (gin.KUser user) in
              let c := gin.Set_ c "userId" (gin.KObjectID userID) in
              next (advance 1 1 env) coll c
          end
      end
  | _ => (reject c "Invalid token payload", coll)
  end.

End Auth.

End middleware.

(** ** package controllers: the AuthController *)
Module controllers.

Section AuthController.
Context {E : Externals}.

(** [c.ShouldBindJSON] into the input struct of [Register]:
    [username] required; [email] required and an e-mail address;
    [password] required and of at least six characters. *)
Definition bindRegister (c : gin.Context)
  : option (string * string * string) :=
  match json_DecodeStrings (gin.Request_Body c)
          ["username"; "email"; "password"] with
  | Some [username; email; password] =>
      if negb (String.eqb username "")
         && negb (String.eqb email "") && validator_isEmail email
         && negb (String.eqb password "")
         && (6 <=? utf8_RuneCountInString password)
      then Some (username, email, password)
      else None
  | _ => None
  end.

(** The input struct of [Login]: [email] required and an e-mail
    address, [password] required. *)
Definition bindLogin (c : gin.Context) : option (string * string) :=
  match json_DecodeStrings (gin.Request_Body c) ["email"; "password"] with
  | Some [email; password] =>
      if negb (String.eqb email "") && validator_isEmail email
         && negb (String.eqb password "")
      then Some (email, password)
      else None
  | _ => None
  end.

(** The input struct of [RefreshToken]: [refreshToken] required. *)
Definition bindRefresh (c : gin.Context) : option string :=
  match json_DecodeStrings (gin.Request_Body c) ["refreshToken"] with
  | Some [refreshToken] =>
      if negb (String.eqb refreshToken "") then Some refreshToken
      else None
  | _ => None
  end.

(** [sendTokenResponse]: three readings of the clock (two in
    [GenerateAccessToken], one in [GenerateRefreshToken]) and one
    call to the store.  The third component tells whether an error
    is returned. *)
Definition sendTokenResponse (env : Env) (coll : mongo.Collection)
    (c : gin.Context) (user : models.User)
  : gin.Context * mongo.Collection * bool :=
  match utils.GenerateAccessToken env (primitive.Hex (models.ID user)) with
  | None => (c, coll, true)
  | Some accessToken =>
      let '(refreshToken, hashedRefreshToken, expireTime) :=
        utils.GenerateRefreshToken (advance 2 0 env) in
      let update :=
        mongo.SetRefresh (Some hashedRefreshToken) (Some expireTime) in
      match mongo.UpdateOne (storeErr env 0) coll
              (mongo.ById (models.ID user)) update with
      | inl _ => (c, coll, true)
      | inr coll' =>
          (gin.JSON c http.StatusOK
             (<["success" := gin.Bool true]>
                (<["token" := gin.Str accessToken]>
                   (<["refreshToken" := gin.Str refreshToken]>
                      (<["user" :=
                           gin.UserResponse (models.ToResponse user)]> ∅)))),
           coll', false)
      end
  end.

Definition tokenFailure (c : gin.Context) : gin.Context :=
  gin.JSON c http.StatusInternalServerError
    (gin.failure "Failed to generate authentication tokens").

Definition Register : gin.HandlerFunc :=
  fun env coll c =>
  match bindRegister c with
  | None =>
      (gin.JSON c http.StatusBadRequest
         (gin.failure "Invalid input data"), coll)
  | Some (username, email, password) =>
  match mongo.FindOne (storeErr env 0) coll
          (mongo.ByUsernameOrEmail username email) with
  | inr _ =>
      (gin.JSON c http.StatusBadRequest
         (gin.failure "Username or email already in use"), coll)
  | inl mongo.ErrStore =>
      (gin.JSON c http.StatusInternalServerError
         (gin.failure "Failed to check existing users"), coll)
  | inl mongo.ErrNoDocuments =>
  match bcrypt_GenerateFromPassword (salt env) password with
  | None =>
      (gin.JSON c http.StatusInternalServerError
         (gin.failure "Failed to process password"), coll)
  | Some hashedPassword =>
  let user := models.NewUser username email hashedPassword (clock env 0) in
  match mongo.InsertOne (storeErr env 1) coll
          (bson.Marshal user (freshID env)) with
  | inl _ =>
      (gin.JSON c http.StatusInternalServerError
         (gin.failure "Failed to create user"), coll)
  | inr (coll, insertedID) =>
  let user := models.withID user insertedID in
  match sendTokenResponse (advance 1 2 env) coll c user with
  | (_, coll, true) => (tokenFailure c, coll)
  | (c, coll, false) => (c, coll)
  end end end end end.

Definition Login : gin.HandlerFunc :=
  fun env coll c =>
  match bindLogin c with
  | None =>
      (gin.JSON c http.StatusBadRequest
         (gin.failure "Invalid input data"), coll)
  | Some (email, password) =>
  match mongo.FindOne (storeErr env 0) coll (mongo.ByEmail email) with
  | inl mongo.ErrNoDocuments =>
      (gin.JSON c http.StatusUnauthorized
         (gin.failure "Invalid credentials"), coll)
  | inl _ =>
      (gin.JSON c http.StatusInternalServerError
         (gin.failure "Failed to find user"), coll)
  | inr d =>
  let user := bson.Decode d in
  if negb (bcrypt_CompareHashAndPassword (models.Password user) password)
  then
    (gin.JSON c http.StatusUnauthorized
       (gin.failure "Invalid credentials"), coll)
  else
  match sendTokenResponse (advance 0 1 env) coll c user with
  | (_, coll, true) => (tokenFailure c, coll)
  | (c, coll, false) => (c, coll)
  end end end.

(** What [gin.Recovery] answers after a panic. *)
Definition recovered (c : gin.Context) : gin.Context :=
  gin.Abort (gin.JSON c http.StatusInternalServerError ∅).

(** The value under ["userId"] goes into the filter as it is; the
    middleware only ever stores an [ObjectID] there.  Any other
    value matches no [_id], and the type assertion of the last
    log line then panics. *)
Definition Logout : gin.HandlerFunc :=
  fun env coll c =>
  match gin.Get c "userId" with
  | None =>
      (gin.JSON c http.StatusUnauthorized
         (gin.failure "Not authenticated"), coll)
  | Some (gin.KObjectID userID) =>
      match mongo.UpdateOne (storeErr env 0) coll (mongo.ById userID)
              (mongo.SetRefresh None None) with
      | inl _ =>
          (gin.JSON c http.StatusInternalServerError
             (gin.failure "Failed to complete logout"), coll)
      | inr coll =>
          (gin.JSON c http.StatusOK
             (<["success" := gin.Bool true]>
                (<["message" := gin.Str "Logged out successfully"]> ∅)),
           coll)
      end
  | Some _ =>
      if storeErr env 0 then
        (gin.JSON c http.StatusInternalServerError
           (gin.failure "Failed to complete logout"), coll)
      else (recovered c, coll)
  end.

Definition RefreshToken : gin.HandlerFunc :=
  fun env coll c =>
  match bindRefresh c with
  | None =>
      (gin.JSON c http.StatusBadRequest
         (gin.failure "Refresh token is required"), coll)
  | Some refreshToken =>
  let hashedToken := utils.HashString refreshToken in
  match mongo.FindOne (storeErr env 0) coll
          (mongo.ByRefreshToken hashedToken (clock env 0)) with
  | inl mongo.ErrNoDocuments =>
      (gin.JSON c http.StatusUnauthorized
         (gin.failure "Invalid or expired refresh token"), coll)
  | inl _ =>
      (gin.JSON c http.StatusInternalServerError
         (gin.failure "Failed to validate refresh token"), coll)
  | inr d =>
  let user := bson.Decode d in
  match sendTokenResponse (advance 1 1 env) coll c user with
  | (_, coll, true) => (tokenFailure c, coll)
  | (c, coll, false) => (c, coll)
  end end end.

(** [GetMe]: the value under "user" is asserted to be
    a [models.User]. *)
Definition GetMe : gin.HandlerFunc :=
  fun env coll c =>
  match gin.Get c "user" with
  | None =>
      (gin.JSON c http.StatusUnauthorized
         (gin.failure "Not authenticated"), coll)
  | Some (gin.KUser userObj) =>
      (gin.JSON c http.StatusOK
         (<["success" := gin.Bool true]>
            (<["data" := gin.UserResponse (models.ToResponse userObj)]> ∅)),
       coll)
  | Some _ =>
      (gin.JSON c http.StatusInternalServerError
         (gin.failure "Failed to get user data"), coll)
  end.

End AuthController.

End controllers.

(** ** The routes of [SetupAuthRoutes] *)
Module routes.

Section Routes.
Context {E : Externals}.

Inductive Route : Type :=
  | PostRegister
  | PostLogin
  | PostRefreshToken
  | PostLogout.

Definition handler (r : Route) : gin.HandlerFunc :=
  match r with
  | PostRegister => controllers.Register
  | PostLogin => controllers.Login
  | PostRefreshToken => controllers.RefreshToken
  | PostLogout => middleware.Protect controllers.Logout
  end.

(** The collections the service can bring about from an empty
    one, request after request. *)
Inductive reachable : mongo.Collection -> Prop :=
  | reachable_empty : reachable []
  | reachable_serve (r : Route) (env : Env) (c : gin.Context)
      (coll : mongo.Collection) :
      reachable coll -> reachable (handler r env coll c).2.

End Routes.

End routes.

(** ** package strconv *)
Module strconv.

Definition maxUint64 : Z := 18446744073709551615.
Definition maxInt64 : Z := 9223372036854775807.
Definition minInt64 : Z := -9223372036854775808.

(** The scan of [ParseUint] in base 10 and 64 bits: the digits are
    taken from the left; a byte that is no digit ends it with a
    syntax error, a value beyond [maxUint64] ends it with a range
    error, whatever follows. *)
Inductive Scan : Type :=
  | Value (n : Z)
  | ErrSyntax
  | ErrRange.

Fixpoint scan (s : string) (n : Z) : Scan :=
  match s with
  | EmptyString => Value n
  | String ch rest =>
      let d := Z.of_N (N_of_ascii ch) - 48 in
      if (d <? 0) || (9 <? d) then ErrSyntax
      else if maxUint64 <? n * 10 + d then ErrRange
      else scan rest (n * 10 + d)
  end.

(** [strconv.Atoi] with its error dropped, as in [n, _ := Atoi(s)]:
    0 after a syntax error, the nearest bound of [int] after a range
    error. *)
Definition Atoi (s : string) : Z :=
  match s with
  | EmptyString => 0
  | String ch rest =>
      let neg := Ascii.eqb ch "-" in
      let digits := if neg || Ascii.eqb ch "+" then rest else s in
      match digits with
      | EmptyString => 0
      | _ =>
          match scan digits 0 with
          | ErrSyntax => 0
          | ErrRange => if neg then minInt64 else maxInt64
          | Value un =>
              if negb neg && (maxInt64 <? un) then maxInt64
              else if neg && (maxInt64 + 1 <? un) then minInt64
              else if neg then - un else un
          end
      end
  end.

End strconv.

(** Arithmetic on Go's [int], 64 bits wide with wrap-around. *)
Module goint.

Definition wrap (z : Z) : Z :=
  (z + 9223372036854775808) mod 18446744073709551616 - 9223372036854775808.

Definition add (a b : Z) : Z := wrap (a + b).
Definition sub (a b : Z) : Z := wrap (a - b).
Definition mul (a b : Z) : Z := wrap (a * b).

(** Division truncates toward zero. *)
Definition div (a b : Z) : Z := wrap (Z.quot a b).

End goint.

(** ** package models: tasks *)
Module task.

Record Task : Type := {
  ID : primitive.ObjectID;
  Title : string;
  Description : string;
  Completed : bool;
  DueDate : option time.Time;
  Priority : string;
  User : primitive.ObjectID;
  CreatedAt : time.Time;
  UpdatedAt : time.Time;
}.

Definition NewTask (title : string) (userID : primitive.ObjectID)
    (now : time.Time) : Task :=
  {| ID := primitive.NilObjectID;
     Title := title;
     Description := "";
     Completed := false;
     DueDate := None;
     Priority := "medium";
     User := userID;
     CreatedAt := now;
     UpdatedAt := now |}.

(** A document of the tasks collection, by the [bson] tags of
    [models.Task]. *)
Record D : Type := {
  _id : primitive.ObjectID;
  title : string;
  description : bson.Field string;
  completed : bool;
  dueDate : bson.Field primitive.DateTime;
  priority : string;
  user : primitive.ObjectID;
  createdAt : primitive.DateTime;
  updatedAt : primitive.DateTime;
}.

(** Encoding of a [Task]: a zero [ID] is left out and the driver
    mints [id]; an empty [Description] and a nil [DueDate] are left
    out. *)
Definition Marshal (t : Task) (id : primitive.ObjectID) : D :=
  {| _id := if String.eqb (ID t) primitive.NilObjectID then id else ID t;
     title := Title t;
     description :=
       if String.eqb (Description t) "" then bson.Absent
       else bson.Value (Description t);
     completed := Completed t;
     dueDate :=
       match DueDate t with
       | None => bson.Absent
       | Some d => bson.Value (primitive.NewDateTimeFromTime d)
       end;
     priority := Priority t;
     user := User t;
     createdAt := primitive.NewDateTimeFromTime (CreatedAt t);
     updatedAt := primitive.NewDateTimeFromTime (UpdatedAt t) |}.

Definition Decode (d : D) : Task :=
  {| ID := _id d;
     Title := title d;
     Description :=
       match description d with bson.Value s => s | _ => "" end;
     Completed := completed d;
     DueDate :=
       match dueDate d with
       | bson.Value t => Some (primitive.Time t)
       | _ => None
       end;
     Priority := priority d;
     User := user d;
     CreatedAt := primitive.Time (createdAt d);
     UpdatedAt := primitive.Time (updatedAt d) |}.

(** The tasks collection in its natural order. *)
Definition Collection := list D.

(** [bson.M{"_id": id}]. *)
Definition byID (id : primitive.ObjectID) (d : D) : bool :=
  String.eqb (_id d) id.

Definition FindOne (fail : bool) (coll : Collection)
    (id : primitive.ObjectID) : mongo.Error + D :=
  if fail then inl mongo.ErrStore
  else match List.find (byID id) coll with
       | Some d => inr d
       | None => inl mongo.ErrNoDocuments
       end.

Definition InsertOne (fail : bool) (coll : Collection) (d : D)
  : mongo.Error + (Collection * primitive.ObjectID) :=
  if fail then inl mongo.ErrStore
  else if existsb (byID (_id d)) coll then inl mongo.ErrStore
  else inr ((coll ++ [d])%list, _id d).

(** The first document that matches is replaced by its image. *)
Fixpoint updateFirst (id : primitive.ObjectID) (f : D -> D)
    (coll : Collection) : Collection :=
  match coll with
  | [] => []
  | d :: rest =>
      if byID id d then f d :: rest else d :: updateFirst id f rest
  end.

(** The first document that matches is removed. *)
Fixpoint deleteFirst (id : primitive.ObjectID) (coll : Collection)
  : Collection :=
  match coll with
  | [] => []
  | d :: rest => if byID id d then rest else d :: deleteFirst id rest
  end.

(** The input struct of [CreateTask] and [UpdateTask]. *)
Record Input : Type := {
  in_Title : string;
  in_Description : string;
  in_Completed : bool;
  in_DueDate : option time.Time;
  in_Priority : string;
}.

(** The values the task handlers put into a [gin.H]. *)
Inductive Any : Type :=
  | Bool (b : bool)
  | Str (s : string)
  | Int (n : Z)
  | One (t : Task)
  | Many (ts : list Task)
  | Pagination (total page limit totalPages : Z)
  | Empty.

Record Reply : Type := {
  Status : Z;
  Body : gmap string Any;
}.

Definition failure (code : Z) (msg : string) : Reply :=
  {| Status := code;
     Body := <["success" := Bool false]> (<["error" := Str msg]> ∅) |}.

Definition success (code : Z) (data : Any) : Reply :=
  {| Status := code;
     Body := <["success" := Bool true]> (<["data" := data]> ∅) |}.

End task.

(** What the task handlers take from outside, besides [Externals]:
    the decoding of a request body into the input struct (zero
    values for the fields the body does not mention; [None] is the
    error), and the order in which the store hands out the documents
    of a [Find] for a sort document [{field: order}]. *)
Class TaskExternals : Type := {
  json_DecodeInput : string -> option task.Input;
  store_sort : string -> Z -> list task.D -> list task.D;
}.

(** The store returns every document once, in some order. *)
Class SortLaws (T : TaskExternals) : Prop := {
  store_sort_Permutation :
    forall field order l, Permutation (store_sort field order l) l;
}.

(** ** package controllers: the TaskController *)
Module TaskController.

Section Handlers.
Context {T : TaskExternals}.

Definition StatusCreated : Z := 201.
Definition StatusForbidden : Z := 403.
Definition StatusNotFound : Z := 404.

(** [task.User != userID], the right-hand side being the value found
    under "userId": equal only to an [ObjectID] with the same
    bytes. *)
Definition owns (userID : gin.KeyValue) (owner : primitive.ObjectID) : bool :=
  match userID with
  | gin.KObjectID u => String.eqb owner u
  | gin.KUser _ => false
  end.

(** The page and the page size [GetTasks] works with. *)
Definition pageOf (query : string -> string) : Z :=
  let page := strconv.Atoi (utils.GetQueryDefault query "page" "1") in
  if page <? 1 then 1 else page.

Definition limitOf (query : string -> string) : Z :=
  let limit := strconv.Atoi (utils.GetQueryDefault query "limit" "10") in
  if (limit <? 1) || (100 <? limit) then 10 else limit.

Definition skipOf (query : string -> string) : Z :=
  goint.mul (goint.sub (pageOf query) 1) (limitOf query).

Definition totalPagesOf (total limit : Z) : Z :=
  goint.div (goint.sub (goint.add total limit) 1) limit.

(** The query document of [GetTasks]: the caller's tasks, narrowed
    by [completed] and [priority] when the request carries them. *)
Definition selected (query : string -> string) (userID : gin.KeyValue)
    (d : task.D) : bool :=
  owns userID (task.user d)
  && (if String.eqb (query "completed") "" then true
      else Bool.eqb (task.completed d) (String.eqb (query "completed") "true"))
  && (if String.eqb (query "priority") "" then true
      else String.eqb (task.priority d) (query "priority")).

(** The sort document of [GetTasks]. *)
Definition sortOf (query : string -> string) : string * Z :=
  let sortField := query "sort" in
  let sortDir := utils.GetQueryDefault query "sortDir" "asc" in
  if negb (String.eqb sortField "") then
    (sortField, if String.eqb sortDir "desc" then -1 else 1)
  else ("createdAt", -1).

(** [GetTasks]: three calls to the store ([CountDocuments], [Find],
    the cursor's [All]).  The store refuses a negative skip. *)
Definition GetTasks (query : string -> string) (env : Env)
    (coll : task.Collection) (c : gin.Context) : task.Reply :=
  match gin.Get c "userId" with
  | None => task.failure http.StatusUnauthorized "User not authenticated"
  | Some userID =>
      let page := pageOf query in
      let limit := limitOf query in
      let skip := skipOf query in
      let found := List.filter (selected query userID) coll in
      if storeErr env 0 then
        task.failure http.StatusInternalServerError "Failed to count tasks"
      else
      let total := Z.of_nat (length found) in
      if storeErr env 1 || (skip <? 0) then
        task.failure http.StatusInternalServerError "Failed to fetch tasks"
      else
      if storeErr env 2 then
        task.failure http.StatusInternalServerError "Failed to parse tasks"
      else
      let tasks :=
        List.map task.Decode
          (List.firstn (Z.to_nat limit)
             (List.skipn (Z.to_nat skip)
                (store_sort (sortOf query).1 (sortOf query).2 found))) in
      {| task.Status := http.StatusOK;
         task.Body :=
           <["success" := task.Bool true]>
             (<["pagination" :=
                  task.Pagination total page limit (totalPagesOf total limit)]>
                (<["count" := task.Int (Z.of_nat (length tasks))]>
                   (<["data" := task.Many tasks]> ∅))) |}
  end.

(** [GetTask]; [id] is [c.Param("id")]. *)
Definition GetTask (id : string) (env : Env) (coll : task.Collection)
    (c : gin.Context) : task.Reply :=
  match gin.Get c "userId" with
  | None => task.failure http.StatusUnauthorized "User not authenticated"
  | Some userID =>
  match primitive.ObjectIDFromHex id with
  | None => task.failure http.StatusBadRequest "Invalid task ID format"
  | Some objectID =>
  match task.FindOne (storeErr env 0) coll objectID with
  | inl mongo.ErrNoDocuments => task.failure StatusNotFound "Task not found"
  | inl _ =>
      task.failure http.StatusInternalServerError "Failed to fetch task"
  | inr d =>
      let t := task.Decode d in
      if negb (owns userID (task.User t)) then
        task.failure StatusForbidden "Not authorized to access this task"
      else task.success http.StatusOK (task.One t)
  end end end.

(** The check both writing handlers make on the priority. *)
Definition badPriority (p : string) : bool :=
  negb (String.eqb p "") && negb (String.eqb p "low")
  && negb (String.eqb p "medium") && negb (String.eqb p "high").

(** What [gin.Recovery] answers after a panic. *)
Definition recovered : task.Reply :=
  {| task.Status := http.StatusInternalServerError; task.Body := ∅ |}.

(** [CreateTask]: one reading of the clock, one call to the store.
    The type assertion on the value under "userId" panics for
    anything but an [ObjectID]. *)
Definition CreateTask (env : Env) (coll : task.Collection)
    (c : gin.Context) : task.Reply * task.Collection :=
  match gin.Get c "userId" with
  | None =>
      (task.failure http.StatusUnauthorized "User not authenticated", coll)
  | Some userID =>
  match json_DecodeInput (gin.Request_Body c) with
  | None => (task.failure http.StatusBadRequest "Invalid input data", coll)
  | Some input =>
  if String.eqb (task.in_Title input) "" then
    (task.failure http.StatusBadRequest "Invalid input data", coll)
  else if badPriority (task.in_Priority input) then
    (task.failure http.StatusBadRequest
       "Priority must be one of: low, medium, high", coll)
  else
  match userID with
  | gin.KUser _ => (recovered, coll)
  | gin.KObjectID uid =>
      let t := task.NewTask (task.in_Title input) uid (clock env 0) in
      let t :=
        {| task.ID := task.ID t;
           task.Title := task.Title t;
           task.Description := task.in_Description input;
           task.Completed := task.in_Completed input;
           task.DueDate := task.in_DueDate input;
           task.Priority :=
             if negb (String.eqb (task.in_Priority input) "")
             then task.in_Priority input else task.Priority t;
           task.User := task.User t;
           task.CreatedAt := task.CreatedAt t;
           task.UpdatedAt := task.UpdatedAt t |} in
      match task.InsertOne (storeErr env 0) coll
              (task.Marshal t (freshID env)) with
      | inl _ =>
          (task.failure http.StatusInternalServerError
             "Failed to create task", coll)
      | inr (coll, insertedID) =>
          (task.success StatusCreated
             (task.One
                {| task.ID := insertedID;
                   task.Title := task.Title t;
                   task.Description := task.Description t;
                   task.Completed := task.Completed t;
                   task.DueDate := task.DueDate t;
                   task.Priority := task.Priority t;
                   task.User := task.User t;
                   task.CreatedAt := task.CreatedAt t;
                   task.UpdatedAt := task.UpdatedAt t |}), coll)
      end
  end end end.

(** The [$set] document of [UpdateTask], applied to a stored task:
    [updatedAt] and [completed] always; the other fields only when
    the input carries a value for them. *)
Definition updateSet (input : task.Input) (now : time.Time) (d : task.D)
  : task.D :=
  {| task._id := task._id d;
     task.title :=
       if negb (String.eqb (task.in_Title input) "")
       then task.in_Title input else task.title d;
     task.description :=
       if negb (String.eqb (task.in_Description input) "")
       then bson.Value (task.in_Description input) else task.description d;
     task.completed := task.in_Completed input;
     task.dueDate :=
       match task.in_DueDate input with
       | Some t => bson.Value (primitive.NewDateTimeFromTime t)
       | None => task.dueDate d
       end;
     task.priority :=
       if negb (String.eqb (task.in_Priority input) "")
       then task.in_Priority input else task.priority d;
     task.user := task.user d;
     task.createdAt := task.createdAt d;
     task.updatedAt := primitive.NewDateTimeFromTime now |}.

(** [UpdateTask]: three calls to the store, one reading of the
    clock. *)
Definition UpdateTask (id : string) (env : Env) (coll : task.Collection)
    (c : gin.Context) : task.Reply * task.Collection :=
  match gin.Get c "userId" with
  | None =>
      (task.failure http.StatusUnauthorized "User not authenticated", coll)
  | Some userID =>
  match primitive.ObjectIDFromHex id with
  | None =>
      (task.failure http.StatusBadRequest "Invalid task ID format", coll)
  | Some objectID =>
  match json_DecodeInput (gin.Request_Body c) with
  | None => (task.failure http.StatusBadRequest "Invalid input data", coll)
  | Some input =>
  if badPriority (task.in_Priority input) then
    (task.failure http.StatusBadRequest
       "Priority must be one of: low, medium, high", coll)
  else
  match task.FindOne (storeErr env 0) coll objectID with
  | inl mongo.ErrNoDocuments =>
      (task.failure StatusNotFound "Task not found", coll)
  | inl _ =>
      (task.failure http.StatusInternalServerError "Failed to fetch task",
       coll)
  | inr existing =>
  if negb (owns userID (task.User (task.Decode existing))) then
    (task.failure StatusForbidden "Not authorized to update this task", coll)
  else
  if storeErr env 1 then
    (task.failure http.StatusInternalServerError "Failed to update task",
     coll)
  else
  let coll := task.updateFirst objectID (updateSet input (clock env 0)) coll in
  match task.FindOne (storeErr env 2) coll objectID with
  | inl _ =>
      (task.failure http.StatusInternalServerError
         "Failed to retrieve updated task", coll)
  | inr updated =>
      (task.success http.StatusOK (task.One (task.Decode updated)), coll)
  end end end end end.

(** [DeleteTask]: two calls to the store. *)
Definition DeleteTask (id : string) (env : Env) (coll : task.Collection)
    (c : gin.Context) : task.Reply * task.Collection :=
  match gin.Get c "userId" with
  | None =>
      (task.failure http.StatusUnauthorized "User not authenticated", coll)
  | Some userID =>
  match primitive.ObjectIDFromHex id with
  | None =>
      (task.failure http.StatusBadRequest "Invalid task ID format", coll)
  | Some objectID =>
  match task.FindOne (storeErr env 0) coll objectID with
  | inl mongo.ErrNoDocuments =>
      (task.failure StatusNotFound "Task not found", coll)
  | inl _ =>
      (task.failure http.StatusInternalServerError "Failed to fetch task",
       coll)
  | inr d =>
  if negb (owns userID (task.User (task.Decode d))) then
    (task.failure StatusForbidden "Not authorized to delete this task", coll)
  else
  if storeErr env 1 then
    (task.failure http.StatusInternalServerError "Failed to delete task",
     coll)
  else
    (task.success http.StatusOK task.Empty, task.deleteFirst objectID coll)
  end end end.

End Handlers.

End TaskController.

(** ** package routes: the task routes *)
Module TaskRoutes.

Section Routes.
Context {E : Externals} {T : TaskExternals}.

(** The routes of [SetupTaskRoutes], each with what gin takes from
    the URL for it: the query string of the list, the path parameter
    [id] of the others. *)
Inductive Route : Type :=
  | GetTasks (query : string -> string)
  | GetTask (id : string)
  | PostTask
  | PutTask (id : string)
  | DeleteTask (id : string).

Definition handler (r : Route) (env : Env) (coll : task.Collection)
    (c : gin.Context) : task.Reply * task.Collection :=
  match r with
  | GetTasks query => (TaskController.GetTasks query env coll c, coll)
  | GetTask id => (TaskController.GetTask id env coll c, coll)
  | PostTask => TaskController.CreateTask env coll c
  | PutTask id => TaskController.UpdateTask id env coll c
  | DeleteTask id => TaskController.DeleteTask id env coll c
  end.

(** [tasks.Use(authMiddleware.Protect())]: the chain of a task route
    is [Protect] and then the handler.  The call [c.Next()] is the
    last statement of [Protect], so the handler runs on the context
    [Protect] leaves, unless the chain was aborted, after one reading
    of the clock and one call to the store.  The answer is the
    context the middleware aborted with, or the reply of the
    handler. *)
Definition serve (r : Route) (env : Env) (users : mongo.Collection)
    (tasks : task.Collection) (c : gin.Context)
  : (gin.Context + task.Reply) * task.Collection :=
  let gate := middleware.Protect (fun _ coll c' => (c', coll)) env users c in
  if gin.IsAborted gate.1 then (inl gate.1, tasks)
  else
    let out := handler r (advance 1 1 env) tasks gate.1 in
    (inr out.1, out.2).

End Routes.

End TaskRoutes.

(** ** A sample instance of the externals

    Small stand-ins for the library functions, with which the
    handlers can be run on concrete requests and which show that
    [CodecLaws] can be met.  Segments are written in hexadecimal
    instead of base64url; a claims map is written as the binary
    digits of its code as a countable value. *)
Module Sample.

Fixpoint JValue_to_tree (v : JValue) : gen_tree (bool + Z + string) :=
  match v with
  | JNull => GenNode 0 []
  | JBool b => GenLeaf (inl (inl b))
  | JNumber n => GenLeaf (inl (inr n))
  | JString s => GenLeaf (inr s)
  | JArray l => GenNode 1 (List.map JValue_to_tree l)
  | JObject kvs =>
      GenNode 2
        (List.map (fun kv => match kv with
                             | (k, v) =>
                                 GenNode 3 [GenLeaf (inr k); JValue_to_tree v]
                             end) kvs)
  end.

Fixpoint tree_to_JValue (t : gen_tree (bool + Z + string)) : JValue :=
  match t with
  | GenLeaf (inl (inl b)) => JBool b
  | GenLeaf (inl (inr n)) => JNumber n
  | GenLeaf (inr s) => JString s
  | GenNode 0 _ => JNull
  | GenNode 1 ts => JArray (List.map tree_to_JValue ts)
  | GenNode _ ts =>
      JObject
        (List.map (fun t => match t with
                            | GenNode _ [GenLeaf (inr k); tv] =>
                                (k, tree_to_JValue tv)
                            | _ => ("", JNull)
                            end) ts)
  end.

Lemma tree_to_JValue_to_tree (v : JValue) :
  tree_to_JValue (JValue_to_tree v) = v.
Proof.
  revert v. fix IH 1.
  intros [ | b | n | s | l | kvs]; simpl; try reflexivity.
  - f_equal. induction l as [ | x l IHl]; simpl; [reflexivity | ].
    f_equal; [apply IH | apply IHl].
  - f_equal. induction kvs as [ | [k x] kvs IHl]; simpl; [reflexivity | ].
    f_equal; [f_equal; apply IH | apply IHl].
Qed.

#[export] Instance JValue_eq_dec : EqDecision JValue.
Proof.
  refine (fun x y =>
    match decide (JValue_to_tree x = JValue_to_tree y) with
    | left H => left _
    | right H => right _
    end).
  - rewrite <- (tree_to_JValue_to_tree x), <- (tree_to_JValue_to_tree y).
    now rewrite H.
  - intros ->. now apply H.
Defined.

#[export] Instance JValue_countable : Countable JValue :=
  inj_countable' JValue_to_tree tree_to_JValue tree_to_JValue_to_tree.

Fixpoint digits (p : positive) : string :=
  match p with
  | xH => EmptyString
  | xO q => String "0" (digits q)
  | xI q => String "1" (digits q)
  end.

Fixpoint undigits (s : string) : option positive :=
  match s with
  | EmptyString => Some xH
  | String c rest =>
      match undigits rest with
      | None => None
      | Some q =>
          if Ascii.eqb c "0" then Some (xO q)
          else if Ascii.eqb c "1" then Some (xI q)
          else None
      end
  end.

Definition parseDuration (s : string) : option time.Duration :=
  if String.eqb s "24h" then Some (24 * time.Hour)
  else if String.eqb s "1h" then Some time.Hour
  else if String.eqb s "1s" then Some time.Second
  else None.

Definition externals : Externals := {|
  sha256_Sum256 := fun s => String.append "sha256:" s;
  hmac_Sum := fun _ key msg => String.append key (String.append "|" msg);
  bcrypt_GenerateFromPassword :=
    fun salt pw => Some (String.append "bcrypt:" pw);
  bcrypt_CompareHashAndPassword :=
    fun hash pw => String.eqb hash (String.append "bcrypt:" pw);
  time_ParseDuration := parseDuration;
  EncodeSegment := hex.EncodeToString;
  DecodeSegment := hex.DecodeString;
  json_Marshal := fun m => digits (encode m);
  json_Unmarshal := fun s => undigits s ≫= decode;
  json_DecodeStrings :=
    fun body fields =>
      let vs := gostrings.Split body "," in
      if (length vs =? length fields)%nat then Some vs else None;
  validator_isEmail := fun s => gostrings.Contains s "@";
  utf8_RuneCountInString := fun s => Z.of_nat (String.length s);
|}.

End Sample.

(** ** A sample instance of the task externals *)
Module SampleTasks.

(** A stand-in for the JSON decoding of a task body: the four text
    fields separated by commas, [completed] being "true" or not; no
    due date. *)
Definition decodeInput (body : string) : option task.Input :=
  match gostrings.Split body "," with
  | [title; description; completed; priority] =>
      Some {| task.in_Title := title;
              task.in_Description := description;
              task.in_Completed := String.eqb completed "true";
              task.in_DueDate := None;
              task.in_Priority := priority |}
  | _ => None
  end.

(** The date a document is ordered by; the other fields leave the
    natural order. *)
Definition key (field : string) (d : task.D) : Z :=
  if String.eqb field "createdAt" then task.createdAt d
  else if String.eqb field "updatedAt" then task.updatedAt d
  else 0.

Fixpoint insertBy (field : string) (order : Z) (d : task.D)
    (l : list task.D) : list task.D :=
  match l with
  | [] => [d]
  | x :: rest =>
      if order * key field d <=? order * key field x then d :: l
      else x :: insertBy field order d rest
  end.

Definition sort (field : string) (order : Z) (l : list task.D)
  : list task.D :=
  List.fold_right (insertBy field order) [] l.

Definition externals : TaskExternals := {|
  json_DecodeInput := decodeInput;
  store_sort := sort;
|}.

End SampleTasks.

(** * Properties *)

(** ** Hexadecimal text *)
Section HexFacts.

(** The alphabet of [hex.EncodeToString]. *)
Definition isLowerHexChar (c : ascii) : bool :=
  let n := N_of_ascii c in
  ((48 <=? n)%N && (n <=? 57)%N) || ((97 <=? n)%N && (n <=? 102)%N).

Fixpoint isLowerHex (s : string) : bool :=
  match s with
  | EmptyString => true
  | String c rest => isLowerHexChar c && isLowerHex rest
  end.

Lemma hex_byte_roundtrip (v : ascii) :
  hex.fromHexChar (hex.hextable (N_of_ascii v / 16)) = Some (N_of_ascii v / 16)%N
  /\ hex.fromHexChar (hex.hextable (N_of_ascii v mod 16)) = Some (N_of_ascii v mod 16)%N
  /\ ascii_of_N (N_of_ascii v / 16 * 16 + N_of_ascii v mod 16) = v.
Proof.
  destruct v as [[] [] [] [] [] [] [] []]; vm_compute; auto.
Qed.

Lemma hex_byte_alphabet (v : ascii) :
  isLowerHexChar (hex.hextable (N_of_ascii v / 16)) = true
  /\ isLowerHexChar (hex.hextable (N_of_ascii v mod 16)) = true.
Proof.
  destruct v as [[] [] [] [] [] [] [] []]; vm_compute; auto.
Qed.

Lemma DecodeString_EncodeToString (s : string) :
  hex.DecodeString (hex.EncodeToString s) = Some s.
Proof.
  induction s as [ | v s IH]; [reflexivity | ].
  cbn [hex.EncodeToString hex.DecodeString].
  destruct (hex_byte_roundtrip v) as (-> & -> & Hv).
  now rewrite IH, Hv.
Qed.

Lemma EncodeToString_length (s : string) :
  String.length (hex.EncodeToString s) = (2 * String.length s)%nat.
Proof.
  induction s as [ | v s IH]; [reflexivity | ].
  cbn [hex.EncodeToString String.length]. rewrite IH. lia.
Qed.

Lemma EncodeToString_alphabet (s : string) :
  isLowerHex (hex.EncodeToString s) = true.
Proof.
  induction s as [ | v s IH]; [reflexivity | ].
  cbn [hex.EncodeToString isLowerHex].
  destruct (hex_byte_alphabet v) as (-> & ->). now rewrite IH.
Qed.

Lemma isLowerHex_Contains (s : string) (sep : ascii) :
  isLowerHexChar sep = false ->
  isLowerHex s = true -> gostrings.Contains s sep = false.
Proof.
  intros Hsep. induction s as [ | c s IH]; [reflexivity | ].
  cbn [isLowerHex gostrings.Contains]. intros [Hc Hs]%andb_prop.
  rewrite (IH Hs), orb_false_r.
  destruct (Ascii.eqb_spec c sep) as [-> | ]; [congruence | reflexivity].
Qed.

Lemma EncodeToString_inj (s1 s2 : string) :
  hex.EncodeToString s1 = hex.EncodeToString s2 -> s1 = s2.
Proof.
  intros H. apply (f_equal hex.DecodeString) in H.
  rewrite !DecodeString_EncodeToString in H. congruence.
Qed.

Lemma ObjectIDFromHex_Hex (id : primitive.ObjectID) :
  String.length id = 12%nat ->
  primitive.ObjectIDFromHex (primitive.Hex id) = Some id.
Proof.
  intros Hlen. unfold primitive.ObjectIDFromHex, primitive.Hex.
  rewrite EncodeToString_length, Hlen. cbn [Nat.mul Nat.add Nat.eqb negb].
  apply DecodeString_EncodeToString.
Qed.

End HexFacts.

(** ** Splitting *)
Section SplitFacts.

Lemma Split_not_nil (s : string) (sep : ascii) : gostrings.Split s sep <> [].
Proof.
  destruct s as [ | c s]; cbn [gostrings.Split]; [discriminate | ].
  destruct (Ascii.eqb c sep); [discriminate | ].
  destruct (gostrings.Split s sep); discriminate.
Qed.

Lemma Split_no_sep (s : string) (sep : ascii) :
  gostrings.Contains s sep = false -> gostrings.Split s sep = [s].
Proof.
  induction s as [ | c s IH];
    cbn [gostrings.Split gostrings.Contains]; [reflexivity | ].
  intros [Hc Hs]%orb_false_elim. rewrite Hc, (IH Hs). reflexivity.
Qed.

Lemma append_nil_l (s : string) : "" +:+ s = s.
Proof. reflexivity. Qed.

Lemma append_cons (c : ascii) (a b : string) :
  String c a +:+ b = String c (a +:+ b).
Proof. reflexivity. Qed.

Lemma append_assoc (a b c : string) : (a +:+ b) +:+ c = a +:+ (b +:+ c).
Proof.
  induction a as [ | x a IH]; [reflexivity | ].
  now rewrite !append_cons, IH.
Qed.

Lemma Split_app (a b : string) (sep : ascii) :
  gostrings.Contains a sep = false ->
  gostrings.Split (a +:+ String sep b) sep = a :: gostrings.Split b sep.
Proof.
  induction a as [ | c a IH]; rewrite ?append_nil_l, ?append_cons;
    cbn [gostrings.Split gostrings.Contains].
  - intros _. now rewrite Ascii.eqb_refl.
  - intros [Hc Ha]%orb_false_elim. rewrite Hc.
    now rewrite (IH Ha).
Qed.

(** A string splits into a single part exactly when the separator
    does not occur in it. *)
Lemma Split_singleton (s : string) (sep : ascii) :
  length (gostrings.Split s sep) = 1%nat ->
  gostrings.Contains s sep = false.
Proof.
  induction s as [ | c s IH];
    cbn [gostrings.Split gostrings.Contains]; [reflexivity | ].
  destruct (Ascii.eqb c sep).
  - cbn. pose proof (Split_not_nil s sep).
    destruct (gostrings.Split s sep); [congruence | discriminate].
  - destruct (gostrings.Split s sep) eqn:Hs; cbn; intros H.
    + now apply Split_not_nil in Hs.
    + apply IH. cbn. exact H.
Qed.

End SplitFacts.

(** ** The header gate of the middleware *)
Section HeaderGate.
Context {E : Externals}.

(** C3.  A request whose Authorization header is missing ([GetHeader]
    yields the empty string) is answered 401 "Authorization header
    required".  A request whose header is present but does not split
    on spaces into exactly two parts, or whose first part is not
    exactly "Bearer", is answered 401 "Invalid authorization format,
    use Bearer {token}".  In both cases the chain is aborted, the
    collection is untouched, and the outcome is the same whatever
    handler [next] stands behind the middleware: that handler is not
    run. *)
Theorem C3_header_gate (next : gin.HandlerFunc) (env : Env)
    (coll : mongo.Collection) (c : gin.Context) :
  let authHeader := gin.GetHeader c "Authorization" in
  let parts := gostrings.Split authHeader " " in
  (authHeader = "" ->
     middleware.Protect next env coll c
     = (gin.Abort (gin.JSON c http.StatusUnauthorized
                     (gin.failure "Authorization header required")), coll))
  /\ (authHeader <> "" ->
      length parts <> 2%nat \/ nth 0 parts "" <> "Bearer" ->
      middleware.Protect next env coll c
      = (gin.Abort (gin.JSON c http.StatusUnauthorized
                      (gin.failure
                         "Invalid authorization format, use Bearer {token}")),
         coll)).
Proof.
  cbn zeta. split.
  - intros H. unfold middleware.Protect. rewrite H. reflexivity.
  - intros Hne Hbad. unfold middleware.Protect.
    destruct (String.eqb_spec (gin.GetHeader c "Authorization") "")
      as [? | _]; [contradiction | ].
    destruct Hbad as [Hlen | Hscheme].
    + apply Nat.eqb_neq in Hlen. rewrite Hlen. reflexivity.
    + apply String.eqb_neq in Hscheme. rewrite Hscheme.
      rewrite orb_true_r. reflexivity.
Qed.

End HeaderGate.

(** ** Parsing what was signed *)
Section Issued.
Context {E : Externals} {L : CodecLaws E}.

Lemma GetSigningMethod_Alg (m : jwt.SigningMethod) :
  jwt.GetSigningMethod (jwt.Alg m) = Some m.
Proof. destruct m as [[] | [] | [] | [] | | ]; reflexivity. Qed.

(** The compact form of a token: three segments between two dots. *)
Definition compact (hseg cseg sseg : string) : string :=
  hseg +:+ String "." (cseg +:+ String "." sseg).

Lemma Split_compact (a b c : string) :
  gostrings.Contains a "." = false ->
  gostrings.Contains b "." = false ->
  gostrings.Contains c "." = false ->
  gostrings.Split (compact a b c) "." = [a; b; c].
Proof.
  intros Ha Hb Hc. unfold compact.
  rewrite (Split_app _ _ _ Ha), (Split_app _ _ _ Hb).
  now rewrite (Split_no_sep _ _ Hc).
Qed.

Lemma Contains_app (a b : string) (sep : ascii) :
  gostrings.Contains (a +:+ b) sep
  = gostrings.Contains a sep || gostrings.Contains b sep.
Proof.
  induction a as [ | x a IH]; rewrite ?append_nil_l, ?append_cons;
    cbn [gostrings.Contains]; [reflexivity | ].
  now rewrite IH, orb_assoc.
Qed.

Lemma compact_no_space (a b c : string) :
  gostrings.Contains
    (compact (EncodeSegment a) (EncodeSegment b) (EncodeSegment c)) " "
  = false.
Proof.
  unfold compact.
  rewrite Contains_app. cbn [gostrings.Contains].
  rewrite Contains_app. cbn [gostrings.Contains].
  now rewrite !EncodeSegment_no_space.
Qed.

(** The header [NewWithClaims] writes. *)
Definition headerOf (m : jwt.SigningMethod) : gmap string JValue :=
  <["typ" := JString "JWT"]> (<["alg" := JString (jwt.Alg m)]> ∅).

(** What [SignedString] returns for a token made by [NewWithClaims]
    with an HMAC method. *)
Definition signed (h : Hash) (claims : jwt.MapClaims) (key : string)
  : string :=
  compact (EncodeSegment (json_Marshal (headerOf (jwt.SigningMethodHMAC h))))
    (EncodeSegment (json_Marshal claims))
    (EncodeSegment
       (hmac_Sum h key
          (EncodeSegment (json_Marshal (headerOf (jwt.SigningMethodHMAC h)))
           +:+ "." +:+ EncodeSegment (json_Marshal claims)))).

Lemma SignedString_NewWithClaims (h : Hash) (claims : jwt.MapClaims)
    (key : string) :
  jwt.SignedString (jwt.NewWithClaims (jwt.SigningMethodHMAC h) claims) key
  = Some (signed h claims key).
Proof.
  unfold jwt.SignedString, jwt.NewWithClaims, jwt.SigningString, signed,
    compact, headerOf. cbn [jwt.Method jwt.Header jwt.Claims jwt.Sign].
  f_equal. now rewrite !append_assoc.
Qed.

(** The token [ParseWithClaims] hands back for [signed h claims key]. *)
Definition parsed (h : Hash) (claims : jwt.MapClaims) (key : string)
    (valid : bool) : jwt.Token :=
  {| jwt.Raw := signed h claims key;
     jwt.Method := Some (jwt.SigningMethodHMAC h);
     jwt.Header := headerOf (jwt.SigningMethodHMAC h);
     jwt.Claims := claims;
     jwt.Signature :=
       hmac_Sum h key
         (EncodeSegment (json_Marshal (headerOf (jwt.SigningMethodHMAC h)))
          +:+ "." +:+ EncodeSegment (json_Marshal claims));
     jwt.Valid := valid |}.

Lemma ParseUnverified_signed (h : Hash) (claims : jwt.MapClaims)
    (key : string) :
  jwt.ParseUnverified (signed h claims key)
  = (Some {| jwt.Raw := signed h claims key;
             jwt.Method := Some (jwt.SigningMethodHMAC h);
             jwt.Header := headerOf (jwt.SigningMethodHMAC h);
             jwt.Claims := claims;
             jwt.Signature := "";
             jwt.Valid := false |},
     [EncodeSegment (json_Marshal (headerOf (jwt.SigningMethodHMAC h)));
      EncodeSegment (json_Marshal claims);
      EncodeSegment
        (hmac_Sum h key
           (EncodeSegment (json_Marshal (headerOf (jwt.SigningMethodHMAC h)))
            +:+ "." +:+ EncodeSegment (json_Marshal claims)))],
     None).
Proof.
  unfold jwt.ParseUnverified, signed.
  rewrite Split_compact by apply EncodeSegment_no_dot.
  cbn [length Nat.eqb negb nth].
  rewrite !DecodeSegment_EncodeSegment, !json_Unmarshal_Marshal.
  unfold headerOf at 1.
  rewrite lookup_insert_ne by discriminate. rewrite lookup_insert_eq.
  rewrite GetSigningMethod_Alg. reflexivity.
Qed.

(** A token signed under [key] with an HMAC method, parsed with a
    key function that answers [key] for it, passes the signature
    check; what remains is the validation of its claims. *)
Lemma ParseWithClaims_signed (h : Hash) (claims : jwt.MapClaims)
    (key : string) (keyFunc : jwt.Keyfunc) (now : time.Time) :
  keyFunc (parsed h claims key false) = Some key ->
  jwt.ParseWithClaims (signed h claims key) keyFunc now
  = match jwt.Validate claims now with
    | Some err => (Some (parsed h claims key false), Some err)
    | None => (Some (parsed h claims key true), None)
    end.
Proof.
  intros Hkey. unfold jwt.ParseWithClaims.
  rewrite ParseUnverified_signed. cbn [nth].
  rewrite DecodeSegment_EncodeSegment.
  cbn [jwt.Raw jwt.Method jwt.Header jwt.Claims].
  fold (parsed h claims key false). rewrite Hkey.
  cbn [jwt.Verify]. rewrite String.eqb_refl. cbn [negb].
  destruct (jwt.Validate claims now); reflexivity.
Qed.

End Issued.

(** ** The sample externals meet the laws *)
Section SampleLaws.

Lemma undigits_digits (p : positive) :
  Sample.undigits (Sample.digits p) = Some p.
Proof.
  induction p as [q IH | q IH | ];
    cbn [Sample.digits Sample.undigits]; try rewrite IH; reflexivity.
Qed.

Lemma Sample_laws : CodecLaws Sample.externals.
Proof.
  split; cbn.
  - apply DecodeString_EncodeToString.
  - intros m. rewrite undigits_digits. cbn. apply decode_encode.
  - intros b. apply isLowerHex_Contains; [reflexivity | ].
    apply EncodeToString_alphabet.
  - intros b. apply isLowerHex_Contains; [reflexivity | ].
    apply EncodeToString_alphabet.
Qed.

End SampleLaws.

(** ** The token stage of the middleware *)
Section TokenStage.
Context {E : Externals}.

(** The [alg] a token declares in its header, if it declares one. *)
Definition declaredAlg (tokenString : string) : option string :=
  match gostrings.Split tokenString "." with
  | hseg :: _ =>
      match DecodeSegment hseg with
      | Some headerBytes =>
          match json_Unmarshal headerBytes with
          | Some header =>
              match header !! "alg" with
              | Some (JString alg) => Some alg
              | _ => None
              end
          | None => None
          end
      | None => None
      end
  | [] => None
  end.

(** [alg] names one of the HMAC methods of the registry. *)
Definition isHMAC (alg : string) : bool :=
  match jwt.GetSigningMethod alg with
  | Some (jwt.SigningMethodHMAC _) => true
  | _ => false
  end.

Lemma Split_two_nonempty (s a b : string) :
  gostrings.Split s " " = [a; b] -> String.eqb s "" = false.
Proof. destruct s; [discriminate | reflexivity]. Qed.

(** Behind a well-formed header, a parse that ends in an error
    gives the one answer "Invalid or expired token". *)
Lemma Protect_parse_error (next : gin.HandlerFunc) (env : Env)
    (coll : mongo.Collection) (c : gin.Context) (tokenString : string)
    (token : option jwt.Token) (err : jwt.Error) :
  gostrings.Split (gin.GetHeader c "Authorization") " "
    = ["Bearer"; tokenString] ->
  jwt.ParseWithClaims tokenString (middleware.keyFunc env) (clock env 0)
    = (token, Some err) ->
  middleware.Protect next env coll c
  = (middleware.reject c "Invalid or expired token", coll).
Proof.
  intros Hsplit Hparse. unfold middleware.Protect.
  rewrite (Split_two_nonempty _ _ _ Hsplit), Hsplit.
  cbn [length Nat.eqb negb nth orb String.eqb Ascii.eqb Bool.eqb].
  rewrite Hparse. reflexivity.
Qed.

(** Behind a well-formed header and a successful parse, the answer
    is decided by the ["id"] claim and the store. *)
Lemma Protect_parse_ok (next : gin.HandlerFunc) (env : Env)
    (coll : mongo.Collection) (c : gin.Context) (tokenString : string)
    (token : jwt.Token) :
  gostrings.Split (gin.GetHeader c "Authorization") " "
    = ["Bearer"; tokenString] ->
  jwt.ParseWithClaims tokenString (middleware.keyFunc env) (clock env 0)
    = (Some token, None) ->
  jwt.Valid token = true ->
  middleware.Protect next env coll c
  = match jwt.Claims token !! "id" with
    | Some (JString userIDStr) =>
        match primitive.ObjectIDFromHex userIDStr with
        | None => (middleware.reject c "Invalid user ID in token", coll)
        | Some userID =>
            match mongo.FindOne (storeErr env 0) coll (mongo.ById userID) with
            | inl mongo.ErrNoDocuments =>
                (middleware.reject c "User not found", coll)
            | inl _ =>
                (gin.Abort
                   (gin.JSON c http.StatusInternalServerError
                      (gin.failure "Failed to authenticate user")), coll)
            | inr d =>
                next (advance 1 1 env) coll
                  (gin.Set_ (gin.Set_ c "user" (gin.KUser (bson.Decode d)))
                     "userId" (gin.KObjectID userID))
            end
        end
    | _ => (middleware.reject c "Invalid token payload", coll)
    end.
Proof.
  intros Hsplit Hparse Hvalid. unfold middleware.Protect.
  rewrite (Split_two_nonempty _ _ _ Hsplit), Hsplit.
  cbn [length Nat.eqb negb nth orb String.eqb Ascii.eqb Bool.eqb].
  rewrite Hparse, Hvalid. reflexivity.
Qed.

(** A parse without error hands back a token marked valid. *)
Lemma ParseWithClaims_ok_Valid (tokenString : string)
    (keyFunc : jwt.Keyfunc) (now : time.Time) (token : option jwt.Token) :
  jwt.ParseWithClaims tokenString keyFunc now = (token, None) ->
  exists t, token = Some t /\ jwt.Valid t = true.
Proof.
  unfold jwt.ParseWithClaims.
  destruct (jwt.ParseUnverified tokenString) as [[[t0 | ] parts] [e0 | ]];
    try discriminate.
  destruct (DecodeSegment (nth 2 parts "")); [ | discriminate].
  cbv zeta. cbn [jwt.Method jwt.Claims jwt.Raw jwt.Header].
  destruct (keyFunc _); [ | discriminate].
  destruct (jwt.Method t0); [ | discriminate].
  destruct (jwt.Verify _ _ _ _); cbn [negb]; [ | discriminate].
  destruct (jwt.Validate _ _); [discriminate | ].
  intros [= <-]. eexists; split; reflexivity.
Qed.

(** A parse without error went through the key function with a
    token whose method is the one its header declares. *)
Lemma ParseWithClaims_ok_alg (tokenString : string) (env : Env)
    (now : time.Time) (token : option jwt.Token) :
  jwt.ParseWithClaims tokenString (middleware.keyFunc env) now
    = (token, None) ->
  exists alg, declaredAlg tokenString = Some alg /\ isHMAC alg = true.
Proof.
  unfold jwt.ParseWithClaims, jwt.ParseUnverified, declaredAlg.
  destruct (gostrings.Split tokenString ".") as [ | a [ | b [ | x [ | ? ?]]]];
    cbn [length Nat.eqb negb nth]; try discriminate.
  destruct (DecodeSegment a) as [hb | ]; [ | discriminate].
  destruct (json_Unmarshal hb) as [hd | ]; [ | discriminate].
  destruct (DecodeSegment b) as [cb | ]; [ | discriminate].
  destruct (json_Unmarshal cb) as [cl | ]; [ | discriminate].
  destruct (hd !! "alg") as [[ | | | alg | | ] | ]; try discriminate.
  unfold isHMAC.
  destruct (jwt.GetSigningMethod alg) as [m | ] eqn:Hm; [ | discriminate].
  cbn [nth]. destruct (DecodeSegment x); [ | discriminate].
  cbv zeta. unfold middleware.keyFunc. cbn [jwt.Method].
  destruct m; try discriminate. intros _.
  exists alg. now rewrite Hm.
Qed.

End TokenStage.

(** ** Concrete requests *)
Section Scenarios.

(** A request with the given Authorization header and body, before
    any handler has run. *)
Definition request (authorization body : string) : gin.Context :=
  {| gin.Request_Header :=
       fun key => if String.eqb key "Authorization" then authorization
                  else "";
     gin.Request_Body := body;
     gin.Keys := ∅;
     gin.Writer := [];
     gin.IsAborted := false |}.

(** A downstream handler that leaves a trace when it runs. *)
Definition downstream : gin.HandlerFunc :=
  fun _ coll c =>
    (gin.JSON c http.StatusOK (<["success" := gin.Bool true]> ∅), coll).

(** Surroundings in which the clock stands at [t], the store
    answers, and the environment holds [vars]. *)
Definition envAt (t : time.Time) (vars : gmap string string)
    (rnd id : string) : Env :=
  {| environ := vars;
     clock := fun _ => t;
     storeErr := fun _ => false;
     entropy := rnd;
     salt := "";
     freshID := id |}.

(** A token that declares the algorithm "none" and carries no
    signature. *)
Definition noneToken : string :=
  let E := Sample.externals in
  compact
    (EncodeSegment (json_Marshal (<["alg" := JString "none"]> ∅)))
    (EncodeSegment
       (json_Marshal (<["id" := JString "6162636465666768696a6b6c"]> ∅)))
    (EncodeSegment "").

End Scenarios.


(** ** Verification of an access token *)
Section Verification.
Context {E : Externals}.

(** The verdict of the middleware on a token string, between the
    header gate and the lookup in the store: the identity the token
    carries, or no identity. *)
Definition verifyAccessToken (env : Env) (tokenString : string)
  : option primitive.ObjectID :=
  match jwt.ParseWithClaims tokenString (middleware.keyFunc env)
          (clock env 0) with
  | (Some token, None) =>
      if jwt.Valid token then
        match jwt.Claims token !! "id" with
        | Some (JString userIDStr) => primitive.ObjectIDFromHex userIDStr
        | _ => None
        end
      else None
  | _ => None
  end.

(** C6.  Behind a well-formed Bearer header, a token whose header
    declares an algorithm that is not one of the HMAC methods (for
    instance "none" or "RS256", or a name the registry does not
    know) is never verified: the request is answered 401 "Invalid
    or expired token", the chain is aborted and the handler behind
    the middleware is not run. *)
Theorem C6_algorithm_substitution (next : gin.HandlerFunc) (env : Env)
    (coll : mongo.Collection) (c : gin.Context)
    (tokenString alg : string) :
  gostrings.Split (gin.GetHeader c "Authorization") " "
    = ["Bearer"; tokenString] ->
  declaredAlg tokenString = Some alg ->
  isHMAC alg = false ->
  verifyAccessToken env tokenString = None
  /\ middleware.Protect next env coll c
     = (gin.Abort (gin.JSON c http.StatusUnauthorized
                     (gin.failure "Invalid or expired token")), coll).
Proof.
  intros Hsplit Halg Hmac.
  destruct (jwt.ParseWithClaims tokenString (middleware.keyFunc env)
              (clock env 0)) as [token [err | ]] eqn:Hparse.
  - split.
    + unfold verifyAccessToken. rewrite Hparse. now destruct token.
    + exact (Protect_parse_error next env coll c _ _ _ Hsplit Hparse).
  - apply ParseWithClaims_ok_alg in Hparse as (alg' & Halg' & Hmac').
    congruence.
Qed.

(** C7, as the code has it.  Behind a well-formed Bearer header, a
    token that is not verified is always answered with status 401
    and the chain aborted, the handler behind the middleware not
    run.  Every failure inside the parser (malformed token, key
    function, signature, expiry, not-before, claims of the wrong
    type) gets the one message "Invalid or expired token".  A token
    that passes the parser and fails afterwards gets a message of
    its own: "Invalid token payload" when the ["id"] claim is
    absent or not a string, "Invalid user ID in token" when it is
    not the hexadecimal text of an ObjectID. *)
Theorem C7_token_rejections (next : gin.HandlerFunc) (env : Env)
    (coll : mongo.Collection) (c : gin.Context) (tokenString : string) :
  gostrings.Split (gin.GetHeader c "Authorization") " "
    = ["Bearer"; tokenString] ->
  verifyAccessToken env tokenString = None ->
  exists msg,
    middleware.Protect next env coll c
    = (gin.Abort (gin.JSON c http.StatusUnauthorized (gin.failure msg)),
       coll)
    /\ (forall token err,
          jwt.ParseWithClaims tokenString (middleware.keyFunc env)
            (clock env 0) = (token, Some err) ->
          msg = "Invalid or expired token")
    /\ (forall token,
          jwt.ParseWithClaims tokenString (middleware.keyFunc env)
            (clock env 0) = (Some token, None) ->
          match jwt.Claims token !! "id" with
          | Some (JString _) => msg = "Invalid user ID in token"
          | _ => msg = "Invalid token payload"
          end).
Proof.
  intros Hsplit Hverify. unfold verifyAccessToken in Hverify.
  destruct (jwt.ParseWithClaims tokenString (middleware.keyFunc env)
              (clock env 0)) as [token [err | ]] eqn:Hparse.
  - exists "Invalid or expired token". split; [ | split].
    + exact (Protect_parse_error next env coll c _ _ _ Hsplit Hparse).
    + reflexivity.
    + discriminate.
  - destruct (ParseWithClaims_ok_Valid _ _ _ _ Hparse) as (t & -> & Hvalid).
    rewrite Hvalid in Hverify.
    pose proof (Protect_parse_ok next env coll c _ _ Hsplit Hparse Hvalid)
      as HP.
    destruct (jwt.Claims t !! "id") as [[ | | | s | | ] | ] eqn:Hid;
      try (exists "Invalid token payload";
           split; [exact HP | split; [discriminate | ]];
           intros ? [= <-]; rewrite Hid; reflexivity).
    rewrite Hverify in HP. exists "Invalid user ID in token".
    split; [exact HP | split; [discriminate | ]].
    intros ? [= <-]. rewrite Hid. reflexivity.
Qed.

End Verification.

(** ** The gate and the token stage on concrete requests *)
Section GateScenarios.

Let E : Externals := Sample.externals.
#[local] Existing Instance E.

(** The clock at 2000 seconds past the epoch, no environment
    variable set. *)
Definition env2000 : Env := envAt (2000 * time.Second) ∅ "" "".

(** A token signed under the built-in secret whose [exp] has
    passed at [env2000]. *)
Definition expiredToken : string :=
  signed SHA256
    (<["id" := JString "6162636465666768696a6b6c"]>
       (<["exp" := JNumber 1000]> ∅))
    "your-secret-key".

(** A token signed under the built-in secret, still running at
    [env2000], that carries no ["id"] claim. *)
Definition anonymousToken : string :=
  signed SHA256 (<["exp" := JNumber 3000]> ∅) "your-secret-key".

Lemma C3_header_gate_witness :
  middleware.Protect downstream env2000 [] (request "" "")
  = (gin.Abort (gin.JSON (request "" "") http.StatusUnauthorized
                  (gin.failure "Authorization header required")), [])
  /\ middleware.Protect downstream env2000 [] (request "Token abc" "")
     = (gin.Abort (gin.JSON (request "Token abc" "") http.StatusUnauthorized
                     (gin.failure
                        "Invalid authorization format, use Bearer {token}")),
        []).
Proof.
  split.
  - apply (proj1 (C3_header_gate downstream env2000 [] (request "" ""))).
    reflexivity.
  - apply (proj2 (C3_header_gate downstream env2000 []
                    (request "Token abc" ""))).
    + discriminate.
    + right. vm_compute. discriminate.
Defined.

Lemma C6_algorithm_substitution_witness :
  verifyAccessToken env2000 noneToken = None
  /\ middleware.Protect downstream env2000 []
       (request ("Bearer " +:+ noneToken) "")
     = (gin.Abort
          (gin.JSON (request ("Bearer " +:+ noneToken) "")
             http.StatusUnauthorized
             (gin.failure "Invalid or expired token")), []).
Proof.
  apply (C6_algorithm_substitution downstream env2000 []
           (request ("Bearer " +:+ noneToken) "") noneToken "none").
  - vm_compute. reflexivity.
  - vm_compute. reflexivity.
  - reflexivity.
Defined.

Lemma C7_token_rejections_witness :
  exists msg,
    middleware.Protect downstream env2000 []
      (request ("Bearer " +:+ expiredToken) "")
    = (gin.Abort
         (gin.JSON (request ("Bearer " +:+ expiredToken) "")
            http.StatusUnauthorized (gin.failure msg)), [])
    /\ (forall token err,
          jwt.ParseWithClaims expiredToken (middleware.keyFunc env2000)
            (clock env2000 0) = (token, Some err) ->
          msg = "Invalid or expired token")
    /\ (forall token,
          jwt.ParseWithClaims expiredToken (middleware.keyFunc env2000)
            (clock env2000 0) = (Some token, None) ->
          match jwt.Claims token !! "id" with
          | Some (JString _) => msg = "Invalid user ID in token"
          | _ => msg = "Invalid token payload"
          end).
Proof.
  apply (C7_token_rejections downstream env2000 []
           (request ("Bearer " +:+ expiredToken) "") expiredToken).
  - vm_compute. reflexivity.
  - vm_compute. reflexivity.
Defined.

(** C7 as the spec has it: one status and one message for every
    token that is not verified, whatever the cause.  It fails: an
    expired token and a token without ["id"], both signed under
    the secret, are told apart by their messages. *)
Lemma C7_collapsed_counterexample :
  verifyAccessToken env2000 expiredToken = None
  /\ verifyAccessToken env2000 anonymousToken = None
  /\ gin.Writer
       (middleware.Protect downstream env2000 []
          (request ("Bearer " +:+ expiredToken) "")).1
     = [{| gin.Status := 401;
           gin.Body := gin.failure "Invalid or expired token" |}]
  /\ gin.Writer
       (middleware.Protect downstream env2000 []
          (request ("Bearer " +:+ anonymousToken) "")).1
     = [{| gin.Status := 401;
           gin.Body := gin.failure "Invalid token payload" |}]
  /\ ~ (exists (code : Z) (msg : string),
          forall tokenString,
            verifyAccessToken env2000 tokenString = None ->
            gin.Writer
              (middleware.Protect downstream env2000 []
                 (request ("Bearer " +:+ tokenString) "")).1
            = [{| gin.Status := code; gin.Body := gin.failure msg |}]).
Proof.
  assert (H1 : verifyAccessToken env2000 expiredToken = None)
    by (vm_compute; reflexivity).
  assert (H2 : verifyAccessToken env2000 anonymousToken = None)
    by (vm_compute; reflexivity).
  assert (W1 : gin.Writer
       (middleware.Protect downstream env2000 []
          (request ("Bearer " +:+ expiredToken) "")).1
     = [{| gin.Status := 401;
           gin.Body := gin.failure "Invalid or expired token" |}])
    by (vm_compute; reflexivity).
  assert (W2 : gin.Writer
       (middleware.Protect downstream env2000 []
          (request ("Bearer " +:+ anonymousToken) "")).1
     = [{| gin.Status := 401;
           gin.Body := gin.failure "Invalid token payload" |}])
    by (vm_compute; reflexivity).
  split; [exact H1 | split; [exact H2 | split; [exact W1 | ]]].
  split; [exact W2 | ].
  intros (code & msg & Hall).
  pose proof (Hall _ H1) as A1. pose proof (Hall _ H2) as A2.
  rewrite W1 in A1. rewrite W2 in A2.
  pose (message := fun l : list gin.Response =>
                     match l with
                     | [r] => gin.Body r !! "error"
                     | _ => None
                     end).
  apply (f_equal message) in A1, A2.
  vm_compute in A1, A2. congruence.
Qed.

End GateScenarios.

(** ** Failed logins *)
Section LoginFailures.
Context {E : Externals}.

(** C8.  Take two login requests that both pass input binding, with
    the store answering.  In the first the e-mail address matches no
    account; in the second it matches an account and the password
    does not match the stored hash.  Both are answered alike: status
    401 with the body [{"success": false, "error": "Invalid
    credentials"}], and the collection is left as it was.  Nothing
    in the response depends on which of the two causes occurred. *)
Theorem C8_login_failures_indistinguishable
    (env1 env2 : Env) (coll1 coll2 : mongo.Collection)
    (c1 c2 : gin.Context) (email1 password1 email2 password2 : string)
    (d : bson.D) :
  controllers.bindLogin c1 = Some (email1, password1) ->
  mongo.FindOne (storeErr env1 0) coll1 (mongo.ByEmail email1)
    = inl mongo.ErrNoDocuments ->
  controllers.bindLogin c2 = Some (email2, password2) ->
  mongo.FindOne (storeErr env2 0) coll2 (mongo.ByEmail email2) = inr d ->
  bcrypt_CompareHashAndPassword (bson.password d) password2 = false ->
  controllers.Login env1 coll1 c1
  = (gin.JSON c1 http.StatusUnauthorized
       (gin.failure "Invalid credentials"), coll1)
  /\ controllers.Login env2 coll2 c2
     = (gin.JSON c2 http.StatusUnauthorized
          (gin.failure "Invalid credentials"), coll2).
Proof.
  intros Hb1 Hf1 Hb2 Hf2 Hpw. unfold controllers.Login. split.
  - rewrite Hb1, Hf1. reflexivity.
  - rewrite Hb2, Hf2. cbn [bson.Decode models.Password].
    rewrite Hpw. reflexivity.
Qed.

End LoginFailures.

(** ** Issuing an access token *)
Section Issuance.
Context {E : Externals}.

(** The configured lifetime of an access token. *)
Definition lifetime (env : Env) : time.Duration :=
  match time_ParseDuration (utils.GetEnv env "JWT_EXPIRE" "24h") with
  | Some d => d
  | None => 24 * time.Hour
  end.

(** The second at which a token issued in [env] expires. *)
Definition expirySecond (env : Env) : Z :=
  time.Unix (clock env 0 + lifetime env).

(** The claims [GenerateAccessToken] writes. *)
Definition issuedClaims (env : Env) (userID : string) : jwt.MapClaims :=
  <["id" := JString userID]>
    (<["exp" := JNumber (expirySecond env)]>
       (<["iat" := JNumber (time.Unix (clock env 1))]> ∅)).

(** [GenerateAccessToken] never fails, and it signs under the value
    of JWT_SECRET or, when the variable is not set, under the
    built-in text. *)
Lemma GenerateAccessToken_signed (env : Env) (userID : string) :
  utils.GenerateAccessToken env userID
  = Some (signed SHA256 (issuedClaims env userID)
            (utils.GetEnv env "JWT_SECRET" "your-secret-key")).
Proof.
  unfold utils.GenerateAccessToken, jwt.SigningMethodHS256.
  rewrite SignedString_NewWithClaims. reflexivity.
Qed.

(** C9, as the code has it.  When JWT_SECRET is not set, nothing
    stops: [GenerateAccessToken] returns a token all the same,
    signed under the built-in text "your-secret-key", and the key
    function of the middleware hands the same text to the parser
    for every token that declares an HMAC method. *)
Theorem C9_missing_secret_falls_back (env : Env) (userID : string) :
  environ env !! "JWT_SECRET" = None ->
  utils.GenerateAccessToken env userID
  = Some (signed SHA256 (issuedClaims env userID) "your-secret-key")
  /\ (forall (token : jwt.Token) (h : Hash),
        jwt.Method token = Some (jwt.SigningMethodHMAC h) ->
        middleware.keyFunc env token = Some "your-secret-key").
Proof.
  intros Hunset. split.
  - rewrite GenerateAccessToken_signed. unfold utils.GetEnv at 1.
    rewrite Hunset. reflexivity.
  - intros token h Hm. unfold middleware.keyFunc, utils.GetEnv.
    rewrite Hm, Hunset. reflexivity.
Qed.

End Issuance.

(** ** The round trip of an access token *)
Section RoundTrip.
Context {E : Externals} {L : CodecLaws E}.

Lemma FromUnix_Unix_le (t : time.Time) :
  time.FromUnix (time.Unix t) <= t < time.FromUnix (time.Unix t) + time.Second.
Proof.
  unfold time.FromUnix, time.Unix, time.Second.
  pose proof (Z.div_mod t 1000000000 ltac:(lia)).
  pose proof (Z.mod_pos_bound t 1000000000 ltac:(lia)). lia.
Qed.

(** The validator on the claims of an issued token: only [exp]
    counts, and a zero [exp] counts as none. *)
Lemma Validate_issuedClaims (env : Env) (userID : string) (now : time.Time) :
  jwt.Validate (issuedClaims env userID) now
  = if expirySecond env =? 0 then None
    else if now <? time.FromUnix (expirySecond env) then None
    else Some (jwt.ErrTokenInvalidClaims [jwt.ErrTokenExpired]).
Proof.
  unfold jwt.Validate, jwt.verifyExpiresAt, jwt.verifyNotBefore,
    jwt.parseNumericDate, issuedClaims.
  rewrite (lookup_insert_ne _ "id" "exp") by discriminate.
  rewrite lookup_insert_eq.
  rewrite (lookup_insert_ne _ "id" "nbf") by discriminate.
  rewrite (lookup_insert_ne _ "exp" "nbf") by discriminate.
  rewrite (lookup_insert_ne _ "iat" "nbf") by discriminate.
  rewrite lookup_empty.
  destruct (expirySecond env =? 0); [reflexivity | ].
  unfold time.Before.
  destruct (now <? time.FromUnix (expirySecond env)); reflexivity.
Qed.

(** What the middleware makes of a token it issued itself, under an
    unchanged environment. *)
Lemma verifyAccessToken_issued (env0 env1 : Env) (id : primitive.ObjectID) :
  String.length id = 12%nat ->
  environ env1 = environ env0 ->
  let tokenString :=
    signed SHA256 (issuedClaims env0 (primitive.Hex id))
      (utils.GetEnv env0 "JWT_SECRET" "your-secret-key") in
  jwt.ParseWithClaims tokenString (middleware.keyFunc env1) (clock env1 0)
  = match jwt.Validate (issuedClaims env0 (primitive.Hex id)) (clock env1 0) with
    | Some err =>
        (Some (parsed SHA256 (issuedClaims env0 (primitive.Hex id))
                 (utils.GetEnv env0 "JWT_SECRET" "your-secret-key") false),
         Some err)
    | None =>
        (Some (parsed SHA256 (issuedClaims env0 (primitive.Hex id))
                 (utils.GetEnv env0 "JWT_SECRET" "your-secret-key") true),
         None)
    end
  /\ verifyAccessToken env1 tokenString
     = match jwt.Validate (issuedClaims env0 (primitive.Hex id)) (clock env1 0) with
       | Some _ => None
       | None => Some id
       end.
Proof.
  intros Hlen Henv tokenString.
  assert (Hparse :
    jwt.ParseWithClaims tokenString (middleware.keyFunc env1) (clock env1 0)
    = match jwt.Validate (issuedClaims env0 (primitive.Hex id)) (clock env1 0) with
      | Some err =>
          (Some (parsed SHA256 (issuedClaims env0 (primitive.Hex id))
                   (utils.GetEnv env0 "JWT_SECRET" "your-secret-key") false),
           Some err)
      | None =>
          (Some (parsed SHA256 (issuedClaims env0 (primitive.Hex id))
                   (utils.GetEnv env0 "JWT_SECRET" "your-secret-key") true),
           None)
      end).
  { apply ParseWithClaims_signed.
    unfold middleware.keyFunc, utils.GetEnv. cbn [parsed jwt.Method].
    now rewrite Henv. }
  split; [exact Hparse | ].
  unfold verifyAccessToken. rewrite Hparse.
  destruct (jwt.Validate _ _); [reflexivity | ].
  cbn [parsed jwt.Valid jwt.Claims]. unfold issuedClaims.
  rewrite lookup_insert_eq. now apply ObjectIDFromHex_Hex.
Qed.

(** C1, as the code has it.  [GenerateAccessToken] writes the expiry
    as a whole number of seconds, the instant [issuance + L] rounded
    down.  Under an unchanged environment the middleware verifies the
    token it issued for [id], and reads [id] back from it, at every
    instant before that whole second; from that second on the parser
    answers with the expiry error and nothing is verified.  Measured
    from the issuance: verification succeeds at every instant less
    than [L] minus one second after it, and fails with the expiry
    error at or after [L].  (An expiry second equal to 0 is excluded:
    the parser reads a zero [exp] as no expiry at all.) *)
Theorem C1_access_token_round_trip (env0 env1 : Env)
    (id : primitive.ObjectID) :
  String.length id = 12%nat ->
  environ env1 = environ env0 ->
  expirySecond env0 <> 0 ->
  exists tokenString,
    utils.GenerateAccessToken env0 (primitive.Hex id) = Some tokenString
    /\ (clock env1 0 < time.FromUnix (expirySecond env0) ->
        verifyAccessToken env1 tokenString = Some id)
    /\ (time.FromUnix (expirySecond env0) <= clock env1 0 ->
        verifyAccessToken env1 tokenString = None
        /\ (jwt.ParseWithClaims tokenString (middleware.keyFunc env1)
              (clock env1 0)).2
           = Some (jwt.ErrTokenInvalidClaims [jwt.ErrTokenExpired]))
    /\ (clock env1 0 - clock env0 0 < lifetime env0 - time.Second ->
        verifyAccessToken env1 tokenString = Some id)
    /\ (lifetime env0 <= clock env1 0 - clock env0 0 ->
        verifyAccessToken env1 tokenString = None
        /\ (jwt.ParseWithClaims tokenString (middleware.keyFunc env1)
              (clock env1 0)).2
           = Some (jwt.ErrTokenInvalidClaims [jwt.ErrTokenExpired])).
Proof.
  intros Hlen Henv Hexp.
  eexists. split; [apply GenerateAccessToken_signed | ].
  destruct (verifyAccessToken_issued env0 env1 id Hlen Henv) as [Hparse Hverify].
  cbv zeta in Hparse, Hverify.
  rewrite Validate_issuedClaims in Hparse, Hverify.
  apply Z.eqb_neq in Hexp. rewrite Hexp in Hparse, Hverify.
  pose proof (FromUnix_Unix_le (clock env0 0 + lifetime env0)) as Hfloor.
  fold (expirySecond env0) in Hfloor.
  assert (Hbefore : clock env1 0 < time.FromUnix (expirySecond env0) ->
                    verifyAccessToken env1
                      (signed SHA256 (issuedClaims env0 (primitive.Hex id))
                         (utils.GetEnv env0 "JWT_SECRET" "your-secret-key"))
                    = Some id).
  { intros Hlt. apply Z.ltb_lt in Hlt. now rewrite Hlt in Hverify. }
  assert (Hafter : time.FromUnix (expirySecond env0) <= clock env1 0 ->
                   verifyAccessToken env1
                     (signed SHA256 (issuedClaims env0 (primitive.Hex id))
                        (utils.GetEnv env0 "JWT_SECRET" "your-secret-key"))
                   = None
                   /\ (jwt.ParseWithClaims
                         (signed SHA256 (issuedClaims env0 (primitive.Hex id))
                            (utils.GetEnv env0 "JWT_SECRET" "your-secret-key"))
                         (middleware.keyFunc env1) (clock env1 0)).2
                      = Some (jwt.ErrTokenInvalidClaims [jwt.ErrTokenExpired])).
  { intros Hge. apply Z.ltb_ge in Hge.
    rewrite Hge in Hverify, Hparse. now rewrite Hparse. }
  split; [exact Hbefore | ]. split; [exact Hafter | ]. split.
  - intros Hlt. apply Hbefore. lia.
  - intros Hge. apply Hafter. lia.
Qed.

(** Behind a well-formed header, a verified token leads to the
    lookup of its identity in the store. *)
Lemma Protect_verified (next : gin.HandlerFunc) (env : Env)
    (coll : mongo.Collection) (c : gin.Context) (tokenString : string)
    (userID : primitive.ObjectID) :
  gostrings.Split (gin.GetHeader c "Authorization") " "
    = ["Bearer"; tokenString] ->
  verifyAccessToken env tokenString = Some userID ->
  middleware.Protect next env coll c
  = match mongo.FindOne (storeErr env 0) coll (mongo.ById userID) with
    | inl mongo.ErrNoDocuments =>
        (middleware.reject c "User not found", coll)
    | inl _ =>
        (gin.Abort
           (gin.JSON c http.StatusInternalServerError
              (gin.failure "Failed to authenticate user")), coll)
    | inr d =>
        next (advance 1 1 env) coll
          (gin.Set_ (gin.Set_ c "user" (gin.KUser (bson.Decode d)))
             "userId" (gin.KObjectID userID))
    end.
Proof.
  intros Hsplit Hverify. unfold verifyAccessToken in Hverify.
  destruct (jwt.ParseWithClaims tokenString (middleware.keyFunc env)
              (clock env 0)) as [[t | ] [err | ]] eqn:Hparse;
    try discriminate.
  destruct (jwt.Valid t) eqn:Hvalid; [ | discriminate].
  rewrite (Protect_parse_ok next env coll c _ _ Hsplit Hparse Hvalid).
  destruct (jwt.Claims t !! "id") as [[ | | | s | | ] | ]; try discriminate.
  now rewrite Hverify.
Qed.

End RoundTrip.

(** ** What the handlers write to the collection *)
Section Writes.
Context {E : Externals}.

(** Both refresh fields are set, or both are [null], or both are
    absent. *)
Definition paired (d : bson.D) : Prop :=
  match bson.refreshToken d, bson.refreshTokenExpire d with
  | bson.Value _, bson.Value _ => True
  | bson.Null, bson.Null => True
  | bson.Absent, bson.Absent => True
  | _, _ => False
  end.

(** The digest of the refresh token a request generates from the
    bytes it draws. *)
Definition freshDigest (env : Env) : string :=
  utils.HashString (hex.EncodeToString (rand.Read 32 (entropy env))).

(** The single writes a handler performs: none; clearing both
    refresh fields of a document; setting both, the digest being
    [digest]; inserting a document with a new [_id] and without
    refresh fields. *)
Inductive write (digest : string) : mongo.Collection -> mongo.Collection -> Prop :=
  | write_none (coll : mongo.Collection) : write digest coll coll
  | write_clear (id : primitive.ObjectID) (coll : mongo.Collection) :
      write digest coll
        (mongo.updateFirst (mongo.ById id) (mongo.SetRefresh None None) coll)
  | write_rotate (id : primitive.ObjectID) (e : time.Time)
      (coll : mongo.Collection) :
      write digest coll
        (mongo.updateFirst (mongo.ById id)
           (mongo.SetRefresh (Some digest) (Some e)) coll)
  | write_insert (d : bson.D) (coll : mongo.Collection) :
      existsb (mongo.matches (mongo.ById (bson._id d))) coll = false ->
      bson.refreshToken d = bson.Absent ->
      bson.refreshTokenExpire d = bson.Absent ->
      write digest coll (coll ++ [d])%list.

Lemma sendTokenResponse_cases (env : Env) (coll : mongo.Collection)
    (c : gin.Context) (user : models.User) :
  controllers.sendTokenResponse env coll c user = (c, coll, true)
  \/ exists accessToken,
       storeErr env 0 = false
       /\ controllers.sendTokenResponse env coll c user
          = (gin.JSON c http.StatusOK
               (<["success" := gin.Bool true]>
                  (<["token" := gin.Str accessToken]>
                     (<["refreshToken" :=
                          gin.Str (hex.EncodeToString
                                     (rand.Read 32 (entropy env)))]>
                        (<["user" :=
                             gin.UserResponse (models.ToResponse user)]> ∅)))),
             mongo.updateFirst (mongo.ById (models.ID user))
               (mongo.SetRefresh (Some (freshDigest env))
                  (Some (time.Add (clock env 2) (7 * 24 * time.Hour)))) coll,
             false).
Proof.
  unfold controllers.sendTokenResponse.
  destruct (utils.GenerateAccessToken env _) as [accessToken | ];
    [ | now left].
  unfold utils.GenerateRefreshToken, mongo.UpdateOne.
  cbn [advance entropy clock Nat.add].
  destruct (storeErr env 0) eqn:Hstore; [now left | ].
  right. exists accessToken. split; reflexivity.
Qed.

Lemma sendTokenResponse_write (env : Env) (coll : mongo.Collection)
    (c : gin.Context) (user : models.User) :
  write (freshDigest env) coll
    (controllers.sendTokenResponse env coll c user).1.2.
Proof.
  destruct (sendTokenResponse_cases env coll c user)
    as [-> | (tok & _ & ->)]; cbn [fst snd]; constructor.
Qed.

Lemma freshDigest_advance (k j : nat) (env : Env) :
  freshDigest (advance k j env) = freshDigest env.
Proof. reflexivity. Qed.

(** Every request is served with at most two writes in a row. *)
Lemma handler_writes (r : routes.Route) (env : Env)
    (coll : mongo.Collection) (c : gin.Context) :
  exists mid,
    write (freshDigest env) coll mid
    /\ write (freshDigest env) mid (routes.handler r env coll c).2.
Proof.
  destruct r; cbn [routes.handler].
  - (* Register *)
    unfold controllers.Register.
    destruct (controllers.bindRegister c) as [[[username email] password] | ];
      [ | exists coll; split; constructor].
    destruct (mongo.FindOne _ _ _) as [[ | ] | ?];
      try (exists coll; split; constructor).
    destruct (bcrypt_GenerateFromPassword _ _) as [hashed | ];
      [ | exists coll; split; constructor].
    unfold mongo.InsertOne.
    destruct (storeErr env 1); [exists coll; split; constructor | ].
    destruct (existsb _ coll) eqn:Hdup; [exists coll; split; constructor | ].
    eexists. split; [apply write_insert; [exact Hdup | reflexivity ..] | ].
    pose proof (sendTokenResponse_write (advance 1 2 env)
                  (coll ++ [bson.Marshal
                              (models.NewUser username email hashed (clock env 0))
                              (freshID env)])%list c
                  (models.withID
                     (models.NewUser username email hashed (clock env 0))
                     (bson._id (bson.Marshal
                                  (models.NewUser username email hashed
                                     (clock env 0)) (freshID env))))) as Hw.
    rewrite freshDigest_advance in Hw.
    destruct (controllers.sendTokenResponse _ _ _ _) as [[c' coll'] [ | ]];
      exact Hw.
  - (* Login *)
    unfold controllers.Login. exists coll. split; [constructor | ].
    destruct (controllers.bindLogin c) as [[email password] | ];
      [ | constructor].
    destruct (mongo.FindOne _ _ _) as [[ | ] | d]; try constructor.
    destruct (negb _); [constructor | ].
    pose proof (sendTokenResponse_write (advance 0 1 env) coll c
                  (bson.Decode d)) as Hw.
    rewrite freshDigest_advance in Hw.
    destruct (controllers.sendTokenResponse _ _ _ _) as [[c' coll'] [ | ]];
      exact Hw.
  - (* RefreshToken *)
    unfold controllers.RefreshToken. exists coll. split; [constructor | ].
    destruct (controllers.bindRefresh c) as [refreshToken | ];
      [ | constructor].
    destruct (mongo.FindOne _ _ _) as [[ | ] | d]; try constructor.
    pose proof (sendTokenResponse_write (advance 1 1 env) coll c
                  (bson.Decode d)) as Hw.
    rewrite freshDigest_advance in Hw.
    destruct (controllers.sendTokenResponse _ _ _ _) as [[c' coll'] [ | ]];
      exact Hw.
  - (* Logout behind Protect *)
    exists coll. split; [constructor | ].
    unfold middleware.Protect.
    destruct (String.eqb _ ""); [constructor | ].
    destruct (_ || _); [constructor | ].
    destruct (jwt.ParseWithClaims _ _ _) as [token err].
    destruct (_ || _); [constructor | ].
    destruct (_ !! "id") as [[ | | | s | | ] | ]; try constructor.
    destruct (primitive.ObjectIDFromHex s) as [userID | ]; [ | constructor].
    destruct (mongo.FindOne _ _ _) as [[ | ] | d]; try constructor.
    unfold controllers.Logout.
    destruct (gin.Get _ "userId") as [[u | id] | ]; try constructor.
    + destruct (storeErr _ 0); constructor.
    + unfold mongo.UpdateOne. destruct (storeErr _ 0); constructor.
Qed.

End Writes.

(** ** Invariants of the collection *)
Section Invariants.
Context {E : Externals}.

Definition ids (coll : mongo.Collection) : list primitive.ObjectID :=
  List.map bson._id coll.

(** No document holds the digest [h]. *)
Definition nobody (h : string) (coll : mongo.Collection) : Prop :=
  Forall (fun d => bson.refreshToken d <> bson.Value h) coll.

Lemma apply_id (u : mongo.Update) (d : bson.D) :
  bson._id (mongo.apply u d) = bson._id d.
Proof. destruct u; reflexivity. Qed.

Lemma updateFirst_ids (f : mongo.Filter) (u : mongo.Update)
    (coll : mongo.Collection) :
  ids (mongo.updateFirst f u coll) = ids coll.
Proof.
  induction coll as [ | d coll IH]; [reflexivity | ].
  cbn [mongo.updateFirst]. destruct (mongo.matches f d); cbn [ids List.map].
  - now rewrite apply_id.
  - f_equal. exact IH.
Qed.

Lemma updateFirst_Forall (P : bson.D -> Prop) (f : mongo.Filter)
    (u : mongo.Update) (coll : mongo.Collection) :
  (forall d, P d -> P (mongo.apply u d)) ->
  Forall P coll -> Forall P (mongo.updateFirst f u coll).
Proof.
  intros Hu. induction 1 as [ | d coll Hd Hcoll IH];
    cbn [mongo.updateFirst]; [constructor | ].
  destruct (mongo.matches f d); constructor; auto.
Qed.

Lemma existsb_ById_false (id : primitive.ObjectID) (coll : mongo.Collection) :
  existsb (mongo.matches (mongo.ById id)) coll = false -> ~ In id (ids coll).
Proof.
  induction coll as [ | d coll IH]; cbn [existsb ids List.map In mongo.matches];
    [tauto | ].
  intros [Hd Hrest]%orb_false_elim [Heq | Hin].
  - subst id. now rewrite String.eqb_refl in Hd.
  - now apply IH.
Qed.

Lemma write_paired (digest : string) (coll coll' : mongo.Collection) :
  write digest coll coll' -> Forall paired coll -> Forall paired coll'.
Proof.
  intros [ | id ? | id e ? | d ? Hdup Ht He] Hp; try assumption.
  - apply updateFirst_Forall; [ | exact Hp]. intros; exact I.
  - apply updateFirst_Forall; [ | exact Hp]. intros; exact I.
  - apply Forall_app. split; [exact Hp | ].
    constructor; [ | constructor]. unfold paired. now rewrite Ht, He.
Qed.

Lemma write_NoDup (digest : string) (coll coll' : mongo.Collection) :
  write digest coll coll' -> NoDup (ids coll) -> NoDup (ids coll').
Proof.
  intros [ | id ? | id e ? | d ? Hdup Ht He] Hn;
    rewrite ?updateFirst_ids; try assumption.
  unfold ids. rewrite List.map_app. cbn [List.map].
  apply existsb_ById_false in Hdup.
  apply list.NoDup_app. split; [exact Hn | split].
  - intros x Hx ->%list_elem_of_singleton.
    apply Hdup. now apply list_elem_of_In.
  - apply list.NoDup_singleton.
Qed.

Lemma write_nobody (digest h : string) (coll coll' : mongo.Collection) :
  digest <> h ->
  write digest coll coll' -> nobody h coll -> nobody h coll'.
Proof.
  intros Hne [ | id ? | id e ? | d ? Hdup Ht He] Hn; try assumption.
  - apply updateFirst_Forall; [ | exact Hn]. intros d _. discriminate.
  - apply updateFirst_Forall; [ | exact Hn]. intros d _. cbn. congruence.
  - apply Forall_app. split; [exact Hn | ].
    constructor; [ | constructor]. rewrite Ht. discriminate.
Qed.

Lemma reachable_paired (coll : mongo.Collection) :
  routes.reachable coll -> Forall paired coll.
Proof.
  induction 1 as [ | r env c coll Hr IH]; [constructor | ].
  destruct (handler_writes r env coll c) as (mid & W1 & W2).
  eauto using write_paired.
Qed.

Lemma reachable_NoDup (coll : mongo.Collection) :
  routes.reachable coll -> NoDup (ids coll).
Proof.
  induction 1 as [ | r env c coll Hr IH]; [constructor | ].
  destruct (handler_writes r env coll c) as (mid & W1 & W2).
  eauto using write_NoDup.
Qed.

(** C5.  Each of the four operations (register, login, refresh;
    logout behind the middleware), whatever the request and
    whatever the surroundings, takes a collection in which every
    user document has its two refresh fields paired (both set, or
    both [null], or both absent) to a collection of the same kind.
    Hence in every collection the service can reach from an empty
    one no document has one of the two fields set and the other
    cleared. *)
Theorem C5_refresh_fields_paired :
  (forall (r : routes.Route) (env : Env) (c : gin.Context)
          (coll : mongo.Collection),
      Forall paired coll -> Forall paired (routes.handler r env coll c).2)
  /\ (forall coll : mongo.Collection,
        routes.reachable coll ->
        forall d, In d coll ->
          match bson.refreshToken d, bson.refreshTokenExpire d with
          | bson.Value _, bson.Value _ => True
          | bson.Value _, _ | _, bson.Value _ => False
          | _, _ => True
          end).
Proof.
  split.
  - intros r env c coll Hp.
    destruct (handler_writes r env coll c) as (mid & W1 & W2).
    eauto using write_paired.
  - intros coll Hr d Hin.
    pose proof (reachable_paired coll Hr) as Hp.
    rewrite List.Forall_forall in Hp. specialize (Hp d Hin).
    unfold paired in Hp.
    destruct (bson.refreshToken d), (bson.refreshTokenExpire d);
      solve [exact I | contradiction].
Qed.

End Invariants.

(** ** Refreshing *)
Section Refresh.
Context {E : Externals}.

Lemma NewDateTimeFromTime_div (t : time.Time) :
  primitive.NewDateTimeFromTime t = t / time.Millisecond.
Proof.
  unfold primitive.NewDateTimeFromTime, time.Unix, time.Second,
    time.Millisecond.
  rewrite (Z.div_mod t 1000000000) at 3 by lia.
  replace (1000000000 * (t / 1000000000))
    with (t / 1000000000 * 1000 * 1000000) by lia.
  rewrite Z.div_add_l by lia. reflexivity.
Qed.

(** The store compares at its own precision; against a stored
    instant that is the same as comparing the instants. *)
Lemma NewDateTimeFromTime_lt (now : time.Time) (e : primitive.DateTime) :
  primitive.NewDateTimeFromTime now < e <-> now < primitive.Time e.
Proof.
  rewrite NewDateTimeFromTime_div.
  unfold primitive.Time, time.Millisecond.
  pose proof (Z.div_mod now 1000000 ltac:(lia)).
  pose proof (Z.mod_pos_bound now 1000000 ltac:(lia)). lia.
Qed.

Lemma matches_ByRefreshToken (h : string) (now : time.Time) (d : bson.D) :
  mongo.matches (mongo.ByRefreshToken h now) d = true
  <-> bson.refreshToken d = bson.Value h
      /\ exists e, bson.refreshTokenExpire d = bson.Value e
                   /\ now < primitive.Time e.
Proof.
  cbn [mongo.matches].
  destruct (bson.refreshToken d) as [ | | h'];
    try (split; [discriminate | intros [[=] _]]).
  destruct (bson.refreshTokenExpire d) as [ | | e];
    try (split; [discriminate | intros [_ (? & [=] & _)]]).
  rewrite andb_true_iff, String.eqb_eq, Z.ltb_lt, NewDateTimeFromTime_lt.
  split.
  - intros [-> Hlt]. split; [reflexivity | ]. now exists e.
  - intros [[= ->] (e' & [= <-] & Hlt)]. now split.
Qed.

(** The body of the answer that carries a new pair of tokens. *)
Definition tokenBody (accessToken refreshToken : string)
    (user : models.User) : gin.H :=
  <["success" := gin.Bool true]>
    (<["token" := gin.Str accessToken]>
       (<["refreshToken" := gin.Str refreshToken]>
          (<["user" := gin.UserResponse (models.ToResponse user)]> ∅))).

(** What a refresh request that binds to [refreshToken] comes to:
    one of three failures that leave the collection alone, or, when
    the store answers and a document matches, a new pair of tokens
    and the rotation of that document's refresh fields. *)
Lemma RefreshToken_outcome (env : Env) (coll : mongo.Collection)
    (c : gin.Context) (refreshToken : string) :
  controllers.bindRefresh c = Some refreshToken ->
  let found :=
    List.find
      (mongo.matches
         (mongo.ByRefreshToken (utils.HashString refreshToken) (clock env 0)))
      coll in
  controllers.RefreshToken env coll c
  = if storeErr env 0 then
      (gin.JSON c http.StatusInternalServerError
         (gin.failure "Failed to validate refresh token"), coll)
    else match found with
         | None =>
             (gin.JSON c http.StatusUnauthorized
                (gin.failure "Invalid or expired refresh token"), coll)
         | Some d =>
             if storeErr env 1 then
               (gin.JSON c http.StatusInternalServerError
                  (gin.failure "Failed to generate authentication tokens"),
                coll)
             else
               (gin.JSON c http.StatusOK
                  (tokenBody
                     (signed SHA256
                        (issuedClaims (advance 1 1 env)
                           (primitive.Hex (bson._id d)))
                        (utils.GetEnv env "JWT_SECRET" "your-secret-key"))
                     (hex.EncodeToString (rand.Read 32 (entropy env)))
                 (bson.Decode d)),
                mongo.updateFirst (mongo.ById (bson._id d))
                  (mongo.SetRefresh (Some (freshDigest env))
                     (Some (time.Add (clock env 3) (7 * 24 * time.Hour))))
                  coll)
         end.
Proof.
  intros Hbind found. unfold controllers.RefreshToken, mongo.FindOne.
  rewrite Hbind. destruct (storeErr env 0); [reflexivity | ].
  fold found. destruct found as [d | ]; [ | reflexivity].
  unfold controllers.sendTokenResponse.
  rewrite GenerateAccessToken_signed.
  unfold utils.GenerateRefreshToken, mongo.UpdateOne.
  cbn [advance entropy clock storeErr Nat.add bson.Decode models.ID].
  destruct (storeErr env 1); reflexivity.
Qed.

(** A request was answered with status 200. *)
Definition succeeded (c : gin.Context) (out : gin.Context * mongo.Collection)
  : Prop :=
  exists body,
    gin.Writer out.1
    = (gin.Writer c ++ [{| gin.Status := http.StatusOK; gin.Body := body |}])%list.

Lemma JSON_not_succeeded (c : gin.Context) (code : Z) (obj : gin.H)
    (coll : mongo.Collection) :
  code <> http.StatusOK -> ~ succeeded c (gin.JSON c code obj, coll).
Proof.
  intros Hcode [body Hw]. cbn [fst gin.JSON gin.Writer] in Hw.
  apply app_inj_tail in Hw as [_ [= Hc _]]. contradiction.
Qed.

(** C4.  Take a refresh request that binds to a plaintext.  If every
    document that holds the digest of the plaintext has a stored
    expiry equal to the current instant, the refresh fails: with
    the store answering, the reply is 401 "Invalid or expired
    refresh token" and the collection is left as it was; and in no
    case is the reply a success.  A refresh that succeeds found a
    document holding the digest whose stored expiry lies strictly
    after the current instant. *)
Theorem C4_refresh_expiry_boundary (env : Env) (coll : mongo.Collection)
    (c : gin.Context) (refreshToken : string) :
  controllers.bindRefresh c = Some refreshToken ->
  ((forall d e,
       In d coll ->
       bson.refreshToken d = bson.Value (utils.HashString refreshToken) ->
       bson.refreshTokenExpire d = bson.Value e ->
       primitive.Time e = clock env 0) ->
   ~ succeeded c (controllers.RefreshToken env coll c)
   /\ (storeErr env 0 = false ->
       controllers.RefreshToken env coll c
       = (gin.JSON c http.StatusUnauthorized
            (gin.failure "Invalid or expired refresh token"), coll)))
  /\ (succeeded c (controllers.RefreshToken env coll c) ->
      exists d e,
        In d coll
        /\ bson.refreshToken d = bson.Value (utils.HashString refreshToken)
        /\ bson.refreshTokenExpire d = bson.Value e
        /\ clock env 0 < primitive.Time e).
Proof.
  intros Hbind.
  pose proof (RefreshToken_outcome env coll c refreshToken Hbind) as Hout.
  cbv zeta in Hout.
  assert (Hsucc : succeeded c (controllers.RefreshToken env coll c) ->
            exists d e,
              In d coll
              /\ bson.refreshToken d = bson.Value (utils.HashString refreshToken)
              /\ bson.refreshTokenExpire d = bson.Value e
              /\ clock env 0 < primitive.Time e).
  { rewrite Hout. destruct (storeErr env 0).
    { intros H. now apply JSON_not_succeeded in H. }
    destruct (List.find _ coll) as [d | ] eqn:Hfind.
    - intros _. apply List.find_some in Hfind as [Hin Hm].
      apply matches_ByRefreshToken in Hm as (Hh & e & He & Hlt).
      now exists d, e.
    - intros H. now apply JSON_not_succeeded in H. }
  split; [ | exact Hsucc].
  intros Hall.
  assert (Hnone : List.find
            (mongo.matches
               (mongo.ByRefreshToken (utils.HashString refreshToken)
                  (clock env 0))) coll = None).
  { destruct (List.find _ coll) as [d | ] eqn:Hfind; [ | reflexivity].
    apply List.find_some in Hfind as [Hin Hm].
    apply matches_ByRefreshToken in Hm as (Hh & e & He & Hlt).
    specialize (Hall d e Hin Hh He). lia. }
  split.
  - intros (d & e & Hin & Hh & He & Hlt)%Hsucc.
    specialize (Hall d e Hin Hh He). lia.
  - intros Hstore. rewrite Hout, Hstore, Hnone. reflexivity.
Qed.

End Refresh.

(** ** Refresh-token digests *)
Section Digest.
Context {E : Externals}.

(** C10.  For every call of [GenerateRefreshToken], whatever the bytes
    the generator delivers and whatever the clock shows, the digest it
    returns is [HashString] of the plaintext it returns: both are the
    lower-case hexadecimal text of the SHA-256 sum of the plaintext,
    two characters for each byte of the sum.  [sendTokenResponse]
    either fails and writes nothing, or hands that plaintext to the
    client and stores [HashString] of it, which is the digest
    [RefreshToken] later computes from the plaintext a client
    presents. *)
Theorem C10_digest_consistency :
  (forall env : Env,
      let plaintext := (utils.GenerateRefreshToken env).1.1 in
      let digest := (utils.GenerateRefreshToken env).1.2 in
      utils.HashString plaintext = digest
      /\ digest = hex.EncodeToString (sha256_Sum256 plaintext)
      /\ isLowerHex digest = true
      /\ String.length digest
         = (2 * String.length (sha256_Sum256 plaintext))%nat)
  /\ (forall (env : Env) (coll : mongo.Collection) (c : gin.Context)
             (user : models.User),
        let generated := utils.GenerateRefreshToken (advance 2 0 env) in
        controllers.sendTokenResponse env coll c user = (c, coll, true)
        \/ exists accessToken,
             controllers.sendTokenResponse env coll c user
             = (gin.JSON c http.StatusOK
                  (tokenBody accessToken generated.1.1 user),
                mongo.updateFirst (mongo.ById (models.ID user))
                  (mongo.SetRefresh (Some (utils.HashString generated.1.1))
                     (Some generated.2)) coll,
                false)).
Proof.
  split.
  - intros env. cbn zeta. unfold utils.HashString. split; [reflexivity | ].
    split; [reflexivity | ]. split; [apply EncodeToString_alphabet | ].
    apply EncodeToString_length.
  - intros env coll c user generated.
    destruct (sendTokenResponse_cases env coll c user)
      as [Hfail | (accessToken & _ & Hok)]; [now left | right].
    exists accessToken. rewrite Hok. reflexivity.
Qed.

End Digest.

(** ** Rotation *)
Section Rotation.
Context {E : Externals}.

(** Serving a sequence of requests, one after the other. *)
Fixpoint serveAll (reqs : list (routes.Route * Env * gin.Context))
    (coll : mongo.Collection) : mongo.Collection :=
  match reqs with
  | [] => coll
  | (r, env, c) :: rest => serveAll rest (routes.handler r env coll c).2
  end.

(** A sequence of requests that neither rotates nor revokes the
    refresh token of the user [u] (each request leaves the document
    of [u] as it finds it) and in which no request draws the bytes
    whose digest is [h]. *)
Fixpoint quiet (u : primitive.ObjectID) (h : string)
    (reqs : list (routes.Route * Env * gin.Context))
    (coll : mongo.Collection) : Prop :=
  match reqs with
  | [] => True
  | (r, env, c) :: rest =>
      let coll' := (routes.handler r env coll c).2 in
      List.find (mongo.matches (mongo.ById u)) coll'
      = List.find (mongo.matches (mongo.ById u)) coll
      /\ freshDigest env <> h
      /\ quiet u h rest coll'
  end.

Lemma NoDup_ids_inj (coll : mongo.Collection) (a b : bson.D) :
  NoDup (ids coll) -> In a coll -> In b coll ->
  bson._id a = bson._id b -> a = b.
Proof.
  induction coll as [ | x coll IH]; [intros _ [] | ].
  cbn [ids List.map]. intros [Hx Hn]%list.NoDup_cons [-> | Ha] [-> | Hb] Hid.
  - reflexivity.
  - exfalso. apply Hx. rewrite Hid. apply list_elem_of_In.
    now apply List.in_map.
  - exfalso. apply Hx. rewrite <- Hid. apply list_elem_of_In.
    now apply List.in_map.
  - now apply IH.
Qed.

Lemma In_updateFirst_ById (coll : mongo.Collection) (d x : bson.D)
    (u : mongo.Update) :
  NoDup (ids coll) -> In d coll ->
  In x (mongo.updateFirst (mongo.ById (bson._id d)) u coll) ->
  x = mongo.apply u d \/ (In x coll /\ x <> d).
Proof.
  induction coll as [ | a coll IH]; [intros _ [] | ].
  intros Hn Hd. pose proof Hn as [Ha Hn']%list.NoDup_cons.
  cbn [mongo.updateFirst mongo.matches].
  destruct (String.eqb_spec (bson._id a) (bson._id d)) as [Hid | Hid].
  - assert (a = d) as -> by (apply (NoDup_ids_inj (a :: coll)); cbn; auto).
    intros [<- | Hx]; [now left | right].
    split; [now right | ]. intros ->. apply Ha, list_elem_of_In.
    now apply List.in_map.
  - destruct Hd as [-> | Hd]; [contradiction | ].
    intros [<- | Hx].
    + right. split; [now left | ]. intros ->. contradiction.
    + destruct (IH Hn' Hd Hx) as [-> | [Hin Hne]]; [now left | right].
      split; [now right | exact Hne].
Qed.

Lemma find_updateFirst_ById (coll : mongo.Collection) (d : bson.D)
    (u : mongo.Update) :
  NoDup (ids coll) -> In d coll ->
  List.find (mongo.matches (mongo.ById (bson._id d)))
    (mongo.updateFirst (mongo.ById (bson._id d)) u coll)
  = Some (mongo.apply u d).
Proof.
  induction coll as [ | a coll IH]; [intros _ [] | ].
  intros Hn Hd. pose proof Hn as [Ha Hn']%list.NoDup_cons.
  cbn [mongo.updateFirst mongo.matches].
  destruct (String.eqb_spec (bson._id a) (bson._id d)) as [Hid | Hid].
  - assert (a = d) as -> by (apply (NoDup_ids_inj (a :: coll)); cbn; auto).
    cbn [List.find mongo.matches]. rewrite apply_id, String.eqb_refl.
    reflexivity.
  - destruct Hd as [-> | Hd]; [contradiction | ].
    cbn [List.find mongo.matches].
    destruct (String.eqb_spec (bson._id a) (bson._id d)); [contradiction | ].
    now apply IH.
Qed.

Lemma nobody_find (h : string) (now : time.Time) (coll : mongo.Collection) :
  nobody h coll ->
  List.find (mongo.matches (mongo.ByRefreshToken h now)) coll = None.
Proof.
  intros Hn. destruct (List.find _ coll) as [d | ] eqn:Hfind; [ | reflexivity].
  apply List.find_some in Hfind as [Hin Hm].
  apply matches_ByRefreshToken in Hm as [Hh _].
  unfold nobody in Hn. rewrite List.Forall_forall in Hn.
  now apply Hn in Hin.
Qed.

Lemma holder_find (h : string) (now : time.Time) (coll : mongo.Collection)
    (d : bson.D) :
  In d coll ->
  mongo.matches (mongo.ByRefreshToken h now) d = true ->
  exists d', List.find (mongo.matches (mongo.ByRefreshToken h now)) coll
             = Some d'.
Proof.
  intros Hin Hm. destruct (List.find _ coll) as [d' | ] eqn:Hfind;
    [now exists d' | ].
  apply (List.find_none _ _ Hfind) in Hin. congruence.
Qed.

(** Along a quiet sequence nobody comes to hold [h], and the
    document of [u] stays what it was. *)
Lemma quiet_serveAll (u : primitive.ObjectID) (h : string)
    (reqs : list (routes.Route * Env * gin.Context))
    (coll : mongo.Collection) :
  quiet u h reqs coll ->
  nobody h coll ->
  nobody h (serveAll reqs coll)
  /\ List.find (mongo.matches (mongo.ById u)) (serveAll reqs coll)
     = List.find (mongo.matches (mongo.ById u)) coll.
Proof.
  revert coll. induction reqs as [ | [[r env] c] rest IH]; intros coll.
  - intros _ Hn. now split.
  - cbn [quiet serveAll]. intros (Hfind & Hfresh & Hq) Hn.
    destruct (handler_writes r env coll c) as (mid & W1 & W2).
    assert (Hn' : nobody h (routes.handler r env coll c).2)
      by eauto using write_nobody.
    destruct (IH _ Hq Hn') as [Hn'' Hfind'']. split; [exact Hn'' | ].
    now rewrite Hfind''.
Qed.

End Rotation.

Section RotationProperty.
Context {E : Externals}.

(** C2, as the code has it.  Let the document [d1] be the only one
    that holds the digest of the plaintext [p1], with an expiry
    still ahead, in a collection whose [_id]s are distinct, and let
    a refresh request present [p1] while the store answers.  The
    request succeeds, hands out the new plaintext [p2] (the
    hexadecimal text of the bytes drawn) and stores its digest with
    the expiry [e2], seven days on, in place of the old pair.  The
    new digest being different from the old one, then, after any
    sequence of further requests that neither rotates nor revokes
    this user's refresh token and draws no bytes with the old
    digest, and as long as the store answers: every refresh request
    presenting [p1] is answered 401 "Invalid or expired refresh
    token" and changes nothing, and every refresh request
    presenting [p2] before [e2] succeeds. *)
Theorem C2_rotation (coll0 : mongo.Collection) (env : Env) (c : gin.Context)
    (p1 : string) (d1 : bson.D) (e1 : primitive.DateTime) :
  NoDup (ids coll0) ->
  controllers.bindRefresh c = Some p1 ->
  storeErr env 0 = false ->
  storeErr env 1 = false ->
  In d1 coll0 ->
  bson.refreshToken d1 = bson.Value (utils.HashString p1) ->
  bson.refreshTokenExpire d1 = bson.Value e1 ->
  clock env 0 < primitive.Time e1 ->
  (forall d, In d coll0 ->
             bson.refreshToken d = bson.Value (utils.HashString p1) ->
             d = d1) ->
  freshDigest env <> utils.HashString p1 ->
  let p2 := hex.EncodeToString (rand.Read 32 (entropy env)) in
  let e2 :=
    primitive.NewDateTimeFromTime
      (time.Add (clock env 3) (7 * 24 * time.Hour)) in
  let coll1 := (controllers.RefreshToken env coll0 c).2 in
  succeeded c (controllers.RefreshToken env coll0 c)
  /\ (exists accessToken,
        (controllers.RefreshToken env coll0 c).1
        = gin.JSON c http.StatusOK
            (tokenBody accessToken p2 (bson.Decode d1)))
  /\ (exists d2,
        List.find (mongo.matches (mongo.ById (bson._id d1))) coll1 = Some d2
        /\ bson.refreshToken d2 = bson.Value (utils.HashString p2)
        /\ bson.refreshTokenExpire d2 = bson.Value e2)
  /\ forall later,
       quiet (bson._id d1) (utils.HashString p1) later coll1 ->
       let coll2 := serveAll later coll1 in
       forall (env' : Env) (c' : gin.Context),
         storeErr env' 0 = false ->
         (controllers.bindRefresh c' = Some p1 ->
          controllers.RefreshToken env' coll2 c'
          = (gin.JSON c' http.StatusUnauthorized
               (gin.failure "Invalid or expired refresh token"), coll2))
         /\ (controllers.bindRefresh c' = Some p2 ->
             storeErr env' 1 = false ->
             clock env' 0 < primitive.Time e2 ->
             succeeded c' (controllers.RefreshToken env' coll2 c')).
Proof.
  intros Hn Hbind Hs0 Hs1 Hin Hh He Hlt Huniq Hfresh p2 e2 coll1.
  pose proof (RefreshToken_outcome env coll0 c p1 Hbind) as Hout.
  cbv zeta in Hout. rewrite Hs0 in Hout.
  assert (Hm1 : mongo.matches
                  (mongo.ByRefreshToken (utils.HashString p1) (clock env 0))
                  d1 = true).
  { apply matches_ByRefreshToken. split; [exact Hh | now exists e1]. }
  destruct (holder_find _ _ _ _ Hin Hm1) as (d' & Hfind).
  assert (d' = d1) as ->.
  { apply List.find_some in Hfind as [Hin' Hm'].
    apply matches_ByRefreshToken in Hm' as [Hh' _]. now apply Huniq. }
  rewrite Hfind, Hs1 in Hout.
  assert (Hcoll1 : coll1
            = mongo.updateFirst (mongo.ById (bson._id d1))
                (mongo.SetRefresh (Some (freshDigest env))
                   (Some (time.Add (clock env 3) (7 * 24 * time.Hour))))
                coll0)
    by (unfold coll1; now rewrite Hout).
  set (upd := mongo.SetRefresh (Some (freshDigest env))
                (Some (time.Add (clock env 3) (7 * 24 * time.Hour))))
    in Hcoll1.
  assert (Hfind1 : List.find (mongo.matches (mongo.ById (bson._id d1))) coll1
                   = Some (mongo.apply upd d1))
    by (rewrite Hcoll1; now apply find_updateFirst_ById).
  assert (Hnobody1 : nobody (utils.HashString p1) coll1).
  { unfold nobody. rewrite List.Forall_forall. intros x Hx.
    rewrite Hcoll1 in Hx.
    destruct (In_updateFirst_ById _ _ _ _ Hn Hin Hx) as [-> | [Hx0 Hne]].
    - cbn. intros [= Heq]. now apply Hfresh.
    - intros Hhx. apply Hne. now apply Huniq. }
  split; [ | split; [ | split]].
  - rewrite Hout. eexists. reflexivity.
  - rewrite Hout. eexists. reflexivity.
  - exists (mongo.apply upd d1). split; [exact Hfind1 | ]. now split.
  - intros later Hq coll2 env' c' Hs0'.
    destruct (quiet_serveAll _ _ _ _ Hq Hnobody1) as [Hnobody2 Hfind2].
    fold coll2 in Hnobody2, Hfind2. rewrite Hfind1 in Hfind2.
    split.
    + intros Hbind'.
      pose proof (RefreshToken_outcome env' coll2 c' p1 Hbind') as Hout'.
      cbv zeta in Hout'.
      now rewrite Hs0', (nobody_find _ _ _ Hnobody2) in Hout'.
    + intros Hbind' Hs1' Hlt'.
      pose proof (RefreshToken_outcome env' coll2 c' p2 Hbind') as Hout'.
      cbv zeta in Hout'. rewrite Hs0' in Hout'.
      apply List.find_some in Hfind2 as [Hin2 _].
      assert (Hm2 : mongo.matches
                      (mongo.ByRefreshToken (utils.HashString p2) (clock env' 0))
                      (mongo.apply upd d1) = true).
      { apply matches_ByRefreshToken. split; [reflexivity | ].
        exists e2. now split. }
      destruct (holder_find _ _ _ _ Hin2 Hm2) as (d'' & Hfind'').
      rewrite Hfind'', Hs1' in Hout'. rewrite Hout'.
      eexists. reflexivity.
Qed.

End RotationProperty.

(** ** The properties on concrete requests *)
Section Sessions.

Let E : Externals := Sample.externals.
#[local] Existing Instance E.
Let L : CodecLaws E := Sample_laws.
#[local] Existing Instance L.

Definition aliceID : primitive.ObjectID := "abcdefghijkl".

(** Half a second past 1 700 000 000 s. *)
Definition t0 : time.Time := 1700000000 * time.Second + 500 * time.Millisecond.

Definition envRegister : Env := envAt t0 ∅ "0123456789abcdef0123456789abcdef" aliceID.

Definition registerAlice : gin.Context :=
  request "" "alice,alice@example.org,secret1".

(** The collection after alice has registered. *)
Definition collAlice : mongo.Collection :=
  (routes.handler routes.PostRegister envRegister [] registerAlice).2.

(** The refresh token handed to alice at registration. *)
Definition aliceRefresh1 : string :=
  hex.EncodeToString "0123456789abcdef0123456789abcdef".

(** The access token issued for alice at [t0]. *)
Definition aliceToken : string :=
  signed SHA256 (issuedClaims envRegister (primitive.Hex aliceID))
    "your-secret-key".

(** One hour after [t0]. *)
Definition envHourLater : Env :=
  envAt (t0 + time.Hour) ∅ "fedcba9876543210fedcba9876543210" aliceID.

(** Two tenths of a second before [t0] plus 24 hours. *)
Definition envAlmostDay : Env :=
  envAt (t0 + 24 * time.Hour - 200 * time.Millisecond) ∅ "" aliceID.

(** Exactly seven days after [t0]. *)
Definition envWeekLater : Env :=
  envAt (t0 + 7 * 24 * time.Hour) ∅ "fedcba9876543210fedcba9876543210" aliceID.

(** Eight days and one hour after [t0]. *)
Definition envEightDays : Env :=
  envAt (t0 + time.Hour + 8 * 24 * time.Hour) ∅ "" aliceID.

Lemma C1_access_token_round_trip_witness :
  exists tokenString,
    utils.GenerateAccessToken envRegister (primitive.Hex aliceID)
      = Some tokenString
    /\ (clock envHourLater 0 < time.FromUnix (expirySecond envRegister) ->
        verifyAccessToken envHourLater tokenString = Some aliceID)
    /\ (time.FromUnix (expirySecond envRegister) <= clock envHourLater 0 ->
        verifyAccessToken envHourLater tokenString = None
        /\ (jwt.ParseWithClaims tokenString (middleware.keyFunc envHourLater)
              (clock envHourLater 0)).2
           = Some (jwt.ErrTokenInvalidClaims [jwt.ErrTokenExpired]))
    /\ (clock envHourLater 0 - clock envRegister 0
          < lifetime envRegister - time.Second ->
        verifyAccessToken envHourLater tokenString = Some aliceID)
    /\ (lifetime envRegister <= clock envHourLater 0 - clock envRegister 0 ->
        verifyAccessToken envHourLater tokenString = None
        /\ (jwt.ParseWithClaims tokenString (middleware.keyFunc envHourLater)
              (clock envHourLater 0)).2
           = Some (jwt.ErrTokenInvalidClaims [jwt.ErrTokenExpired])).
Proof.
  apply (C1_access_token_round_trip envRegister envHourLater aliceID).
  - reflexivity.
  - reflexivity.
  - vm_compute. discriminate.
Defined.

(** C1 as the spec has it: verification succeeds at any time less
    than [L] after the issuance.  It fails: a token issued half a
    second past a whole second, with the lifetime of 24 hours, is
    refused as expired 0.2 s before the 24 hours are over, because
    its expiry was rounded down to the whole second. *)
Lemma C1_round_trip_counterexample :
  lifetime envRegister = 24 * time.Hour
  /\ utils.GenerateAccessToken envRegister (primitive.Hex aliceID)
     = Some aliceToken
  /\ 0 <= clock envAlmostDay 0 - clock envRegister 0 < lifetime envRegister
  /\ verifyAccessToken envAlmostDay aliceToken = None
  /\ (jwt.ParseWithClaims aliceToken (middleware.keyFunc envAlmostDay)
        (clock envAlmostDay 0)).2
     = Some (jwt.ErrTokenInvalidClaims [jwt.ErrTokenExpired]).
Proof.
  split; [vm_compute; reflexivity | ].
  split; [vm_compute; reflexivity | ].
  split; [split; vm_compute; [discriminate | reflexivity] | ].
  split; vm_compute; reflexivity.
Qed.

Lemma C9_missing_secret_falls_back_witness :
  utils.GenerateAccessToken envRegister (primitive.Hex aliceID)
  = Some (signed SHA256 (issuedClaims envRegister (primitive.Hex aliceID))
            "your-secret-key")
  /\ (forall (token : jwt.Token) (h : Hash),
        jwt.Method token = Some (jwt.SigningMethodHMAC h) ->
        middleware.keyFunc envRegister token = Some "your-secret-key").
Proof.
  apply (C9_missing_secret_falls_back envRegister (primitive.Hex aliceID)).
  reflexivity.
Defined.

(** C9 as the spec has it: without JWT_SECRET no token is issued
    or verified.  It fails: with the variable unset a token is
    issued for alice, and an hour later the middleware verifies
    it and reads her identity from it. *)
Lemma C9_missing_secret_counterexample :
  environ envRegister !! "JWT_SECRET" = None
  /\ environ envHourLater !! "JWT_SECRET" = None
  /\ utils.GenerateAccessToken envRegister (primitive.Hex aliceID)
     = Some aliceToken
  /\ verifyAccessToken envHourLater aliceToken = Some aliceID
  /\ ~ (forall (env : Env) (userID : string),
          environ env !! "JWT_SECRET" = None ->
          utils.GenerateAccessToken env userID = None).
Proof.
  assert (H : utils.GenerateAccessToken envRegister (primitive.Hex aliceID)
              = Some aliceToken) by (vm_compute; reflexivity).
  split; [reflexivity | ]. split; [reflexivity | ].
  split; [exact H | ]. split; [vm_compute; reflexivity | ].
  intros Hall.
  rewrite (Hall envRegister (primitive.Hex aliceID) eq_refl) in H.
  discriminate.
Qed.

(** The refresh token handed out when alice refreshes an hour
    after registering. *)
Definition aliceRefresh2 : string :=
  hex.EncodeToString "fedcba9876543210fedcba9876543210".

(** The collection after that refresh. *)
Definition collRotated : mongo.Collection :=
  (controllers.RefreshToken envHourLater collAlice
     (request "" aliceRefresh1)).2.

(** A login attempt for an address nobody registered. *)
Definition loginStranger : gin.Context :=
  request "" "bob@example.org,secret1".

(** A login attempt for alice with a wrong password. *)
Definition loginWrongPassword : gin.Context :=
  request "" "alice@example.org,secret2".

Lemma C5_refresh_fields_paired_witness :
  Forall paired collAlice
  /\ (forall d, In d collAlice ->
        match bson.refreshToken d, bson.refreshTokenExpire d with
        | bson.Value _, bson.Value _ => True
        | bson.Value _, _ | _, bson.Value _ => False
        | _, _ => True
        end).
Proof.
  split.
  - apply (proj1 C5_refresh_fields_paired routes.PostRegister envRegister
             registerAlice []).
    constructor.
  - apply (proj2 C5_refresh_fields_paired collAlice).
    apply (routes.reachable_serve routes.PostRegister envRegister
             registerAlice []).
    constructor.
Defined.

Lemma C8_login_failures_indistinguishable_witness :
  controllers.Login envHourLater collAlice loginStranger
  = (gin.JSON loginStranger http.StatusUnauthorized
       (gin.failure "Invalid credentials"), collAlice)
  /\ controllers.Login envHourLater collAlice loginWrongPassword
     = (gin.JSON loginWrongPassword http.StatusUnauthorized
          (gin.failure "Invalid credentials"), collAlice).
Proof.
  eapply (C8_login_failures_indistinguishable envHourLater envHourLater
            collAlice collAlice loginStranger loginWrongPassword
            "bob@example.org" "secret1" "alice@example.org" "secret2").
  - vm_compute. reflexivity.
  - vm_compute. reflexivity.
  - vm_compute. reflexivity.
  - vm_compute. reflexivity.
  - vm_compute. reflexivity.
Defined.

Lemma C4_refresh_expiry_boundary_witness :
  ~ succeeded (request "" aliceRefresh1)
      (controllers.RefreshToken envWeekLater collAlice
         (request "" aliceRefresh1))
  /\ controllers.RefreshToken envWeekLater collAlice (request "" aliceRefresh1)
     = (gin.JSON (request "" aliceRefresh1) http.StatusUnauthorized
          (gin.failure "Invalid or expired refresh token"), collAlice).
Proof.
  destruct (C4_refresh_expiry_boundary envWeekLater collAlice
              (request "" aliceRefresh1) aliceRefresh1) as [Hequal _].
  { vm_compute. reflexivity. }
  destruct Hequal as [Hfails Hanswer].
  { intros d e Hin. vm_compute in Hin. destruct Hin as [<- | []].
    intros _ He. vm_compute in He. injection He as <-.
    vm_compute. reflexivity. }
  split; [exact Hfails | ]. apply Hanswer. reflexivity.
Defined.

Lemma C2_rotation_witness :
  succeeded (request "" aliceRefresh1)
    (controllers.RefreshToken envHourLater collAlice (request "" aliceRefresh1))
  /\ controllers.RefreshToken envWeekLater
       (serveAll [(routes.PostLogin, envHourLater, loginStranger)] collRotated)
       (request "" aliceRefresh1)
     = (gin.JSON (request "" aliceRefresh1) http.StatusUnauthorized
          (gin.failure "Invalid or expired refresh token"),
        serveAll [(routes.PostLogin, envHourLater, loginStranger)] collRotated)
  /\ succeeded (request "" aliceRefresh2)
       (controllers.RefreshToken envWeekLater
          (serveAll [(routes.PostLogin, envHourLater, loginStranger)]
             collRotated)
          (request "" aliceRefresh2)).
Proof.
  edestruct (C2_rotation collAlice envHourLater (request "" aliceRefresh1)
               aliceRefresh1) as (Hfirst & _ & _ & Hlater).
  - apply reachable_NoDup.
    apply (routes.reachable_serve routes.PostRegister envRegister
             registerAlice []).
    constructor.
  - vm_compute. reflexivity.
  - reflexivity.
  - reflexivity.
  - vm_compute. left. reflexivity.
  - vm_compute. reflexivity.
  - vm_compute. reflexivity.
  - vm_compute. reflexivity.
  - intros d Hin. vm_compute in Hin. destruct Hin as [<- | []].
    intros _. vm_compute. reflexivity.
  - vm_compute. discriminate.
  - split; [exact Hfirst | ].
    destruct (Hlater [(routes.PostLogin, envHourLater, loginStranger)])
      with (env' := envWeekLater) (c' := request "" aliceRefresh1)
      as [Hold _].
    { vm_compute. split; [reflexivity | split; [discriminate | exact I]]. }
    { reflexivity. }
    destruct (Hlater [(routes.PostLogin, envHourLater, loginStranger)])
      with (env' := envWeekLater) (c' := request "" aliceRefresh2)
      as [_ Hnew].
    { vm_compute. split; [reflexivity | split; [discriminate | exact I]]. }
    { reflexivity. }
    split.
    + apply Hold. vm_compute. reflexivity.
    + apply Hnew; [vm_compute; reflexivity | reflexivity
                   | vm_compute; reflexivity].
Defined.

(** C2 as the spec has it: the new plaintext is accepted until the
    next rotation or revocation.  It fails: with no request at all
    in between, the refresh token alice received at the rotation is
    refused eight days later, because its stored expiry, seven days
    after the rotation, has passed. *)
Lemma C2_rotation_counterexample :
  (controllers.RefreshToken envHourLater collAlice (request "" aliceRefresh1)).1
  = gin.JSON (request "" aliceRefresh1) http.StatusOK
      (tokenBody
         (signed SHA256
            (issuedClaims (advance 1 1 envHourLater) (primitive.Hex aliceID))
            "your-secret-key")
         aliceRefresh2
         {| models.ID := aliceID;
            models.Username := "alice";
            models.Email := "alice@example.org";
            models.Password := "bcrypt:secret1";
            models.RefreshToken := utils.HashString aliceRefresh1;
            models.RefreshTokenExpire := Some (t0 + 7 * 24 * time.Hour);
            models.CreatedAt := t0;
            models.UpdatedAt := t0 |})
  /\ controllers.RefreshToken envEightDays collRotated
       (request "" aliceRefresh2)
     = (gin.JSON (request "" aliceRefresh2) http.StatusUnauthorized
          (gin.failure "Invalid or expired refresh token"), collRotated).
Proof.
  split; vm_compute; reflexivity.
Qed.

End Sessions.


(** * Further properties of the handlers *)

(** ** Registration and login *)
Section Accounts.
Context {E : Externals}.

Lemma updateFirst_app_new (id : primitive.ObjectID) (u : mongo.Update)
    (coll : mongo.Collection) (d : bson.D) :
  existsb (mongo.matches (mongo.ById id)) coll = false ->
  bson._id d = id ->
  mongo.updateFirst (mongo.ById id) u (coll ++ [d])%list
  = (coll ++ [mongo.apply u d])%list.
Proof.
  intros Hnew Hid. induction coll as [ | a coll IH].
  - cbn [app mongo.updateFirst mongo.matches]. now rewrite Hid, String.eqb_refl.
  - cbn [existsb] in Hnew. apply orb_false_elim in Hnew as [Ha Hrest].
    cbn [app mongo.updateFirst]. rewrite Ha. now rewrite (IH Hrest).
Qed.

(** The document [Register] inserts, before any token is stored. *)
Definition registered (env : Env) (username email hashedPassword : string)
  : bson.D :=
  bson.Marshal (models.NewUser username email hashedPassword (clock env 0))
    (freshID env).

(** The rotation [sendTokenResponse] writes when it runs behind [k]
    earlier readings of the clock. *)
Definition rotation (env : Env) (k : nat) : mongo.Update :=
  mongo.SetRefresh (Some (freshDigest env))
    (Some (time.Add (clock env (k + 2)) (7 * 24 * time.Hour))).

Lemma registered_id (env : Env) (username email hashedPassword : string) :
  bson._id (registered env username email hashedPassword) = freshID env.
Proof.
  unfold registered, bson.Marshal, models.NewUser. cbn [models.ID bson._id].
  now rewrite String.eqb_refl.
Qed.

(** Every way a registration that binds can end. *)
Lemma Register_outcome (env : Env) (coll : mongo.Collection)
    (c : gin.Context) (username email password : string) :
  controllers.bindRegister c = Some (username, email, password) ->
  controllers.Register env coll c
  = if storeErr env 0 then
      (gin.JSON c http.StatusInternalServerError
         (gin.failure "Failed to check existing users"), coll)
    else
    match List.find (mongo.matches (mongo.ByUsernameOrEmail username email))
            coll with
    | Some _ =>
        (gin.JSON c http.StatusBadRequest
           (gin.failure "Username or email already in use"), coll)
    | None =>
    match bcrypt_GenerateFromPassword (salt env) password with
    | None =>
        (gin.JSON c http.StatusInternalServerError
           (gin.failure "Failed to process password"), coll)
    | Some hashed =>
        if storeErr env 1
           || existsb (mongo.matches (mongo.ById (freshID env))) coll then
          (gin.JSON c http.StatusInternalServerError
             (gin.failure "Failed to create user"), coll)
        else if storeErr env 2 then
          (controllers.tokenFailure c,
           (coll ++ [registered env username email hashed])%list)
        else
          (gin.JSON c http.StatusOK
             (tokenBody
                (signed SHA256
                   (issuedClaims (advance 1 2 env)
                      (primitive.Hex (freshID env)))
                   (utils.GetEnv env "JWT_SECRET" "your-secret-key"))
                (hex.EncodeToString (rand.Read 32 (entropy env)))
                (models.withID
                   (models.NewUser username email hashed (clock env 0))
                   (freshID env))),
           (coll ++ [mongo.apply (rotation env 1)
                       (registered env username email hashed)])%list)
    end end.
Proof.
  intros Hbind. unfold controllers.Register, mongo.FindOne. rewrite Hbind.
  destruct (storeErr env 0); [reflexivity | ].
  destruct (List.find _ coll); [reflexivity | ].
  destruct (bcrypt_GenerateFromPassword _ _) as [hashed | ]; [ | reflexivity].
  unfold mongo.InsertOne. destruct (storeErr env 1); [reflexivity | ].
  fold (registered env username email hashed).
  rewrite registered_id.
  destruct (existsb _ coll) eqn:Hdup; [reflexivity | ]. cbn [orb].
  unfold controllers.sendTokenResponse.
  cbn [models.withID models.ID].
  rewrite GenerateAccessToken_signed.
  unfold utils.GenerateRefreshToken, mongo.UpdateOne.
  cbn [advance entropy clock storeErr Nat.add].
  destruct (storeErr env 2); [reflexivity | ].
  rewrite (updateFirst_app_new _ _ _ _ Hdup (registered_id _ _ _ _)).
  reflexivity.
Qed.

(** Every way a login that binds can end. *)
Lemma Login_outcome (env : Env) (coll : mongo.Collection)
    (c : gin.Context) (email password : string) :
  controllers.bindLogin c = Some (email, password) ->
  controllers.Login env coll c
  = if storeErr env 0 then
      (gin.JSON c http.StatusInternalServerError
         (gin.failure "Failed to find user"), coll)
    else
    match List.find (mongo.matches (mongo.ByEmail email)) coll with
    | None =>
        (gin.JSON c http.StatusUnauthorized
           (gin.failure "Invalid credentials"), coll)
    | Some d =>
        if negb (bcrypt_CompareHashAndPassword (bson.password d) password) then
          (gin.JSON c http.StatusUnauthorized
             (gin.failure "Invalid credentials"), coll)
        else if storeErr env 1 then (controllers.tokenFailure c, coll)
        else
          (gin.JSON c http.StatusOK
             (tokenBody
                (signed SHA256
                   (issuedClaims (advance 0 1 env) (primitive.Hex (bson._id d)))
                   (utils.GetEnv env "JWT_SECRET" "your-secret-key"))
                (hex.EncodeToString (rand.Read 32 (entropy env)))
                (bson.Decode d)),
           mongo.updateFirst (mongo.ById (bson._id d)) (rotation env 0) coll)
    end.
Proof.
  intros Hbind. unfold controllers.Login, mongo.FindOne. rewrite Hbind.
  destruct (storeErr env 0); [reflexivity | ].
  destruct (List.find _ coll) as [d | ]; [ | reflexivity].
  cbn [bson.Decode models.Password].
  destruct (negb _); [reflexivity | ].
  unfold controllers.sendTokenResponse.
  rewrite GenerateAccessToken_signed.
  unfold utils.GenerateRefreshToken, mongo.UpdateOne.
  cbn [advance entropy clock storeErr Nat.add models.ID].
  destruct (storeErr env 1); reflexivity.
Qed.

End Accounts.

(** ** The middleware as a whole *)
Section Authorization.
Context {E : Externals}.

Lemma find_ById_some (id : primitive.ObjectID) (coll : mongo.Collection)
    (d : bson.D) :
  List.find (mongo.matches (mongo.ById id)) coll = Some d ->
  In d coll /\ bson._id d = id.
Proof.
  intros [Hin Hm]%List.find_some. split; [exact Hin | ].
  now apply String.eqb_eq in Hm.
Qed.

(** How [Protect] ends, whatever handler stands behind it: with an
    answer of its own, or in that handler. *)
Lemma Protect_cases (env : Env) (coll : mongo.Collection) (c : gin.Context) :
  (exists code msg,
      (code = http.StatusUnauthorized \/ code = http.StatusInternalServerError)
      /\ forall next : gin.HandlerFunc,
           middleware.Protect next env coll c
           = (gin.Abort (gin.JSON c code (gin.failure msg)), coll))
  \/ (exists tokenString userID d,
        gostrings.Split (gin.GetHeader c "Authorization") " "
          = ["Bearer"; tokenString]
        /\ verifyAccessToken env tokenString = Some userID
        /\ storeErr env 0 = false
        /\ In d coll
        /\ bson._id d = userID
        /\ forall next : gin.HandlerFunc,
             middleware.Protect next env coll c
             = next (advance 1 1 env) coll
                 (gin.Set_ (gin.Set_ c "user" (gin.KUser (bson.Decode d)))
                    "userId" (gin.KObjectID userID))).
Proof.
  unfold middleware.Protect.
  destruct (String.eqb _ "") eqn:Hempty; [left; eauto | ].
  destruct (gostrings.Split _ " ") as [ | scheme [ | tokenString [ | ? ?]]]
    eqn:Hsplit; cbn [length Nat.eqb negb orb nth]; try (left; eauto; fail).
  destruct (String.eqb_spec scheme "Bearer") as [-> | _]; cbn [negb];
    [ | left; eauto].
  destruct (jwt.ParseWithClaims _ _ _) as [token [err | ]] eqn:Hparse;
    cbn [orb]; [left; eauto | ].
  destruct (ParseWithClaims_ok_Valid _ _ _ _ Hparse) as (t & -> & Hvalid).
  rewrite Hvalid. cbn [negb].
  destruct (jwt.Claims t !! "id") as [[ | | | s | | ] | ] eqn:Hid;
    try (left; eauto; fail).
  destruct (primitive.ObjectIDFromHex s) as [userID | ] eqn:Hhex;
    [ | left; eauto].
  unfold mongo.FindOne.
  destruct (storeErr env 0) eqn:Hstore; [left; eauto | ].
  destruct (List.find _ coll) as [d | ] eqn:Hfind; [ | left; eauto].
  right. exists tokenString, userID, d.
  apply find_ById_some in Hfind as [Hin Hd].
  repeat split; try assumption; try reflexivity.
  unfold verifyAccessToken. now rewrite Hparse, Hvalid, Hid.
Qed.

(** X1.  [Protect] either answers by itself, with a single response
    of status 401 or 500, the chain aborted, the collection left
    alone and the handler behind it not run, or it hands the request
    to that handler and adds nothing to what the handler does.  It
    hands over only for a header of the form "Bearer <token>" whose
    token is verified and names a document of the collection; the
    handler then finds that document under "user" and its [_id], as
    an [ObjectID], under "userId", and the request is otherwise as
    it came in. *)
Theorem Protect_authorizes (env : Env) (coll : mongo.Collection)
    (c : gin.Context) :
  (exists code msg,
      (code = http.StatusUnauthorized \/ code = http.StatusInternalServerError)
      /\ forall next : gin.HandlerFunc,
           middleware.Protect next env coll c
           = (gin.Abort (gin.JSON c code (gin.failure msg)), coll))
  \/ (exists tokenString d c',
        gostrings.Split (gin.GetHeader c "Authorization") " "
          = ["Bearer"; tokenString]
        /\ verifyAccessToken env tokenString = Some (bson._id d)
        /\ In d coll
        /\ gin.Get c' "user" = Some (gin.KUser (bson.Decode d))
        /\ gin.Get c' "userId" = Some (gin.KObjectID (bson._id d))
        /\ gin.Request_Header c' = gin.Request_Header c
        /\ gin.Request_Body c' = gin.Request_Body c
        /\ gin.Writer c' = gin.Writer c
        /\ gin.IsAborted c' = gin.IsAborted c
        /\ forall next : gin.HandlerFunc,
             middleware.Protect next env coll c
             = next (advance 1 1 env) coll c').
Proof.
  destruct (Protect_cases env coll c)
    as [Hown
       | (tokenString & userID & d & Hsplit & Hverify & _ & Hin & Hid & Hout)];
    [now left | right].
  exists tokenString, d,
    (gin.Set_ (gin.Set_ c "user" (gin.KUser (bson.Decode d)))
       "userId" (gin.KObjectID userID)).
  rewrite Hid.
  split; [exact Hsplit | ]. split; [exact Hverify | ]. split; [exact Hin | ].
  repeat split; [ | | exact Hout].
  - unfold gin.Get, gin.Set_. cbn [gin.Keys].
    rewrite lookup_insert_ne by discriminate. apply lookup_insert_eq.
  - unfold gin.Get, gin.Set_. cbn [gin.Keys]. apply lookup_insert_eq.
Qed.

End Authorization.

(** ** The pair of tokens a response carries *)
Section TokenPair.
Context {E : Externals} {L : CodecLaws E}.

Lemma Read_length (n : nat) (src : string) :
  String.length (rand.Read n src) = n.
Proof.
  revert src. induction n as [ | n IH]; intros src; [reflexivity | ].
  destruct src; cbn [rand.Read String.length]; now rewrite IH.
Qed.

(** X2.  Whatever the random generator delivers, even nothing, the
    plaintext [GenerateRefreshToken] returns is 64 characters of
    lower-case hexadecimal text, and the expiry it returns lies
    exactly 604800 seconds after its reading of the clock. *)
Theorem GenerateRefreshToken_shape (env : Env) :
  String.length (utils.GenerateRefreshToken env).1.1 = 64%nat
  /\ isLowerHex (utils.GenerateRefreshToken env).1.1 = true
  /\ (utils.GenerateRefreshToken env).2 = clock env 0 + 604800 * time.Second.
Proof.
  unfold utils.GenerateRefreshToken. cbn [fst snd].
  rewrite EncodeToString_length, Read_length. split; [reflexivity | ].
  split; [apply EncodeToString_alphabet | reflexivity].
Qed.

(** X3.  When the store answers, [sendTokenResponse] succeeds for
    every user: it writes the one response 200 with an access token
    and a refresh token, and stores the digest of that refresh token.
    The access token is verified by the middleware, under an
    unchanged environment and before its expiry second, as the
    [ID] of that very user. *)
Theorem sendTokenResponse_pair (env : Env) (coll : mongo.Collection)
    (c : gin.Context) (user : models.User) :
  storeErr env 0 = false ->
  String.length (models.ID user) = 12%nat ->
  expirySecond env <> 0 ->
  exists accessToken refreshToken expiry,
    controllers.sendTokenResponse env coll c user
    = (gin.JSON c http.StatusOK (tokenBody accessToken refreshToken user),
       mongo.updateFirst (mongo.ById (models.ID user))
         (mongo.SetRefresh (Some (utils.HashString refreshToken))
            (Some expiry)) coll,
       false)
    /\ expiry = clock env 2 + 7 * 24 * time.Hour
    /\ forall env',
         environ env' = environ env ->
         clock env' 0 < time.FromUnix (expirySecond env) ->
         verifyAccessToken env' accessToken = Some (models.ID user).
Proof.
  intros Hstore Hlen Hexp.
  exists (signed SHA256 (issuedClaims env (primitive.Hex (models.ID user)))
            (utils.GetEnv env "JWT_SECRET" "your-secret-key")),
    (hex.EncodeToString (rand.Read 32 (entropy env))),
    (clock env 2 + 7 * 24 * time.Hour).
  split; [ | split; [reflexivity | ]].
  - unfold controllers.sendTokenResponse.
    rewrite GenerateAccessToken_signed.
    unfold utils.GenerateRefreshToken, mongo.UpdateOne.
    cbn [advance entropy clock storeErr Nat.add]. rewrite Hstore.
    reflexivity.
  - intros env' Henv Hlt.
    destruct (verifyAccessToken_issued env env' (models.ID user) Hlen Henv)
      as [_ Hverify].
    cbv zeta in Hverify. rewrite Hverify, Validate_issuedClaims.
    apply Z.eqb_neq in Hexp. apply Z.ltb_lt in Hlt. now rewrite Hexp, Hlt.
Qed.

End TokenPair.

(** ** Accounts *)
Section AccountFacts.
Context {E : Externals}.

Lemma find_none_Forall (f : mongo.Filter) (coll : mongo.Collection) :
  List.find (mongo.matches f) coll = None <->
  Forall (fun d => mongo.matches f d = false) coll.
Proof.
  rewrite List.Forall_forall. split.
  - intros Hnone d Hin. exact (List.find_none _ _ Hnone d Hin).
  - intros Hall. destruct (List.find _ coll) as [d | ] eqn:Hfind;
      [ | reflexivity].
    apply List.find_some in Hfind as [Hin Hm]. rewrite (Hall d Hin) in Hm.
    discriminate.
Qed.

Lemma find_app_new (id : primitive.ObjectID) (coll : mongo.Collection)
    (d : bson.D) :
  existsb (mongo.matches (mongo.ById id)) coll = false ->
  bson._id d = id ->
  List.find (mongo.matches (mongo.ById id)) (coll ++ [d])%list = Some d.
Proof.
  intros Hnew Hid. induction coll as [ | a coll IH].
  - cbn [app List.find mongo.matches]. now rewrite Hid, String.eqb_refl.
  - cbn [existsb] in Hnew. apply orb_false_elim in Hnew as [Ha Hrest].
    cbn [app List.find]. rewrite Ha. now apply IH.
Qed.

(** What a registration that was answered 200 went through. *)
Lemma Register_succeeded_inv (env : Env) (coll : mongo.Collection)
    (c : gin.Context) (username email password : string) :
  controllers.bindRegister c = Some (username, email, password) ->
  succeeded c (controllers.Register env coll c) ->
  storeErr env 0 = false
  /\ List.find (mongo.matches (mongo.ByUsernameOrEmail username email)) coll
     = None
  /\ existsb (mongo.matches (mongo.ById (freshID env))) coll = false
  /\ exists hashed,
       bcrypt_GenerateFromPassword (salt env) password = Some hashed
       /\ controllers.Register env coll c
          = (gin.JSON c http.StatusOK
               (tokenBody
                  (signed SHA256
                     (issuedClaims (advance 1 2 env)
                        (primitive.Hex (freshID env)))
                     (utils.GetEnv env "JWT_SECRET" "your-secret-key"))
                  (hex.EncodeToString (rand.Read 32 (entropy env)))
                  (models.withID
                     (models.NewUser username email hashed (clock env 0))
                     (freshID env))),
             (coll ++ [mongo.apply (rotation env 1)
                         (registered env username email hashed)])%list).
Proof.
  intros Hbind. rewrite (Register_outcome env coll c _ _ _ Hbind).
  destruct (storeErr env 0); [now intros ?%JSON_not_succeeded | ].
  destruct (List.find _ coll); [now intros ?%JSON_not_succeeded | ].
  destruct (bcrypt_GenerateFromPassword _ _) as [hashed | ];
    [ | now intros ?%JSON_not_succeeded].
  destruct (storeErr env 1); cbn [orb]; [now intros ?%JSON_not_succeeded | ].
  destruct (existsb _ coll); [now intros ?%JSON_not_succeeded | ].
  destruct (storeErr env 2); [now intros ?%JSON_not_succeeded | ].
  intros _. repeat split. now exists hashed.
Qed.

(** X4.  A registration that is answered 200 adds exactly one
    document, at the end of the collection and with the [_id] the
    driver minted: it carries the username and e-mail address of the
    request, the bcrypt hash of the password, the digest of the
    refresh token the response hands out and an expiry seven days
    ahead; and no document with that username or that address was
    there before. *)
Theorem Register_creates_account (env : Env) (coll : mongo.Collection)
    (c : gin.Context) (username email password : string) :
  controllers.bindRegister c = Some (username, email, password) ->
  succeeded c (controllers.Register env coll c) ->
  (forall d, In d coll ->
             bson.username d <> username /\ bson.email d <> email)
  /\ exists hashed accessToken refreshToken user,
       bcrypt_GenerateFromPassword (salt env) password = Some hashed
       /\ controllers.Register env coll c
          = (gin.JSON c http.StatusOK
               (tokenBody accessToken refreshToken user),
             (coll ++
              [{| bson._id := freshID env;
                  bson.username := username;
                  bson.email := email;
                  bson.password := hashed;
                  bson.refreshToken :=
                    bson.Value (utils.HashString refreshToken);
                  bson.refreshTokenExpire :=
                    bson.Value
                      (primitive.NewDateTimeFromTime
                         (clock env 3 + 7 * 24 * time.Hour));
                  bson.createdAt :=
                    primitive.NewDateTimeFromTime (clock env 0);
                  bson.updatedAt :=
                    primitive.NewDateTimeFromTime (clock env 0) |}])%list).
Proof.
  intros Hbind Hok.
  destruct (Register_succeeded_inv env coll c _ _ _ Hbind Hok)
    as (_ & Hfind & _ & hashed & Hhash & Hout).
  split.
  - apply find_none_Forall in Hfind. rewrite List.Forall_forall in Hfind.
    intros d Hin. specialize (Hfind d Hin). cbn [mongo.matches] in Hfind.
    apply orb_false_elim in Hfind as [Hu He].
    now apply String.eqb_neq in Hu, He.
  - exists hashed. do 3 eexists. split; [exact Hhash | ].
    rewrite Hout. unfold registered, rotation, bson.Marshal, models.NewUser.
    cbn [mongo.apply bson._id bson.username bson.email bson.password
         bson.createdAt bson.updatedAt models.ID models.Username models.Email
         models.Password models.CreatedAt models.UpdatedAt Nat.add].
    rewrite String.eqb_refl. reflexivity.
Qed.

(** X5.  When the token write of a registration fails, nothing is
    rolled back: the request is answered 500 "Failed to generate
    authentication tokens", yet the account is in the collection,
    without refresh fields; the same registration sent again is then
    answered 400 "Username or email already in use". *)
Theorem Register_no_rollback (env env' : Env) (coll : mongo.Collection)
    (c c' : gin.Context) (username email password hashed : string) :
  controllers.bindRegister c = Some (username, email, password) ->
  controllers.bindRegister c' = Some (username, email, password) ->
  storeErr env 0 = false ->
  List.find (mongo.matches (mongo.ByUsernameOrEmail username email)) coll
    = None ->
  bcrypt_GenerateFromPassword (salt env) password = Some hashed ->
  storeErr env 1 = false ->
  existsb (mongo.matches (mongo.ById (freshID env))) coll = false ->
  storeErr env 2 = true ->
  storeErr env' 0 = false ->
  let coll' := (coll ++ [registered env username email hashed])%list in
  controllers.Register env coll c
  = (gin.JSON c http.StatusInternalServerError
       (gin.failure "Failed to generate authentication tokens"), coll')
  /\ bson.refreshToken (registered env username email hashed) = bson.Absent
  /\ bson.refreshTokenExpire (registered env username email hashed)
     = bson.Absent
  /\ controllers.Register env' coll' c'
     = (gin.JSON c' http.StatusBadRequest
          (gin.failure "Username or email already in use"), coll').
Proof.
  intros Hbind Hbind' Hs0 Hfind Hhash Hs1 Hdup Hs2 Hs0' coll'.
  split; [ | split; [reflexivity | split; [reflexivity | ]]].
  - rewrite (Register_outcome env coll c _ _ _ Hbind).
    now rewrite Hs0, Hfind, Hhash, Hs1, Hdup, Hs2.
  - rewrite (Register_outcome env' coll' c' _ _ _ Hbind'). rewrite Hs0'.
    destruct (List.find _ coll') as [d | ] eqn:Hfind'; [reflexivity | ].
    apply find_none_Forall in Hfind'. unfold coll' in Hfind'.
    apply Forall_app in Hfind' as [_ Hlast].
    apply Forall_inv in Hlast. cbn in Hlast.
    now rewrite String.eqb_refl in Hlast.
Qed.

End AccountFacts.

(** ** What no request changes *)
Section Frame.
Context {E : Externals}.

(** The part of a document that identifies the account and holds its
    credentials. *)
Definition account (d : bson.D)
  : primitive.ObjectID * string * string * string
    * primitive.DateTime * primitive.DateTime :=
  (bson._id d, bson.username d, bson.email d, bson.password d,
   bson.createdAt d, bson.updatedAt d).

Lemma updateFirst_accounts (f : mongo.Filter) (u : mongo.Update)
    (coll : mongo.Collection) :
  List.map account (mongo.updateFirst f u coll) = List.map account coll.
Proof.
  induction coll as [ | d coll IH]; [reflexivity | ].
  cbn [mongo.updateFirst]. destruct (mongo.matches f d); cbn [List.map].
  - destruct u; reflexivity.
  - now rewrite IH.
Qed.

(** A request either leaves all accounts as they are or appends one
    new account, whose username, address and [_id] were not in use. *)
Lemma handler_accounts (r : routes.Route) (env : Env)
    (coll : mongo.Collection) (c : gin.Context) :
  List.map account (routes.handler r env coll c).2 = List.map account coll
  \/ exists d,
       List.map account (routes.handler r env coll c).2
       = (List.map account coll ++ [account d])%list
       /\ Forall (fun x => bson.username x <> bson.username d
                           /\ bson.email x <> bson.email d
                           /\ bson._id x <> bson._id d) coll.
Proof.
  destruct r; cbn [routes.handler].
  - destruct (controllers.bindRegister c) as [[[username email] password] | ]
      eqn:Hbind.
    2: { left. unfold controllers.Register. now rewrite Hbind. }
    rewrite (Register_outcome env coll c _ _ _ Hbind).
    destruct (storeErr env 0); [now left | ].
    destruct (List.find _ coll) eqn:Hfind; [now left | ].
    destruct (bcrypt_GenerateFromPassword _ _) as [hashed | ]; [ | now left].
    destruct (storeErr env 1); cbn [orb]; [now left | ].
    destruct (existsb _ coll) eqn:Hdup; [now left | ].
    assert (Hnew : Forall (fun x =>
              bson.username x <> bson.username (registered env username email hashed)
              /\ bson.email x <> bson.email (registered env username email hashed)
              /\ bson._id x <> bson._id (registered env username email hashed))
              coll).
    { apply find_none_Forall in Hfind.
      rewrite List.Forall_forall in Hfind |- *. intros x Hin.
      specialize (Hfind x Hin). cbn [mongo.matches] in Hfind.
      apply orb_false_elim in Hfind as [Hu He].
      apply String.eqb_neq in Hu, He. rewrite registered_id.
      split; [exact Hu | split; [exact He | ]].
      intros Hid. apply existsb_ById_false in Hdup. apply Hdup.
      rewrite <- Hid. now apply List.in_map. }
    right. exists (registered env username email hashed).
    split; [ | exact Hnew].
    destruct (storeErr env 2); cbn [snd]; rewrite List.map_app; reflexivity.
  - destruct (controllers.bindLogin c) as [[email password] | ] eqn:Hbind.
    2: { left. unfold controllers.Login. now rewrite Hbind. }
    rewrite (Login_outcome env coll c _ _ Hbind). left.
    destruct (storeErr env 0); [reflexivity | ].
    destruct (List.find _ coll); [ | reflexivity].
    destruct (negb _); [reflexivity | ].
    destruct (storeErr env 1); [reflexivity | ].
    apply updateFirst_accounts.
  - destruct (controllers.bindRefresh c) as [refreshToken | ] eqn:Hbind.
    2: { left. unfold controllers.RefreshToken. now rewrite Hbind. }
    rewrite (RefreshToken_outcome env coll c _ Hbind). cbv zeta. left.
    destruct (storeErr env 0); [reflexivity | ].
    destruct (List.find _ coll); [ | reflexivity].
    destruct (storeErr env 1); [reflexivity | ].
    apply updateFirst_accounts.
  - left.
    destruct (Protect_cases env coll c)
      as [(code & msg & _ & Hout) | (tok & id & d & _ & _ & _ & _ & _ & Hout)];
      rewrite Hout; [reflexivity | ].
    unfold controllers.Logout, mongo.UpdateOne.
    destruct (gin.Get _ "userId") as [[u | uid] | ]; try reflexivity.
    + destruct (storeErr _ 0); reflexivity.
    + destruct (storeErr _ 0); [reflexivity | ]. apply updateFirst_accounts.
Qed.

(** X6.  No request removes an account or changes the [_id], the
    username, the e-mail address, the password hash or the creation
    and update dates of an account: after any request the accounts
    that were there are still there, in the same order and unchanged,
    followed by at most one new account. *)
Theorem accounts_preserved (r : routes.Route) (env : Env)
    (coll : mongo.Collection) (c : gin.Context) :
  exists added,
    List.map account (routes.handler r env coll c).2
    = (List.map account coll ++ List.map account added)%list
    /\ (length added <= 1)%nat.
Proof.
  destruct (handler_accounts r env coll c) as [Hsame | (d & Happ & _)].
  - exists []. rewrite Hsame, app_nil_r. split; [reflexivity | cbn; lia].
  - exists [d]. split; [exact Happ | cbn; lia].
Qed.



End Frame.

(** ** Sessions *)
Section SessionFacts.
Context {E : Externals}.

Lemma find_ByEmail_app_new (email : string) (coll : mongo.Collection)
    (d : bson.D) :
  Forall (fun x => bson.email x <> email) coll ->
  bson.email d = email ->
  List.find (mongo.matches (mongo.ByEmail email)) (coll ++ [d])%list = Some d.
Proof.
  intros Hall Hd. induction Hall as [ | a coll Ha Hall IH].
  - cbn [app List.find mongo.matches]. now rewrite Hd, String.eqb_refl.
  - cbn [app List.find mongo.matches].
    apply String.eqb_neq in Ha. now rewrite Ha.
Qed.

(** X8.  Provided bcrypt accepts the password it hashed, an account
    that was just registered can log in: after a registration
    answered 200, a login with the same e-mail address and password
    is answered 200 as well, as long as the store answers. *)
Theorem register_then_login (env env' : Env) (coll : mongo.Collection)
    (c c' : gin.Context) (username email password : string) :
  (forall salt pw hashed,
      bcrypt_GenerateFromPassword salt pw = Some hashed ->
      bcrypt_CompareHashAndPassword hashed pw = true) ->
  controllers.bindRegister c = Some (username, email, password) ->
  succeeded c (controllers.Register env coll c) ->
  controllers.bindLogin c' = Some (email, password) ->
  storeErr env' 0 = false ->
  storeErr env' 1 = false ->
  succeeded c' (controllers.Login env' (controllers.Register env coll c).2 c').
Proof.
  intros Hbcrypt Hbind Hok Hbind' Hs0 Hs1.
  destruct (Register_succeeded_inv env coll c _ _ _ Hbind Hok)
    as (_ & Hfind & _ & hashed & Hhash & Hout).
  rewrite Hout. cbn [snd].
  rewrite (Login_outcome env' _ c' _ _ Hbind'), Hs0.
  rewrite (find_ByEmail_app_new email).
  - cbn [mongo.apply rotation bson.password registered bson.Marshal
         models.NewUser models.Password].
    rewrite (Hbcrypt _ _ _ Hhash), Hs1. cbn [negb]. eexists. reflexivity.
  - apply find_none_Forall in Hfind.
    eapply List.Forall_impl; [ | exact Hfind].
    intros x Hx. cbn [mongo.matches] in Hx.
    apply orb_false_elim in Hx as [_ He]. now apply String.eqb_neq in He.
  - reflexivity.
Qed.

(** X9.  A login answered 200 replaces the stored refresh token at
    once: if the account that logs in was the only holder of the
    digest of a plaintext [p], and the digest of the new token is a
    different one, then from that login on a refresh request
    presenting [p] is answered 401 "Invalid or expired refresh
    token", although [p] has neither expired nor been used. *)
Theorem Login_replaces_refresh_token (env env' : Env)
    (coll : mongo.Collection) (c c' : gin.Context)
    (email password p : string) :
  NoDup (ids coll) ->
  controllers.bindLogin c = Some (email, password) ->
  succeeded c (controllers.Login env coll c) ->
  (forall d, In d coll ->
             bson.refreshToken d = bson.Value (utils.HashString p) ->
             bson.email d = email) ->
  NoDup (List.map bson.email coll) ->
  freshDigest env <> utils.HashString p ->
  controllers.bindRefresh c' = Some p ->
  storeErr env' 0 = false ->
  controllers.RefreshToken env' (controllers.Login env coll c).2 c'
  = (gin.JSON c' http.StatusUnauthorized
       (gin.failure "Invalid or expired refresh token"),
     (controllers.Login env coll c).2).
Proof.
  intros Hn Hbind Hok Hholder Hemails Hfresh Hbind' Hs0'.
  revert Hok. rewrite (Login_outcome env coll c _ _ Hbind).
  destruct (storeErr env 0); [now intros ?%JSON_not_succeeded | ].
  destruct (List.find _ coll) as [d | ] eqn:Hfind;
    [ | now intros ?%JSON_not_succeeded].
  destruct (negb _); [now intros ?%JSON_not_succeeded | ].
  destruct (storeErr env 1); [now intros ?%JSON_not_succeeded | ].
  intros _. cbn [snd].
  apply List.find_some in Hfind as [Hin Hm]. cbn [mongo.matches] in Hm.
  apply String.eqb_eq in Hm.
  assert (Hnobody : nobody (utils.HashString p)
            (mongo.updateFirst (mongo.ById (bson._id d)) (rotation env 0) coll)).
  { unfold nobody. rewrite List.Forall_forall. intros x Hx.
    destruct (In_updateFirst_ById _ _ _ _ Hn Hin Hx) as [-> | [Hx0 Hne]].
    - cbn. intros [= Heq]. now apply Hfresh.
    - intros Hhx. apply Hne.
      assert (Hxe : bson.email x = bson.email d)
        by (rewrite Hm; now apply Hholder).
      clear - Hemails Hx0 Hin Hxe.
      induction coll as [ | a coll IH]; [destruct Hin | ].
      cbn [List.map] in Hemails.
      apply list.NoDup_cons in Hemails as [Ha Hrest].
      destruct Hx0 as [-> | Hx0], Hin as [-> | Hin]; try reflexivity.
      + exfalso. apply Ha. rewrite Hxe. apply list_elem_of_In.
        now apply List.in_map.
      + exfalso. apply Ha. rewrite <- Hxe. apply list_elem_of_In.
        now apply List.in_map.
      + now apply IH. }
  pose proof (RefreshToken_outcome env'
                (mongo.updateFirst (mongo.ById (bson._id d)) (rotation env 0)
                   coll) c' p Hbind') as Hout.
  cbv zeta in Hout. now rewrite Hs0', (nobody_find _ _ _ Hnobody) in Hout.
Qed.

Lemma updateFirst_idempotent (id : primitive.ObjectID)
    (coll : mongo.Collection) :
  mongo.updateFirst (mongo.ById id) (mongo.SetRefresh None None)
    (mongo.updateFirst (mongo.ById id) (mongo.SetRefresh None None) coll)
  = mongo.updateFirst (mongo.ById id) (mongo.SetRefresh None None) coll.
Proof.
  induction coll as [ | d coll IH]; [reflexivity | ].
  cbn [mongo.updateFirst]. destruct (mongo.matches (mongo.ById id) d) eqn:Hm.
  - cbn [mongo.updateFirst mongo.matches mongo.apply bson._id].
    cbn [mongo.matches] in Hm. now rewrite Hm.
  - cbn [mongo.updateFirst]. now rewrite Hm, IH.
Qed.

(** What [Logout] does with the [ObjectID] the middleware left under
    "userId". *)
Lemma Logout_outcome (env : Env) (coll : mongo.Collection) (c : gin.Context)
    (userID : primitive.ObjectID) :
  gin.Get c "userId" = Some (gin.KObjectID userID) ->
  controllers.Logout env coll c
  = if storeErr env 0 then
      (gin.JSON c http.StatusInternalServerError
         (gin.failure "Failed to complete logout"), coll)
    else
      (gin.JSON c http.StatusOK
         (<["success" := gin.Bool true]>
            (<["message" := gin.Str "Logged out successfully"]> ∅)),
       mongo.updateFirst (mongo.ById userID) (mongo.SetRefresh None None) coll).
Proof.
  intros Hget. unfold controllers.Logout, mongo.UpdateOne. rewrite Hget.
  destruct (storeErr env 0); reflexivity.
Qed.

(** X10.  Logout behind the middleware revokes: for a request whose
    token is verified as the [_id] of an account, with the store
    answering, the request is answered 200, both refresh fields of
    that account are set to [null], and every other document is left
    as it was.  From then on a refresh request presenting a plaintext
    whose digest only that account held is answered 401 "Invalid or
    expired refresh token".  Logging out once more leaves the
    collection as it is. *)
Theorem Logout_revokes (env env' : Env) (coll : mongo.Collection)
    (c c' : gin.Context) (tokenString p : string) (d : bson.D) :
  NoDup (ids coll) ->
  gostrings.Split (gin.GetHeader c "Authorization") " "
    = ["Bearer"; tokenString] ->
  verifyAccessToken env tokenString = Some (bson._id d) ->
  In d coll ->
  storeErr env 0 = false ->
  storeErr env 1 = false ->
  (forall x, In x coll ->
             bson.refreshToken x = bson.Value (utils.HashString p) -> x = d) ->
  controllers.bindRefresh c' = Some p ->
  storeErr env' 0 = false ->
  let out := routes.handler routes.PostLogout env coll c in
  succeeded c out
  /\ out.2 = mongo.updateFirst (mongo.ById (bson._id d))
               (mongo.SetRefresh None None) coll
  /\ (forall x, In x out.2 ->
        (x = mongo.apply (mongo.SetRefresh None None) d
         /\ bson.refreshToken x = bson.Null
         /\ bson.refreshTokenExpire x = bson.Null)
        \/ (In x coll /\ x <> d))
  /\ controllers.RefreshToken env' out.2 c'
     = (gin.JSON c' http.StatusUnauthorized
          (gin.failure "Invalid or expired refresh token"), out.2)
  /\ (routes.handler routes.PostLogout env out.2 c).2 = out.2.
Proof.
  intros Hn Hsplit Hverify Hin Hs0 Hs1 Hholder Hbind' Hs0' out.
  assert (Hfound : forall (coll0 : mongo.Collection) (x : bson.D),
            In x coll0 -> bson._id x = bson._id d ->
            exists d0, List.find (mongo.matches (mongo.ById (bson._id d))) coll0
                       = Some d0).
  { intros coll0 x Hin0 Hid.
    destruct (List.find _ coll0) as [d0 | ] eqn:Hfind; [now exists d0 | ].
    apply (List.find_none _ _ Hfind) in Hin0. cbn in Hin0.
    now rewrite Hid, String.eqb_refl in Hin0. }
  assert (Hrun : forall (coll0 : mongo.Collection) (x : bson.D),
            In x coll0 -> bson._id x = bson._id d ->
            exists c0 body,
              routes.handler routes.PostLogout env coll0 c
              = (gin.JSON c0 http.StatusOK body,
                 mongo.updateFirst (mongo.ById (bson._id d))
                   (mongo.SetRefresh None None) coll0)
              /\ gin.Writer c0 = gin.Writer c).
  { intros coll0 x Hin0 Hid. cbn [routes.handler].
    rewrite (Protect_verified _ env coll0 c _ _ Hsplit Hverify).
    unfold mongo.FindOne. rewrite Hs0.
    destruct (Hfound coll0 x Hin0 Hid) as (d0 & ->).
    rewrite (Logout_outcome _ _ _ (bson._id d)).
    - cbn [advance storeErr Nat.add]. rewrite Hs1. do 2 eexists.
      split; reflexivity.
    - unfold gin.Get, gin.Set_. cbn [gin.Keys]. apply lookup_insert_eq. }
  destruct (Hrun coll d Hin eq_refl) as (c0 & body & Hout & Hwriter).
  assert (Hcoll : out.2 = mongo.updateFirst (mongo.ById (bson._id d))
                            (mongo.SetRefresh None None) coll)
    by (unfold out; now rewrite Hout).
  assert (Hmembers : forall x, In x out.2 ->
            (x = mongo.apply (mongo.SetRefresh None None) d
             /\ bson.refreshToken x = bson.Null
             /\ bson.refreshTokenExpire x = bson.Null)
            \/ (In x coll /\ x <> d)).
  { intros x Hx. rewrite Hcoll in Hx.
    destruct (In_updateFirst_ById _ _ _ _ Hn Hin Hx) as [-> | Hrest];
      [left; repeat split | now right]. }
  split; [ | split; [exact Hcoll | split; [exact Hmembers | split]]].
  - unfold out. rewrite Hout. exists body.
    cbn [fst gin.JSON gin.Writer]. now rewrite Hwriter.
  - assert (Hnobody : nobody (utils.HashString p) out.2).
    { unfold nobody. rewrite List.Forall_forall. intros x Hx.
      destruct (Hmembers x Hx) as [(_ & -> & _) | [Hx0 Hne]]; [discriminate | ].
      intros Hhx. apply Hne. now apply Hholder. }
    pose proof (RefreshToken_outcome env' out.2 c' p Hbind') as Hrefresh.
    cbv zeta in Hrefresh.
    now rewrite Hs0', (nobody_find _ _ _ Hnobody) in Hrefresh.
  - assert (Hin' : In (mongo.apply (mongo.SetRefresh None None) d) out.2).
    { rewrite Hcoll.
      pose proof (find_updateFirst_ById coll d (mongo.SetRefresh None None)
                    Hn Hin) as Hfind.
      now apply List.find_some in Hfind as [? _]. }
    rewrite Hcoll in Hin' |- *.
    destruct (Hrun _ _ Hin' eq_refl) as (c1 & body' & -> & _). cbn [snd].
    apply updateFirst_idempotent.
Qed.

End SessionFacts.

(** ** Behind the middleware *)
Section Authenticated.
Context {E : Externals} {L : CodecLaws E}.

Lemma find_ById_unique (coll : mongo.Collection) (d : bson.D) :
  NoDup (ids coll) -> In d coll ->
  List.find (mongo.matches (mongo.ById (bson._id d))) coll = Some d.
Proof.
  intros Hn Hin.
  destruct (List.find _ coll) as [d0 | ] eqn:Hfind.
  - apply find_ById_some in Hfind as [Hin0 Hid].
    f_equal. now apply (NoDup_ids_inj coll).
  - apply (List.find_none _ _ Hfind) in Hin. cbn in Hin.
    now rewrite String.eqb_refl in Hin.
Qed.

(** X11.  A registration answered 200 hands out an access token with
    which the new account is authenticated: under an unchanged
    environment, before the expiry second of the token and with the
    store answering, the middleware lets a request carrying
    "Bearer <that token>" through to the handler behind it, with the
    new account's document under "user" and its [_id] under
    "userId". *)
Theorem register_then_authenticate (env : Env) (coll : mongo.Collection)
    (c : gin.Context) (username email password : string) :
  controllers.bindRegister c = Some (username, email, password) ->
  succeeded c (controllers.Register env coll c) ->
  String.length (freshID env) = 12%nat ->
  expirySecond (advance 1 2 env) <> 0 ->
  exists accessToken refreshToken user d,
    (controllers.Register env coll c).1
    = gin.JSON c http.StatusOK (tokenBody accessToken refreshToken user)
    /\ In d (controllers.Register env coll c).2
    /\ bson.username d = username
    /\ bson.email d = email
    /\ forall (next : gin.HandlerFunc) (env' : Env) (c' : gin.Context),
         environ env' = environ env ->
         clock env' 0 < time.FromUnix (expirySecond (advance 1 2 env)) ->
         storeErr env' 0 = false ->
         gostrings.Split (gin.GetHeader c' "Authorization") " "
           = ["Bearer"; accessToken] ->
         middleware.Protect next env' (controllers.Register env coll c).2 c'
         = next (advance 1 1 env') (controllers.Register env coll c).2
             (gin.Set_ (gin.Set_ c' "user" (gin.KUser (bson.Decode d)))
                "userId" (gin.KObjectID (bson._id d))).
Proof.
  intros Hbind Hok Hlen Hexp.
  destruct (Register_succeeded_inv env coll c _ _ _ Hbind Hok)
    as (_ & _ & Hdup & hashed & _ & Hout).
  rewrite Hout. cbn [fst snd].
  set (d := mongo.apply (rotation env 1) (registered env username email hashed)).
  assert (Hid : bson._id d = freshID env)
    by (unfold d; now rewrite apply_id, registered_id).
  do 3 eexists. exists d.
  split; [reflexivity | ].
  split; [apply List.in_or_app; right; now left | ].
  split; [reflexivity | ]. split; [reflexivity | ].
  intros next env' c' Henv Hlt Hstore Hsplit.
  assert (Hverify :
    verifyAccessToken env'
      (signed SHA256
         (issuedClaims (advance 1 2 env) (primitive.Hex (freshID env)))
         (utils.GetEnv env "JWT_SECRET" "your-secret-key"))
    = Some (bson._id d)).
  { destruct (verifyAccessToken_issued (advance 1 2 env) env' (freshID env)
                Hlen Henv) as [_ Hv].
    cbv zeta in Hv. rewrite Validate_issuedClaims in Hv.
    apply Z.eqb_neq in Hexp. apply Z.ltb_lt in Hlt.
    rewrite Hexp, Hlt in Hv. rewrite Hid. exact Hv. }
  rewrite (Protect_verified next env' _ c' _ _ Hsplit Hverify).
  unfold mongo.FindOne. rewrite Hstore, Hid.
  now rewrite (find_app_new _ _ _ Hdup Hid).
Qed.

(** X12.  Behind the middleware, [GetMe] answers a request whose
    token is verified as the [_id] of an account, with the store
    answering, with status 200 and the [_id], username, e-mail
    address and creation date of exactly that account; it writes
    nothing to the collection. *)
Theorem GetMe_profile (env : Env) (coll : mongo.Collection)
    (c : gin.Context) (tokenString : string) (d : bson.D) :
  NoDup (ids coll) ->
  gostrings.Split (gin.GetHeader c "Authorization") " "
    = ["Bearer"; tokenString] ->
  verifyAccessToken env tokenString = Some (bson._id d) ->
  In d coll ->
  storeErr env 0 = false ->
  let out := middleware.Protect controllers.GetMe env coll c in
  out.2 = coll
  /\ gin.IsAborted out.1 = gin.IsAborted c
  /\ gin.Writer out.1
     = (gin.Writer c ++
        [{| gin.Status := http.StatusOK;
            gin.Body :=
              <["success" := gin.Bool true]>
                (<["data" :=
                     gin.UserResponse
                       {| models.resp_ID := bson._id d;
                          models.resp_Username := bson.username d;
                          models.resp_Email := bson.email d;
                          models.resp_CreatedAt :=
                            primitive.Time (bson.createdAt d) |}]> ∅) |}])%list.
Proof.
  intros Hn Hsplit Hverify Hin Hstore out. unfold out.
  rewrite (Protect_verified _ env coll c _ _ Hsplit Hverify).
  unfold mongo.FindOne. rewrite Hstore, (find_ById_unique coll d Hn Hin).
  unfold controllers.GetMe, gin.Get, gin.Set_. cbn [gin.Keys].
  rewrite lookup_insert_ne by discriminate. rewrite lookup_insert_eq.
  repeat split.
Qed.

End Authenticated.

(** * Properties of the task handlers *)

(** ** Paging *)
Section Paging.
Context {T : TaskExternals}.

Lemma scan_nonneg (s : string) (n v : Z) :
  0 <= n -> strconv.scan s n = strconv.Value v -> 0 <= v.
Proof.
  revert n. induction s as [ | ch s IH]; intros n Hn; cbn [strconv.scan].
  - now intros [= <-].
  - cbv zeta.
    destruct ((Z.of_N (N_of_ascii ch) - 48 <? 0)
              || (9 <? Z.of_N (N_of_ascii ch) - 48)) eqn:Hd; [discriminate | ].
    destruct (strconv.maxUint64 <? _); [discriminate | ].
    apply orb_false_elim in Hd as [Hd _]. apply Z.ltb_ge in Hd.
    apply IH. lia.
Qed.

Lemma Atoi_range (s : string) :
  strconv.minInt64 <= strconv.Atoi s <= strconv.maxInt64.
Proof.
  unfold strconv.Atoi, strconv.minInt64, strconv.maxInt64.
  destruct s as [ | ch rest]; [lia | ]. cbv zeta.
  destruct ((if (ch =? "-")%char || (ch =? "+")%char then rest
             else String ch rest)) as [ | c0 r0] eqn:Hdigits; [lia | ].
  destruct (strconv.scan (String c0 r0) 0) as [un | | ] eqn:Hscan.
  - pose proof (scan_nonneg _ _ _ (Z.le_refl 0) Hscan) as Hun.
    destruct (ch =? "-")%char; cbn [negb andb].
    + destruct (9223372036854775807 + 1 <? un) eqn:Hb; [lia | ].
      apply Z.ltb_ge in Hb. lia.
    + destruct (9223372036854775807 <? un) eqn:Hb; [lia | ].
      apply Z.ltb_ge in Hb. lia.
  - lia.
  - destruct (ch =? "-")%char; lia.
Qed.

Lemma wrap_small (z : Z) :
  strconv.minInt64 <= z <= strconv.maxInt64 -> goint.wrap z = z.
Proof.
  unfold strconv.minInt64, strconv.maxInt64, goint.wrap. intros Hz.
  rewrite Z.mod_small by lia. lia.
Qed.

Lemma pageOf_bounds (query : string -> string) :
  1 <= TaskController.pageOf query <= strconv.maxInt64.
Proof.
  unfold TaskController.pageOf. cbv zeta.
  pose proof (Atoi_range (utils.GetQueryDefault query "page" "1")) as Hr.
  destruct (_ <? 1) eqn:Hb; [unfold strconv.maxInt64; lia | ].
  apply Z.ltb_ge in Hb. lia.
Qed.

Lemma limitOf_bounds (query : string -> string) :
  1 <= TaskController.limitOf query <= 100.
Proof.
  unfold TaskController.limitOf. cbv zeta.
  destruct ((_ <? 1) || (100 <? _)) eqn:Hb; [lia | ].
  apply orb_false_elim in Hb as [H1 H2].
  apply Z.ltb_ge in H1, H2. lia.
Qed.

Lemma skipOf_small (query : string -> string) :
  TaskController.pageOf query <= 92233720368547758 ->
  TaskController.skipOf query
  = (TaskController.pageOf query - 1) * TaskController.limitOf query
  /\ 0 <= TaskController.skipOf query.
Proof.
  pose proof (pageOf_bounds query) as Hpage.
  pose proof (limitOf_bounds query) as Hlimit.
  intros Hsmall. unfold TaskController.skipOf, goint.mul, goint.sub.
  rewrite (wrap_small (TaskController.pageOf query - 1))
    by (unfold strconv.minInt64, strconv.maxInt64 in *; lia).
  rewrite wrap_small
    by (unfold strconv.minInt64, strconv.maxInt64 in *; nia).
  split; [reflexivity | nia].
Qed.

Lemma totalPagesOf_div (total limit : Z) :
  0 <= total <= strconv.maxInt64 - 100 ->
  1 <= limit <= 100 ->
  TaskController.totalPagesOf total limit = (total + limit - 1) / limit.
Proof.
  intros Htotal Hlimit.
  unfold TaskController.totalPagesOf, goint.div, goint.sub, goint.add.
  rewrite (wrap_small (total + limit))
    by (unfold strconv.minInt64, strconv.maxInt64 in *; lia).
  rewrite (wrap_small (total + limit - 1))
    by (unfold strconv.minInt64, strconv.maxInt64 in *; lia).
  rewrite Z.quot_div_nonneg by lia.
  apply wrap_small.
  pose proof (Z.div_pos (total + limit - 1) limit ltac:(lia) ltac:(lia)).
  pose proof (Z.div_le_upper_bound (total + limit - 1) limit
                (total + limit - 1) ltac:(lia) ltac:(nia)).
  unfold strconv.minInt64, strconv.maxInt64 in *. lia.
Qed.


(** X14.  The number of pages [GetTasks] reports is the number of
    documents divided by the page size, rounded up: no page for no
    document, and otherwise the least number of pages that hold them
    all. *)
Theorem totalPages_rounds_up (total limit : Z) :
  0 <= total <= strconv.maxInt64 - 100 ->
  1 <= limit <= 100 ->
  let pages := TaskController.totalPagesOf total limit in
  (total = 0 -> pages = 0)
  /\ limit * (pages - 1) < total <= limit * pages.
Proof.
  intros Htotal Hlimit pages.
  assert (Hpages : pages = (total + limit - 1) / limit)
    by now apply totalPagesOf_div.
  pose proof (Z.div_mod (total + limit - 1) limit ltac:(lia)) as Hdm.
  pose proof (Z.mod_pos_bound (total + limit - 1) limit ltac:(lia)) as Hmod.
  rewrite <- Hpages in Hdm. split.
  - intros ->. rewrite Hpages. apply Z.div_small. lia.
  - nia.
Qed.

End Paging.

(** ** Whose tasks a request can see and change *)
Section TaskIsolation.
Context {T : TaskExternals}.

Lemma task_find_some (id : primitive.ObjectID) (coll : task.Collection)
    (d : task.D) :
  List.find (task.byID id) coll = Some d -> In d coll /\ task._id d = id.
Proof.
  intros [Hin Hm]%List.find_some. split; [exact Hin | ].
  now apply String.eqb_eq in Hm.
Qed.

(** The caller of a request that gets past the ownership check of a
    writing handler is the owner of the task. *)
Lemma owns_inv (c : gin.Context) (userID : gin.KeyValue) (d : task.D) :
  gin.Get c "userId" = Some userID ->
  TaskController.owns userID (task.user d) = true ->
  gin.Get c "userId" = Some (gin.KObjectID (task.user d)).
Proof.
  intros -> Hown. destruct userID as [u | uid]; [discriminate | ].
  apply String.eqb_eq in Hown. now rewrite Hown.
Qed.

Lemma In_firstn {A : Type} (n : nat) (l : list A) (x : A) :
  In x (List.firstn n l) -> In x l.
Proof.
  revert l. induction n as [ | n IH]; intros [ | a l]; cbn; try tauto.
  intros [-> | Hin]; [now left | right; now apply IH].
Qed.

Lemma In_skipn {A : Type} (n : nat) (l : list A) (x : A) :
  In x (List.skipn n l) -> In x l.
Proof.
  revert l. induction n as [ | n IH]; intros [ | a l]; cbn; try tauto.
  intros Hin. right. now apply IH.
Qed.

(** The tasks of a reply of [GetTasks] are decoded documents of the
    collection that belong to the caller. *)
Lemma GetTasks_data_inv {S : SortLaws T} (query : string -> string)
    (env : Env) (coll : task.Collection) (c : gin.Context)
    (tasks : list task.Task) :
  task.Body (TaskController.GetTasks query env coll c) !! "data"
    = Some (task.Many tasks) ->
  exists userID,
    gin.Get c "userId" = Some userID
    /\ tasks
       = List.map task.Decode
           (List.firstn (Z.to_nat (TaskController.limitOf query))
              (List.skipn (Z.to_nat (TaskController.skipOf query))
                 (store_sort (TaskController.sortOf query).1
                    (TaskController.sortOf query).2
                    (List.filter (TaskController.selected query userID)
                       coll))))
    /\ task.Body (TaskController.GetTasks query env coll c) !! "count"
       = Some (task.Int (Z.of_nat (length tasks)))
    /\ Forall (fun t =>
                 gin.Get c "userId" = Some (gin.KObjectID (task.User t))
                 /\ exists d, In d coll /\ t = task.Decode d) tasks.
Proof.
  unfold TaskController.GetTasks.
  destruct (gin.Get c "userId") as [userID | ] eqn:Hget; [ | discriminate].
  cbv zeta.
  destruct (storeErr env 0); [discriminate | ].
  destruct (storeErr env 1 || _); [discriminate | ].
  destruct (storeErr env 2); [discriminate | ].
  cbn [task.Body].
  rewrite !(lookup_insert_ne _ "success") by discriminate.
  rewrite !(lookup_insert_ne _ "pagination") by discriminate.
  rewrite lookup_insert_eq.
  rewrite (lookup_insert_ne _ "count" "data") by discriminate.
  rewrite lookup_insert_eq.
  intros [= <-]. exists userID.
  split; [reflexivity | ]. split; [reflexivity | ]. split; [reflexivity | ].
  rewrite List.Forall_forall. intros t Ht.
  apply List.in_map_iff in Ht as (d & <- & Hd).
  apply In_firstn, In_skipn in Hd.
  apply (Permutation_in _ (store_sort_Permutation _ _ _)) in Hd.
  apply List.filter_In in Hd as [Hin Hsel].
  unfold TaskController.selected in Hsel.
  apply andb_prop in Hsel as [[Hown _]%andb_prop _].
  split; [ | now exists d].
  unfold TaskController.owns in Hown. destruct userID as [u | uid];
    [discriminate | ].
  apply String.eqb_eq in Hown. cbn [task.Decode task.User].
  now rewrite Hown.
Qed.

(** X15.  [GetTasks] only ever returns tasks of the caller: when the
    store hands out the selected documents in some order, every task
    in the data of a reply belongs to the [ObjectID] found under
    "userId", is the decoding of a document of the collection and
    passes the [completed] and [priority] filters of the request;
    the reply carries at most [limit] tasks, at most 100, with
    [count] their number. *)
Theorem GetTasks_own_tasks_only {S : SortLaws T} (query : string -> string)
    (env : Env) (coll : task.Collection) (c : gin.Context)
    (tasks : list task.Task) :
  task.Body (TaskController.GetTasks query env coll c) !! "data"
    = Some (task.Many tasks) ->
  (length tasks <= Z.to_nat (TaskController.limitOf query) <= 100)%nat
  /\ task.Body (TaskController.GetTasks query env coll c) !! "count"
     = Some (task.Int (Z.of_nat (length tasks)))
  /\ Forall (fun t =>
               gin.Get c "userId" = Some (gin.KObjectID (task.User t))
               /\ (query "completed" <> "" ->
                   task.Completed t = String.eqb (query "completed") "true")
               /\ (query "priority" <> "" ->
                   task.Priority t = query "priority")
               /\ exists d, In d coll /\ t = task.Decode d) tasks.
Proof.
  intros Hdata.
  destruct (GetTasks_data_inv query env coll c tasks Hdata)
    as (userID & Hget & Htasks & Hcount & _).
  pose proof (limitOf_bounds query) as Hlimit.
  split; [ | split; [exact Hcount | ]].
  - rewrite Htasks, List.length_map, List.length_firstn. lia.
  - rewrite Htasks, List.Forall_forall. intros t Ht.
    apply List.in_map_iff in Ht as (d & <- & Hd).
    apply In_firstn, In_skipn in Hd.
    apply (Permutation_in _ (store_sort_Permutation _ _ _)) in Hd.
    apply List.filter_In in Hd as [Hin Hsel].
    unfold TaskController.selected in Hsel.
    apply andb_prop in Hsel as [[Hown Hcompleted]%andb_prop Hpriority].
    split; [now apply (owns_inv c userID) | ].
    cbn [task.Decode task.Completed task.Priority].
    split; [ | split; [ | now exists d]].
    + intros Hq. apply String.eqb_neq in Hq. rewrite Hq in Hcompleted.
      now apply Bool.eqb_prop in Hcompleted.
    + intros Hq. apply String.eqb_neq in Hq. rewrite Hq in Hpriority.
      now apply String.eqb_eq in Hpriority.
Qed.

(** What a read that was answered 200 went through. *)
Lemma GetTask_ok_inv (id : string) (env : Env) (coll : task.Collection)
    (c : gin.Context) :
  task.Status (TaskController.GetTask id env coll c) = http.StatusOK ->
  exists d,
    In d coll
    /\ primitive.ObjectIDFromHex id = Some (task._id d)
    /\ gin.Get c "userId" = Some (gin.KObjectID (task.user d))
    /\ TaskController.GetTask id env coll c
       = task.success http.StatusOK (task.One (task.Decode d)).
Proof.
  unfold TaskController.GetTask, task.FindOne.
  destruct (gin.Get c "userId") as [userID | ] eqn:Hget; [ | discriminate].
  destruct (primitive.ObjectIDFromHex id) as [objectID | ]; [ | discriminate].
  destruct (storeErr env 0); [discriminate | ].
  destruct (List.find _ coll) as [d | ] eqn:Hfind; [ | discriminate].
  apply task_find_some in Hfind as [Hin Hid].
  cbn [task.Decode task.User].
  destruct (TaskController.owns userID (task.user d)) eqn:Hown;
    cbn [negb]; [ | discriminate].
  intros _. exists d. rewrite Hid.
  split; [exact Hin | ]. split; [reflexivity | ].
  split; [ | reflexivity]. rewrite <- Hget. now apply (owns_inv c userID).
Qed.

(** X16.  [GetTask] shows a task to its owner only: a reply of
    status 200 carries the decoding of the document with the
    requested [_id], and that document's owner is the [ObjectID]
    found under "userId"; a document with another owner is answered
    403 "Not authorized to access this task". *)
Theorem GetTask_owner_only (id : string) (env : Env)
    (coll : task.Collection) (c : gin.Context) :
  (task.Status (TaskController.GetTask id env coll c) = http.StatusOK ->
   exists d,
     In d coll
     /\ primitive.ObjectIDFromHex id = Some (task._id d)
     /\ gin.Get c "userId" = Some (gin.KObjectID (task.user d))
     /\ TaskController.GetTask id env coll c
        = task.success http.StatusOK (task.One (task.Decode d)))
  /\ (forall userID objectID d,
        gin.Get c "userId" = Some userID ->
        primitive.ObjectIDFromHex id = Some objectID ->
        storeErr env 0 = false ->
        List.find (task.byID objectID) coll = Some d ->
        userID <> gin.KObjectID (task.user d) ->
        TaskController.GetTask id env coll c
        = task.failure TaskController.StatusForbidden
            "Not authorized to access this task").
Proof.
  split; [apply GetTask_ok_inv | ].
  unfold TaskController.GetTask, task.FindOne.
  intros userID objectID d -> -> -> -> Hne.
  cbn [task.Decode task.User].
  destruct userID as [u | uid]; [reflexivity | ].
  cbn [TaskController.owns].
  destruct (String.eqb_spec (task.user d) uid) as [Heq | ];
    [now rewrite Heq in Hne | reflexivity].
Qed.

Lemma In_updateFirst_other (id : primitive.ObjectID) (f : task.D -> task.D)
    (coll : task.Collection) (d x : task.D) :
  List.find (task.byID id) coll = Some d ->
  In x coll -> x <> d -> In x (task.updateFirst id f coll).
Proof.
  induction coll as [ | a coll IH]; [intros _ [] | ].
  cbn [List.find task.updateFirst]. destruct (task.byID id a).
  - intros [= <-] [-> | Hin] Hne; [contradiction | now right].
  - intros Hfind [-> | Hin] Hne; [now left | right; now apply IH].
Qed.

Lemma In_deleteFirst_other (id : primitive.ObjectID)
    (coll : task.Collection) (d x : task.D) :
  List.find (task.byID id) coll = Some d ->
  In x coll -> x <> d -> In x (task.deleteFirst id coll).
Proof.
  induction coll as [ | a coll IH]; [intros _ [] | ].
  cbn [List.find task.deleteFirst]. destruct (task.byID id a).
  - intros [= <-] [-> | Hin] Hne; [contradiction | exact Hin].
  - intros Hfind [-> | Hin] Hne; [now left | right; now apply IH].
Qed.

Lemma CreateTask_others (env : Env) (coll : task.Collection)
    (c : gin.Context) (x : task.D) :
  In x coll -> In x (TaskController.CreateTask env coll c).2.
Proof.
  intros Hin. unfold TaskController.CreateTask, task.InsertOne.
  destruct (gin.Get c "userId") as [userID | ]; [ | exact Hin].
  destruct (json_DecodeInput _) as [input | ]; [ | exact Hin].
  destruct (String.eqb _ ""); [exact Hin | ].
  destruct (TaskController.badPriority _); [exact Hin | ].
  destruct userID as [u | uid]; [exact Hin | ].
  destruct (storeErr env 0); [exact Hin | ].
  destruct (existsb _ coll); [exact Hin | ].
  cbn [snd]. apply List.in_or_app. now left.
Qed.

Lemma UpdateTask_others (id : string) (env : Env) (coll : task.Collection)
    (c : gin.Context) (x : task.D) :
  In x coll ->
  gin.Get c "userId" <> Some (gin.KObjectID (task.user x)) ->
  In x (TaskController.UpdateTask id env coll c).2.
Proof.
  intros Hin Hother. unfold TaskController.UpdateTask, task.FindOne.
  destruct (gin.Get c "userId") as [userID | ] eqn:Hget; [ | exact Hin].
  destruct (primitive.ObjectIDFromHex id) as [objectID | ]; [ | exact Hin].
  destruct (json_DecodeInput _) as [input | ]; [ | exact Hin].
  destruct (TaskController.badPriority _); [exact Hin | ].
  destruct (storeErr env 0); [exact Hin | ].
  destruct (List.find _ coll) as [d | ] eqn:Hfind; [ | exact Hin].
  cbn [task.Decode task.User].
  destruct (TaskController.owns userID (task.user d)) eqn:Hown;
    cbn [negb]; [ | exact Hin].
  destruct (storeErr env 1); [exact Hin | ].
  assert (Hin' : In x (task.updateFirst objectID
                         (TaskController.updateSet input (clock env 0)) coll)).
  { eapply In_updateFirst_other; [exact Hfind | exact Hin | ].
    intros ->. apply Hother. rewrite <- Hget. now apply (owns_inv c userID). }
  destruct (storeErr env 2); [exact Hin' | ].
  destruct (List.find _ (task.updateFirst _ _ _)); exact Hin'.
Qed.

Lemma DeleteTask_others (id : string) (env : Env) (coll : task.Collection)
    (c : gin.Context) (x : task.D) :
  In x coll ->
  gin.Get c "userId" <> Some (gin.KObjectID (task.user x)) ->
  In x (TaskController.DeleteTask id env coll c).2.
Proof.
  intros Hin Hother. unfold TaskController.DeleteTask, task.FindOne.
  destruct (gin.Get c "userId") as [userID | ] eqn:Hget; [ | exact Hin].
  destruct (primitive.ObjectIDFromHex id) as [objectID | ]; [ | exact Hin].
  destruct (storeErr env 0); [exact Hin | ].
  destruct (List.find _ coll) as [d | ] eqn:Hfind; [ | exact Hin].
  cbn [task.Decode task.User].
  destruct (TaskController.owns userID (task.user d)) eqn:Hown;
    cbn [negb]; [ | exact Hin].
  destruct (storeErr env 1); [exact Hin | ].
  cbn [snd]. eapply In_deleteFirst_other; [exact Hfind | exact Hin | ].
  intros ->. apply Hother. rewrite <- Hget. now apply (owns_inv c userID).
Qed.

(** X17.  No request changes or removes a task of somebody else:
    every document whose owner is not the [ObjectID] found under
    "userId" is in the collection after [CreateTask], [UpdateTask]
    and [DeleteTask] exactly as it was before. *)
Theorem tasks_of_others_untouched (id : string) (env : Env)
    (coll : task.Collection) (c : gin.Context) (x : task.D) :
  In x coll ->
  gin.Get c "userId" <> Some (gin.KObjectID (task.user x)) ->
  In x (TaskController.CreateTask env coll c).2
  /\ In x (TaskController.UpdateTask id env coll c).2
  /\ In x (TaskController.DeleteTask id env coll c).2.
Proof.
  intros Hin Hother. split; [ | split].
  - now apply CreateTask_others.
  - now apply UpdateTask_others.
  - now apply DeleteTask_others.
Qed.

End TaskIsolation.

(** ** What the writing task handlers store *)
Section TaskWrites.
Context {T : TaskExternals}.

Lemma task_find_updateFirst (id : primitive.ObjectID) (f : task.D -> task.D)
    (coll : task.Collection) (d : task.D) :
  (forall x, task._id (f x) = task._id x) ->
  List.find (task.byID id) coll = Some d ->
  List.find (task.byID id) (task.updateFirst id f coll) = Some (f d).
Proof.
  intros Hf. induction coll as [ | a coll IH]; [discriminate | ].
  cbn [List.find task.updateFirst]. destruct (task.byID id a) eqn:Ha.
  - intros [= <-]. cbn [List.find]. unfold task.byID in *.
    now rewrite Hf, Ha.
  - intros Hfind. cbn [List.find]. rewrite Ha. now apply IH.
Qed.

Lemma task_find_app_new (coll : task.Collection) (d : task.D) :
  existsb (task.byID (task._id d)) coll = false ->
  List.find (task.byID (task._id d)) (coll ++ [d])%list = Some d.
Proof.
  induction coll as [ | a coll IH]; intros Hnew.
  - cbn [app List.find]. unfold task.byID. now rewrite String.eqb_refl.
  - cbn [existsb] in Hnew. apply orb_false_elim in Hnew as [Ha Hrest].
    cbn [app List.find]. rewrite Ha. now apply IH.
Qed.

(** What an update that was answered 200 went through. *)
Lemma UpdateTask_ok_inv (id : string) (env : Env) (coll : task.Collection)
    (c : gin.Context) :
  task.Status (TaskController.UpdateTask id env coll c).1 = http.StatusOK ->
  exists objectID input d,
    primitive.ObjectIDFromHex id = Some objectID
    /\ json_DecodeInput (gin.Request_Body c) = Some input
    /\ TaskController.badPriority (task.in_Priority input) = false
    /\ List.find (task.byID objectID) coll = Some d
    /\ gin.Get c "userId" = Some (gin.KObjectID (task.user d))
    /\ TaskController.UpdateTask id env coll c
       = (task.success http.StatusOK
            (task.One
               (task.Decode
                  (TaskController.updateSet input (clock env 0) d))),
          task.updateFirst objectID
            (TaskController.updateSet input (clock env 0)) coll).
Proof.
  unfold TaskController.UpdateTask, task.FindOne.
  destruct (gin.Get c "userId") as [userID | ] eqn:Hget; [ | discriminate].
  destruct (primitive.ObjectIDFromHex id) as [objectID | ]; [ | discriminate].
  destruct (json_DecodeInput _) as [input | ]; [ | discriminate].
  destruct (TaskController.badPriority _) eqn:Hbad; [discriminate | ].
  destruct (storeErr env 0); [discriminate | ].
  destruct (List.find _ coll) as [d | ] eqn:Hfind; [ | discriminate].
  cbn [task.Decode task.User].
  destruct (TaskController.owns userID (task.user d)) eqn:Hown;
    cbn [negb]; [ | discriminate].
  destruct (storeErr env 1); [discriminate | ].
  destruct (storeErr env 2); [discriminate | ].
  rewrite (task_find_updateFirst objectID
             (TaskController.updateSet input (clock env 0)) coll d
             (fun _ => eq_refl) Hfind).
  intros _. exists objectID, input, d.
  repeat split; try assumption; try reflexivity.
  rewrite <- Hget. now apply (owns_inv c userID).
Qed.

(** X18.  An update answered 200 merges the request into the stored
    task and shows the result: the document with the requested
    [_id] keeps its [_id], owner and creation date, takes
    [completed] from the request in every case, and keeps its title,
    description, priority and due date wherever the request has the
    empty string or no date; the reply is the decoding of the
    document as it is stored from then on, and the caller is its
    owner. *)
Theorem UpdateTask_merges (id : string) (env : Env) (coll : task.Collection)
    (c : gin.Context) :
  task.Status (TaskController.UpdateTask id env coll c).1 = http.StatusOK ->
  exists objectID input d d',
    primitive.ObjectIDFromHex id = Some objectID
    /\ json_DecodeInput (gin.Request_Body c) = Some input
    /\ List.find (task.byID objectID) coll = Some d
    /\ gin.Get c "userId" = Some (gin.KObjectID (task.user d))
    /\ (TaskController.UpdateTask id env coll c).1
       = task.success http.StatusOK (task.One (task.Decode d'))
    /\ List.find (task.byID objectID)
         (TaskController.UpdateTask id env coll c).2 = Some d'
    /\ length (TaskController.UpdateTask id env coll c).2 = length coll
    /\ task._id d' = task._id d
    /\ task.user d' = task.user d
    /\ task.createdAt d' = task.createdAt d
    /\ task.updatedAt d' = primitive.NewDateTimeFromTime (clock env 0)
    /\ task.completed d' = task.in_Completed input
    /\ task.title d'
       = (if String.eqb (task.in_Title input) "" then task.title d
          else task.in_Title input)
    /\ task.description d'
       = (if String.eqb (task.in_Description input) "" then task.description d
          else bson.Value (task.in_Description input))
    /\ task.priority d'
       = (if String.eqb (task.in_Priority input) "" then task.priority d
          else task.in_Priority input)
    /\ (task.in_DueDate input = None -> task.dueDate d' = task.dueDate d).
Proof.
  intros Hok.
  destruct (UpdateTask_ok_inv id env coll c Hok)
    as (objectID & input & d & Hhex & Hin & _ & Hfind & Hget & Hout).
  exists objectID, input, d, (TaskController.updateSet input (clock env 0) d).
  rewrite Hout. cbn [fst snd].
  split; [exact Hhex | ]. split; [exact Hin | ]. split; [exact Hfind | ].
  split; [exact Hget | ]. split; [reflexivity | ].
  split; [now apply task_find_updateFirst | ].
  split.
  { clear. induction coll as [ | a coll IH]; [reflexivity | ].
    cbn [task.updateFirst]. destruct (task.byID objectID a); cbn [length];
      [reflexivity | now rewrite IH]. }
  unfold TaskController.updateSet.
  cbn [task._id task.user task.createdAt task.updatedAt task.completed
       task.title task.description task.priority task.dueDate].
  repeat split.
  - now destruct (String.eqb (task.in_Title input) "").
  - now destruct (String.eqb (task.in_Description input) "").
  - now destruct (String.eqb (task.in_Priority input) "").
  - now intros ->.
Qed.

(** What a creation that was answered 201 went through. *)
Lemma CreateTask_ok_inv (env : Env) (coll : task.Collection)
    (c : gin.Context) :
  task.Status (TaskController.CreateTask env coll c).1
    = TaskController.StatusCreated ->
  exists uid input d,
    gin.Get c "userId" = Some (gin.KObjectID uid)
    /\ json_DecodeInput (gin.Request_Body c) = Some input
    /\ task.in_Title input <> ""
    /\ TaskController.badPriority (task.in_Priority input) = false
    /\ existsb (task.byID (freshID env)) coll = false
    /\ d = {| task._id := freshID env;
              task.title := task.in_Title input;
              task.description :=
                if String.eqb (task.in_Description input) ""
                then bson.Absent
                else bson.Value (task.in_Description input);
              task.completed := task.in_Completed input;
              task.dueDate :=
                match task.in_DueDate input with
                | None => bson.Absent
                | Some t => bson.Value (primitive.NewDateTimeFromTime t)
                end;
              task.priority :=
                if String.eqb (task.in_Priority input) "" then "medium"
                else task.in_Priority input;
              task.user := uid;
              task.createdAt := primitive.NewDateTimeFromTime (clock env 0);
              task.updatedAt := primitive.NewDateTimeFromTime (clock env 0) |}
    /\ TaskController.CreateTask env coll c
       = (task.success TaskController.StatusCreated
            (task.One
               {| task.ID := freshID env;
                  task.Title := task.in_Title input;
                  task.Description := task.in_Description input;
                  task.Completed := task.in_Completed input;
                  task.DueDate := task.in_DueDate input;
                  task.Priority :=
                    if String.eqb (task.in_Priority input) "" then "medium"
                    else task.in_Priority input;
                  task.User := uid;
                  task.CreatedAt := clock env 0;
                  task.UpdatedAt := clock env 0 |}),
          (coll ++ [d])%list).
Proof.
  unfold TaskController.CreateTask, task.InsertOne.
  destruct (gin.Get c "userId") as [userID | ]; [ | discriminate].
  destruct (json_DecodeInput _) as [input | ]; [ | discriminate].
  destruct (String.eqb_spec (task.in_Title input) "") as [ | Htitle];
    [discriminate | ].
  destruct (TaskController.badPriority _) eqn:Hbad; [discriminate | ].
  destruct userID as [u | uid]; [discriminate | ].
  destruct (storeErr env 0); [discriminate | ].
  unfold task.Marshal, task.NewTask.
  cbn [task.ID task.Title task.Description task.Completed task.DueDate
       task.Priority task.User task.CreatedAt task.UpdatedAt task._id].
  change (String.eqb primitive.NilObjectID primitive.NilObjectID) with true.
  cbn iota.
  destruct (existsb _ coll) eqn:Hnew; [discriminate | ].
  intros _. exists uid, input. eexists.
  split; [reflexivity | ]. split; [reflexivity | ].
  split; [exact Htitle | ]. split; [exact Hbad | ].
  split; [reflexivity | ]. split; [reflexivity | ].
  destruct (String.eqb (task.in_Priority input) ""); reflexivity.
Qed.

(** X19.  A task that was created can be read back by its creator:
    after a creation answered 201, with the [ObjectID] the driver
    minted being twelve bytes long and the store answering,
    [GetTask] on the hexadecimal form of the [id] of the reply, for
    a context with the same "userId", is answered 200 with a task
    that has the same [id], title, description, [completed],
    priority and owner; its dates are those of the reply cut to the
    millisecond.  The priority is "medium" when the request had
    none. *)
Theorem CreateTask_then_GetTask (env env' : Env) (coll : task.Collection)
    (c c' : gin.Context) :
  task.Status (TaskController.CreateTask env coll c).1
    = TaskController.StatusCreated ->
  String.length (freshID env) = 12%nat ->
  gin.Get c' "userId" = gin.Get c "userId" ->
  storeErr env' 0 = false ->
  exists t t',
    (TaskController.CreateTask env coll c).1
    = task.success TaskController.StatusCreated (task.One t)
    /\ TaskController.GetTask (primitive.Hex (task.ID t)) env'
         (TaskController.CreateTask env coll c).2 c'
       = task.success http.StatusOK (task.One t')
    /\ task.ID t' = task.ID t
    /\ task.Title t' = task.Title t
    /\ task.Description t' = task.Description t
    /\ task.Completed t' = task.Completed t
    /\ task.Priority t' = task.Priority t
    /\ task.User t' = task.User t
    /\ gin.Get c "userId" = Some (gin.KObjectID (task.User t))
    /\ task.CreatedAt t'
       = primitive.Time (primitive.NewDateTimeFromTime (task.CreatedAt t))
    /\ task.UpdatedAt t'
       = primitive.Time (primitive.NewDateTimeFromTime (task.UpdatedAt t))
    /\ task.DueDate t'
       = option_map
           (fun d => primitive.Time (primitive.NewDateTimeFromTime d))
           (task.DueDate t)
    /\ task.Title t <> ""
    /\ (task.Priority t = "low" \/ task.Priority t = "medium"
        \/ task.Priority t = "high").
Proof.
  intros Hok Hlen Hsame Hstore.
  destruct (CreateTask_ok_inv env coll c Hok)
    as (uid & input & d & Hget & Hin & Htitle & Hbad & Hnew & Hd & Hout).
  rewrite Hout. cbn [fst snd]. do 2 eexists.
  split; [reflexivity | ]. cbn [task.ID].
  unfold TaskController.GetTask, task.FindOne.
  rewrite Hsame, Hget, (ObjectIDFromHex_Hex _ Hlen), Hstore.
  assert (Hid : task._id d = freshID env) by now rewrite Hd.
  rewrite <- Hid, (task_find_app_new coll d) by now rewrite Hid.
  assert (Huser : task.user d = uid) by now rewrite Hd.
  cbn [task.Decode task.User TaskController.owns].
  rewrite Huser, String.eqb_refl. cbn [negb].
  split; [reflexivity | ]. rewrite Hd.
  cbn [task._id task.title task.description task.completed task.priority
       task.user task.createdAt task.updatedAt task.dueDate task.ID
       task.Title task.Description task.Completed task.Priority task.User
       task.CreatedAt task.UpdatedAt task.DueDate].
  repeat split.
  - destruct (String.eqb_spec (task.in_Description input) "") as [-> | ];
      reflexivity.
  - now destruct (task.in_DueDate input).
  - exact Htitle.
  - unfold TaskController.badPriority in Hbad.
    destruct (String.eqb_spec (task.in_Priority input) "");
      [right; left; reflexivity | ].
    destruct (String.eqb_spec (task.in_Priority input) "low");
      [left; assumption | ].
    destruct (String.eqb_spec (task.in_Priority input) "medium");
      [right; left; assumption | ].
    destruct (String.eqb_spec (task.in_Priority input) "high");
      [right; right; assumption | discriminate].
Qed.

End TaskWrites.

(** ** What holds of every tasks collection *)
Section TaskInvariants.
Context {T : TaskExternals}.

(** A document as the handlers write it: a title, and one of the
    three priorities. *)
Definition wellFormed (d : task.D) : Prop :=
  task.title d <> ""
  /\ (task.priority d = "low" \/ task.priority d = "medium"
      \/ task.priority d = "high").

Definition taskIDs (coll : task.Collection) : list primitive.ObjectID :=
  List.map task._id coll.

Lemma badPriority_false (p : string) :
  TaskController.badPriority p = false ->
  p = "" \/ p = "low" \/ p = "medium" \/ p = "high".
Proof.
  unfold TaskController.badPriority.
  destruct (String.eqb_spec p ""); [now left | ].
  destruct (String.eqb_spec p "low"); [now right; left | ].
  destruct (String.eqb_spec p "medium"); [now right; right; left | ].
  destruct (String.eqb_spec p "high"); [now right; right; right | ].
  discriminate.
Qed.

Lemma updateSet_wellFormed (input : task.Input) (now : time.Time)
    (d : task.D) :
  TaskController.badPriority (task.in_Priority input) = false ->
  wellFormed d -> wellFormed (TaskController.updateSet input now d).
Proof.
  intros Hbad [Htitle Hprio]. unfold wellFormed, TaskController.updateSet.
  cbn [task.title task.priority]. split.
  - destruct (String.eqb_spec (task.in_Title input) ""); assumption.
  - destruct (String.eqb_spec (task.in_Priority input) "") as [ | Hne];
      cbn [negb]; [exact Hprio | ].
    destruct (badPriority_false _ Hbad) as [? | ?]; [contradiction | assumption].
Qed.

Lemma task_updateFirst_ids (id : primitive.ObjectID) (f : task.D -> task.D)
    (coll : task.Collection) :
  (forall x, task._id (f x) = task._id x) ->
  taskIDs (task.updateFirst id f coll) = taskIDs coll.
Proof.
  intros Hf. induction coll as [ | a coll IH]; [reflexivity | ].
  cbn [task.updateFirst]. destruct (task.byID id a); cbn [taskIDs List.map].
  - now rewrite Hf.
  - unfold taskIDs in IH. now rewrite IH.
Qed.

Lemma task_updateFirst_Forall (P : task.D -> Prop) (id : primitive.ObjectID)
    (f : task.D -> task.D) (coll : task.Collection) :
  (forall x, P x -> P (f x)) ->
  Forall P coll -> Forall P (task.updateFirst id f coll).
Proof.
  intros Hf. induction 1 as [ | a coll Ha Hall IH]; [constructor | ].
  cbn [task.updateFirst]. destruct (task.byID id a); constructor; auto.
Qed.

Lemma task_deleteFirst_sublist (id : primitive.ObjectID)
    (coll : task.Collection) :
  sublist (task.deleteFirst id coll) coll.
Proof.
  induction coll as [ | a coll IH]; [constructor | ].
  cbn [task.deleteFirst]. destruct (task.byID id a).
  - now apply sublist_cons.
  - now apply sublist_skip.
Qed.

Lemma existsb_byID_false (id : primitive.ObjectID) (coll : task.Collection) :
  existsb (task.byID id) coll = false -> id ∉ taskIDs coll.
Proof.
  induction coll as [ | a coll IH]; cbn [existsb taskIDs List.map].
  - intros _ H. inversion H.
  - intros [Ha Hrest]%orb_false_elim. unfold task.byID in Ha.
    apply String.eqb_neq in Ha. intros [Heq | Hin]%elem_of_cons.
    + now apply Ha.
    + now apply IH.
Qed.

(** X20.  The writing handlers keep the tasks collection in order:
    if no two documents share an [_id] and every document has a
    title and one of the priorities "low", "medium" and "high", the
    same holds after [CreateTask], after [UpdateTask] and after
    [DeleteTask], whatever the request. *)
Theorem task_collection_invariant (id : string) (env : Env)
    (coll : task.Collection) (c : gin.Context) :
  NoDup (taskIDs coll) ->
  Forall wellFormed coll ->
  (NoDup (taskIDs (TaskController.CreateTask env coll c).2)
   /\ Forall wellFormed (TaskController.CreateTask env coll c).2)
  /\ (NoDup (taskIDs (TaskController.UpdateTask id env coll c).2)
      /\ Forall wellFormed (TaskController.UpdateTask id env coll c).2)
  /\ (NoDup (taskIDs (TaskController.DeleteTask id env coll c).2)
      /\ Forall wellFormed (TaskController.DeleteTask id env coll c).2).
Proof.
  intros Hn Hwf. split; [ | split].
  - destruct (task.Status (TaskController.CreateTask env coll c).1
              =? TaskController.StatusCreated) eqn:Hstatus.
    + apply Z.eqb_eq in Hstatus.
      destruct (CreateTask_ok_inv env coll c Hstatus)
        as (uid & input & d & _ & _ & Htitle & Hbad & Hnew & Hd & ->).
      cbn [snd]. split.
      * unfold taskIDs. rewrite List.map_app. apply list.NoDup_app.
        split; [exact Hn | ]. split; [ | apply list.NoDup_singleton].
        intros x Hx ->%list_elem_of_singleton.
        apply (existsb_byID_false _ _ Hnew). now rewrite Hd in Hx.
      * apply Forall_app. split; [exact Hwf | ]. constructor; [ | constructor].
        rewrite Hd. split; [exact Htitle | ]. cbn [task.priority].
        destruct (String.eqb_spec (task.in_Priority input) "") as [ | Hne];
          [now right; left | ].
        destruct (badPriority_false _ Hbad) as [? | ?];
          [contradiction | assumption].
    + assert (Hsame : (TaskController.CreateTask env coll c).2 = coll).
      { revert Hstatus. unfold TaskController.CreateTask, task.InsertOne.
        destruct (gin.Get c "userId") as [userID | ]; [ | reflexivity].
        destruct (json_DecodeInput _) as [input | ]; [ | reflexivity].
        destruct (String.eqb _ ""); [reflexivity | ].
        destruct (TaskController.badPriority _); [reflexivity | ].
        destruct userID as [u | uid]; [reflexivity | ].
        destruct (storeErr env 0); [reflexivity | ].
        destruct (existsb _ coll); [reflexivity | discriminate]. }
      rewrite Hsame. now split.
  - unfold TaskController.UpdateTask, task.FindOne.
    destruct (gin.Get c "userId") as [userID | ]; [ | now split].
    destruct (primitive.ObjectIDFromHex id) as [objectID | ]; [ | now split].
    destruct (json_DecodeInput _) as [input | ]; [ | now split].
    destruct (TaskController.badPriority _) eqn:Hbad; [now split | ].
    destruct (storeErr env 0); [now split | ].
    destruct (List.find _ coll) as [d | ]; [ | now split].
    destruct (negb _); [now split | ].
    destruct (storeErr env 1); [now split | ].
    assert (Hgoal : NoDup (taskIDs (task.updateFirst objectID
                       (TaskController.updateSet input (clock env 0)) coll))
                    /\ Forall wellFormed (task.updateFirst objectID
                         (TaskController.updateSet input (clock env 0)) coll)).
    { split.
      - now rewrite task_updateFirst_ids.
      - apply task_updateFirst_Forall; [ | exact Hwf].
        intros x. now apply updateSet_wellFormed. }
    destruct (storeErr env 2); [exact Hgoal | ].
    destruct (List.find _ (task.updateFirst _ _ _)); exact Hgoal.
  - assert (Hsub : forall objectID,
              NoDup (taskIDs (task.deleteFirst objectID coll))
              /\ Forall wellFormed (task.deleteFirst objectID coll)).
    { intros objectID.
      pose proof (task_deleteFirst_sublist objectID coll) as Hsub. split.
      - eapply sublist_NoDup; [exact Hn | ].
        unfold taskIDs. now apply (fmap_sublist task._id).
      - rewrite List.Forall_forall in Hwf |- *. intros x Hx.
        apply Hwf, list_elem_of_In.
        eapply elem_of_sublist; [ | exact Hsub]. now apply list_elem_of_In. }
    unfold TaskController.DeleteTask, task.FindOne.
    destruct (gin.Get c "userId") as [userID | ]; [ | now split].
    destruct (primitive.ObjectIDFromHex id) as [objectID | ]; [ | now split].
    destruct (storeErr env 0); [now split | ].
    destruct (List.find _ coll) as [d | ]; [ | now split].
    destruct (negb _); [now split | ].
    destruct (storeErr env 1); [now split | ].
    apply Hsub.
Qed.

Lemma task_find_deleteFirst (id : primitive.ObjectID)
    (coll : task.Collection) :
  NoDup (taskIDs coll) ->
  List.find (task.byID id) (task.deleteFirst id coll) = None.
Proof.
  induction coll as [ | a coll IH]; [reflexivity | ].
  cbn [taskIDs List.map]. intros [Ha Hn]%list.NoDup_cons.
  cbn [task.deleteFirst]. destruct (task.byID id a) eqn:Hm.
  - destruct (List.find _ coll) as [x | ] eqn:Hfind; [ | reflexivity].
    apply task_find_some in Hfind as [Hin Hid].
    exfalso. apply Ha. unfold task.byID in Hm. apply String.eqb_eq in Hm.
    rewrite Hm, <- Hid. apply list_elem_of_In. now apply List.in_map.
  - cbn [List.find]. rewrite Hm. now apply IH.
Qed.

Lemma In_deleteFirst_iff (id : primitive.ObjectID) (coll : task.Collection)
    (d x : task.D) :
  NoDup (taskIDs coll) ->
  List.find (task.byID id) coll = Some d ->
  In x (task.deleteFirst id coll) <-> In x coll /\ x <> d.
Proof.
  induction coll as [ | a coll IH]; [discriminate | ].
  cbn [taskIDs List.map]. intros [Ha Hn]%list.NoDup_cons.
  cbn [List.find task.deleteFirst]. destruct (task.byID id a) eqn:Hm.
  - intros [= <-]. split.
    + intros Hin. split; [now right | ]. intros ->. apply Ha.
      apply list_elem_of_In. now apply List.in_map.
    + intros [[-> | Hin] Hne]; [contradiction | exact Hin].
  - intros Hfind. specialize (IH Hn Hfind). cbn [In]. split.
    + intros [-> | Hin].
      * split; [now left | ]. intros ->.
        apply task_find_some in Hfind as [_ Hid].
        unfold task.byID in Hm. now rewrite Hid, String.eqb_refl in Hm.
      * apply IH in Hin as [Hin Hne]. split; [now right | exact Hne].
    + intros [[-> | Hin] Hne]; [now left | right; now apply IH].
Qed.

(** X21.  A deletion answered 200 removes the task of the caller and
    nothing else: in a collection without a repeated [_id], the
    document with the requested [_id] belongs to the caller, the
    collection afterwards holds exactly the other documents, and
    [GetTask] on the same [id] is from then on answered 404 "Task
    not found" to any authenticated caller, as long as the store
    answers. *)
Theorem DeleteTask_removes (id : string) (env env' : Env)
    (coll : task.Collection) (c c' : gin.Context) (userID' : gin.KeyValue) :
  NoDup (taskIDs coll) ->
  task.Status (TaskController.DeleteTask id env coll c).1 = http.StatusOK ->
  gin.Get c' "userId" = Some userID' ->
  storeErr env' 0 = false ->
  exists d,
    In d coll
    /\ primitive.ObjectIDFromHex id = Some (task._id d)
    /\ gin.Get c "userId" = Some (gin.KObjectID (task.user d))
    /\ (forall x, In x (TaskController.DeleteTask id env coll c).2
                  <-> In x coll /\ x <> d)
    /\ TaskController.GetTask id env'
         (TaskController.DeleteTask id env coll c).2 c'
       = task.failure TaskController.StatusNotFound "Task not found".
Proof.
  intros Hn Hok Hget' Hstore'. revert Hok.
  unfold TaskController.DeleteTask, task.FindOne.
  destruct (gin.Get c "userId") as [userID | ] eqn:Hget; [ | discriminate].
  destruct (primitive.ObjectIDFromHex id) as [objectID | ] eqn:Hhex;
    [ | discriminate].
  destruct (storeErr env 0); [discriminate | ].
  destruct (List.find _ coll) as [d | ] eqn:Hfind; [ | discriminate].
  cbn [task.Decode task.User].
  destruct (TaskController.owns userID (task.user d)) eqn:Hown;
    cbn [negb]; [ | discriminate].
  destruct (storeErr env 1); [discriminate | ].
  intros _. cbn [snd]. exists d.
  pose proof (task_find_some _ _ _ Hfind) as [Hin Hid].
  split; [exact Hin | ]. split; [now rewrite Hid | ].
  split; [rewrite <- Hget; now apply (owns_inv c userID) | ].
  split; [intros x; now apply In_deleteFirst_iff | ].
  unfold TaskController.GetTask, task.FindOne.
  now rewrite Hget', Hhex, Hstore', task_find_deleteFirst.
Qed.

End TaskInvariants.

(** ** The task routes behind the middleware *)

(** The tasks a reply shows. *)
Definition shown (reply : task.Reply) : list task.Task :=
  match task.Body reply !! "data" with
  | Some (task.One t) => [t]
  | Some (task.Many ts) => ts
  | _ => []
  end.

Section TaskGate.
Context {E : Externals} {T : TaskExternals}.

(** A task route ends in the middleware, or in its handler with the
    [_id] of the account the token was verified for under
    "userId". *)
Lemma serve_cases (r : TaskRoutes.Route) (env : Env)
    (users : mongo.Collection) (tasks : task.Collection) (c : gin.Context) :
  gin.IsAborted c = false ->
  (exists code msg,
      (code = http.StatusUnauthorized \/ code = http.StatusInternalServerError)
      /\ TaskRoutes.serve r env users tasks c
         = (inl (gin.Abort (gin.JSON c code (gin.failure msg))), tasks))
  \/ (exists tokenString u c',
        gostrings.Split (gin.GetHeader c "Authorization") " "
          = ["Bearer"; tokenString]
        /\ verifyAccessToken env tokenString = Some (bson._id u)
        /\ In u users
        /\ gin.Get c' "userId" = Some (gin.KObjectID (bson._id u))
        /\ gin.Request_Body c' = gin.Request_Body c
        /\ TaskRoutes.serve r env users tasks c
           = (inr (TaskRoutes.handler r (advance 1 1 env) tasks c').1,
              (TaskRoutes.handler r (advance 1 1 env) tasks c').2)).
Proof.
  intros Hlive. unfold TaskRoutes.serve.
  destruct (Protect_cases env users c)
    as [(code & msg & Hcode & Hout)
       | (tokenString & userID & u & Hsplit & Hverify & _ & Hin & Hid & Hout)];
    rewrite Hout; cbv zeta; cbn [fst snd gin.Abort gin.Set_ gin.IsAborted].
  - left. now exists code, msg.
  - right. rewrite Hlive.
    exists tokenString, u,
      (gin.Set_ (gin.Set_ c "user" (gin.KUser (bson.Decode u)))
         "userId" (gin.KObjectID userID)).
    rewrite Hid. split; [exact Hsplit | ]. split; [exact Hverify | ].
    split; [exact Hin | ]. split; [ | split; reflexivity].
    unfold gin.Get, gin.Set_. cbn [gin.Keys]. apply lookup_insert_eq.
Qed.

Lemma shown_failure (code : Z) (msg : string) :
  shown (task.failure code msg) = [].
Proof. reflexivity. Qed.

Lemma shown_success (code : Z) (data : task.Any) :
  shown (task.success code data)
  = match data with task.One t => [t] | task.Many ts => ts | _ => [] end.
Proof. unfold shown, task.success. cbn [task.Body].
  rewrite lookup_insert_ne by discriminate. now rewrite lookup_insert_eq.
Qed.

(** The tasks a handler shows belong to the caller. *)
Lemma handler_shown {S : SortLaws T} (r : TaskRoutes.Route) (env : Env)
    (coll : task.Collection) (c : gin.Context) (t : task.Task) :
  In t (shown (TaskRoutes.handler r env coll c).1) ->
  gin.Get c "userId" = Some (gin.KObjectID (task.User t)).
Proof.
  destruct r as [query | id | | id | id]; cbn [TaskRoutes.handler fst].
  - unfold shown.
    destruct (task.Body _ !! "data") as [[ | | | | ts | | ] | ] eqn:Hdata;
      try (intros []; fail).
    + exfalso. revert Hdata. unfold TaskController.GetTasks.
      destruct (gin.Get c "userId"); [ | discriminate]. cbv zeta.
      destruct (storeErr env 0); [discriminate | ].
      destruct (storeErr env 1 || _); [discriminate | ].
      destruct (storeErr env 2); [discriminate | ].
      cbn [task.Body].
      rewrite !(lookup_insert_ne _ "success") by discriminate.
      rewrite !(lookup_insert_ne _ "pagination") by discriminate.
      rewrite (lookup_insert_ne _ "count" "data") by discriminate.
      rewrite lookup_insert_eq. discriminate.
    + intros Hin.
      destruct (GetTasks_data_inv query env coll c ts Hdata)
        as (_ & _ & _ & _ & Hall).
      rewrite List.Forall_forall in Hall. now apply Hall.
  - destruct (Z.eq_dec (task.Status (TaskController.GetTask id env coll c))
                http.StatusOK) as [Hok | Hno].
    + destruct (GetTask_ok_inv id env coll c Hok) as (d & _ & _ & Hget & ->).
      rewrite shown_success. now intros [<- | []].
    + revert Hno. unfold TaskController.GetTask, task.FindOne.
      destruct (gin.Get c "userId") as [userID | ]; [ | intros _ []].
      destruct (primitive.ObjectIDFromHex id); [ | intros _ []].
      destruct (storeErr env 0); [intros _ [] | ].
      destruct (List.find _ coll); [ | intros _ []].
      destruct (negb _); [intros _ [] | ]. now intros Hno.
  - destruct (Z.eq_dec (task.Status (TaskController.CreateTask env coll c).1)
                TaskController.StatusCreated) as [Hok | Hno].
    + destruct (CreateTask_ok_inv env coll c Hok)
        as (uid & input & d & Hget & _ & _ & _ & _ & _ & ->).
      cbn [fst]. rewrite shown_success. now intros [<- | []].
    + revert Hno. unfold TaskController.CreateTask, task.InsertOne.
      destruct (gin.Get c "userId") as [userID | ]; [ | intros _ []].
      destruct (json_DecodeInput _); [ | intros _ []].
      destruct (String.eqb _ ""); [intros _ [] | ].
      destruct (TaskController.badPriority _); [intros _ [] | ].
      destruct userID; [intros _ [] | ].
      destruct (storeErr env 0); [intros _ [] | ].
      destruct (existsb _ coll); [intros _ [] | ]. now intros Hno.
  - destruct (Z.eq_dec (task.Status (TaskController.UpdateTask id env coll c).1)
                http.StatusOK) as [Hok | Hno].
    + destruct (UpdateTask_ok_inv id env coll c Hok)
        as (objectID & input & d & _ & _ & _ & _ & Hget & ->).
      cbn [fst]. rewrite shown_success. now intros [<- | []].
    + revert Hno. unfold TaskController.UpdateTask, task.FindOne.
      destruct (gin.Get c "userId") as [userID | ]; [ | intros _ []].
      destruct (primitive.ObjectIDFromHex id); [ | intros _ []].
      destruct (json_DecodeInput _); [ | intros _ []].
      destruct (TaskController.badPriority _); [intros _ [] | ].
      destruct (storeErr env 0); [intros _ [] | ].
      destruct (List.find _ coll); [ | intros _ []].
      destruct (negb _); [intros _ [] | ].
      destruct (storeErr env 1); [intros _ [] | ].
      destruct (storeErr env 2); [intros _ [] | ].
      destruct (List.find _ _); [now intros Hno | intros _ []].
  - unfold TaskController.DeleteTask, task.FindOne.
    destruct (gin.Get c "userId") as [userID | ]; [ | intros []].
    destruct (primitive.ObjectIDFromHex id); [ | intros []].
    destruct (storeErr env 0); [intros [] | ].
    destruct (List.find _ coll); [ | intros []].
    destruct (negb _); [intros [] | ].
    destruct (storeErr env 1); intros [].
Qed.

(** X22.  Through the task routes a task is shown only to the bearer
    of a verified token of its owner: for every task in the data of
    a reply, of the list, of a single read, of a creation or of an
    update, the request carried "Bearer <token>" with a token that
    the middleware verified as the [_id] of an account of the users
    collection, and that [_id] is the owner of the task. *)
Theorem task_shown_to_owner_only {S : SortLaws T} (r : TaskRoutes.Route)
    (env : Env) (users : mongo.Collection) (tasks : task.Collection)
    (c : gin.Context) (reply : task.Reply) (t : task.Task) :
  gin.IsAborted c = false ->
  (TaskRoutes.serve r env users tasks c).1 = inr reply ->
  In t (shown reply) ->
  exists tokenString u,
    gostrings.Split (gin.GetHeader c "Authorization") " "
      = ["Bearer"; tokenString]
    /\ verifyAccessToken env tokenString = Some (task.User t)
    /\ In u users
    /\ bson._id u = task.User t.
Proof.
  intros Hlive Hreply Hshown.
  destruct (serve_cases r env users tasks c Hlive)
    as [(code & msg & _ & Hout)
       | (tokenString & u & c' & Hsplit & Hverify & Hin & Hget & _ & Hout)];
    rewrite Hout in Hreply; cbn [fst] in Hreply; [discriminate | ].
  injection Hreply as <-.
  apply handler_shown in Hshown. rewrite Hget in Hshown.
  injection Hshown as Hid.
  exists tokenString, u. rewrite <- Hid. now repeat split.
Qed.

(** X23.  Through the task routes a task is changed or removed only
    for the bearer of a verified token of its owner: a document of
    the tasks collection is still there, as it was, after any
    request whose Authorization header does not hold a token that
    the middleware verifies as the owner of that document. *)
Theorem task_kept_without_owner_token (r : TaskRoutes.Route) (env : Env)
    (users : mongo.Collection) (tasks : task.Collection) (c : gin.Context)
    (x : task.D) :
  gin.IsAborted c = false ->
  In x tasks ->
  (forall tokenString,
      gostrings.Split (gin.GetHeader c "Authorization") " "
        = ["Bearer"; tokenString] ->
      verifyAccessToken env tokenString <> Some (task.user x)) ->
  In x (TaskRoutes.serve r env users tasks c).2.
Proof.
  intros Hlive Hin Hno.
  destruct (serve_cases r env users tasks c Hlive)
    as [(code & msg & _ & Hout)
       | (tokenString & u & c' & Hsplit & Hverify & _ & Hget & _ & Hout)];
    rewrite Hout; cbn [snd]; [exact Hin | ].
  assert (Hother : gin.Get c' "userId" <> Some (gin.KObjectID (task.user x))).
  { rewrite Hget. intros [= Hid]. apply (Hno tokenString Hsplit).
    now rewrite Hverify, Hid. }
  destruct r as [query | id | | id | id]; cbn [TaskRoutes.handler snd].
  - exact Hin.
  - exact Hin.
  - now apply CreateTask_others.
  - now apply UpdateTask_others.
  - now apply DeleteTask_others.
Qed.

(** X24.  Behind the middleware the handlers always find an
    [ObjectID] under "userId": no task route answers 401 "User not
    authenticated" from a handler, and the type assertion of
    [CreateTask] never panics, so that every reply of a handler has
    a body with the field "success". *)
Theorem task_handlers_find_userId (r : TaskRoutes.Route) (env : Env)
    (users : mongo.Collection) (tasks : task.Collection) (c : gin.Context)
    (reply : task.Reply) :
  gin.IsAborted c = false ->
  (TaskRoutes.serve r env users tasks c).1 = inr reply ->
  task.Status reply <> http.StatusUnauthorized
  /\ reply <> TaskController.recovered
  /\ exists b, task.Body reply !! "success" = Some (task.Bool b).
Proof.
  intros Hlive Hreply.
  destruct (serve_cases r env users tasks c Hlive)
    as [(code & msg & _ & Hout)
       | (tokenString & u & c' & _ & _ & _ & Hget & _ & Hout)];
    rewrite Hout in Hreply; cbn [fst] in Hreply; [discriminate | ].
  injection Hreply as <-.
  assert (Hany : forall code b (m : gmap string task.Any),
            code <> http.StatusUnauthorized ->
            let reply :=
              {| task.Status := code;
                 task.Body := <["success" := task.Bool b]> m |} in
            task.Status reply <> http.StatusUnauthorized
            /\ reply <> TaskController.recovered
            /\ exists b, task.Body reply !! "success" = Some (task.Bool b)).
  { intros code b m Hcode reply. split; [exact Hcode | ].
    assert (Hb : task.Body reply !! "success" = Some (task.Bool b))
      by apply lookup_insert_eq.
    split; [ | now exists b]. intros Heq. rewrite Heq in Hb. discriminate. }
  destruct r as [query | id | | id | id]; cbn [TaskRoutes.handler fst];
    unfold TaskController.GetTasks, TaskController.GetTask,
      TaskController.CreateTask, TaskController.UpdateTask,
      TaskController.DeleteTask, task.FindOne, task.InsertOne,
      task.failure, task.success;
    rewrite Hget; cbv zeta.
  - destruct (storeErr _ 0); [now apply Hany | ].
    destruct (storeErr _ 1 || _); [now apply Hany | ].
    destruct (storeErr _ 2); now apply Hany.
  - destruct (primitive.ObjectIDFromHex id); [ | now apply Hany].
    destruct (storeErr _ 0); [now apply Hany | ].
    destruct (List.find _ tasks); [ | now apply Hany].
    destruct (negb _); now apply Hany.
  - destruct (json_DecodeInput _); [ | now apply Hany].
    destruct (String.eqb _ ""); [now apply Hany | ].
    destruct (TaskController.badPriority _); [now apply Hany | ].
    destruct (storeErr _ 0); [now apply Hany | ].
    destruct (existsb _ tasks); now apply Hany.
  - destruct (primitive.ObjectIDFromHex id); [ | now apply Hany].
    destruct (json_DecodeInput _); [ | now apply Hany].
    destruct (TaskController.badPriority _); [now apply Hany | ].
    destruct (storeErr _ 0); [now apply Hany | ].
    destruct (List.find _ tasks); [ | now apply Hany].
    destruct (negb _); [now apply Hany | ].
    destruct (storeErr _ 1); [now apply Hany | ].
    destruct (storeErr _ 2); [now apply Hany | ].
    destruct (List.find _ _); now apply Hany.
  - destruct (primitive.ObjectIDFromHex id); [ | now apply Hany].
    destruct (storeErr _ 0); [now apply Hany | ].
    destruct (List.find _ tasks); [ | now apply Hany].
    destruct (negb _); [now apply Hany | ].
    destruct (storeErr _ 1); now apply Hany.
Qed.

End TaskGate.

(** ** Pages *)
Section Pages.
Context {T : TaskExternals}.

(** What a list that was answered 200 went through. *)
Lemma GetTasks_ok_inv (query : string -> string) (env : Env)
    (coll : task.Collection) (c : gin.Context) :
  task.Status (TaskController.GetTasks query env coll c) = http.StatusOK ->
  exists userID,
    gin.Get c "userId" = Some userID
    /\ (TaskController.skipOf query <? 0) = false
    /\ TaskController.GetTasks query env coll c
       = let found :=
           List.filter (TaskController.selected query userID) coll in
         let total := Z.of_nat (length found) in
         let tasks :=
           List.map task.Decode
             (List.firstn (Z.to_nat (TaskController.limitOf query))
                (List.skipn (Z.to_nat (TaskController.skipOf query))
                   (store_sort (TaskController.sortOf query).1
                      (TaskController.sortOf query).2 found))) in
         {| task.Status := http.StatusOK;
            task.Body :=
              <["success" := task.Bool true]>
                (<["pagination" :=
                     task.Pagination total (TaskController.pageOf query)
                       (TaskController.limitOf query)
                       (TaskController.totalPagesOf total
                          (TaskController.limitOf query))]>
                   (<["count" := task.Int (Z.of_nat (length tasks))]>
                      (<["data" := task.Many tasks]> ∅))) |}.
Proof.
  unfold TaskController.GetTasks.
  destruct (gin.Get c "userId") as [userID | ]; [ | discriminate].
  cbv zeta.
  destruct (storeErr env 0); [discriminate | ].
  destruct (storeErr env 1); [discriminate | ]. cbn [orb].
  destruct (TaskController.skipOf query <? 0) eqn:Hskip; [discriminate | ].
  destruct (storeErr env 2); [discriminate | ].
  intros _. exists userID. repeat split.
Qed.

(** X25.  The pages [GetTasks] hands out fit the page count it
    reports: for a collection small enough for [int] and a page
    small enough for the skip not to wrap around, a reply of status
    200 reports as [total] the number of documents selected; every
    page before the last holds exactly [limit] tasks, the last page
    holds the remaining ones, at least one, and every page after the
    last is empty. *)
Theorem GetTasks_pages {S : SortLaws T} (query : string -> string)
    (env : Env) (coll : task.Collection) (c : gin.Context) :
  task.Status (TaskController.GetTasks query env coll c) = http.StatusOK ->
  Z.of_nat (length coll) <= strconv.maxInt64 - 100 ->
  TaskController.pageOf query <= 92233720368547758 ->
  exists userID total totalPages tasks,
    gin.Get c "userId" = Some userID
    /\ total
       = Z.of_nat (length (List.filter (TaskController.selected query userID)
                             coll))
    /\ task.Body (TaskController.GetTasks query env coll c) !! "pagination"
       = Some (task.Pagination total (TaskController.pageOf query)
                 (TaskController.limitOf query) totalPages)
    /\ task.Body (TaskController.GetTasks query env coll c) !! "data"
       = Some (task.Many tasks)
    /\ (TaskController.pageOf query < totalPages ->
        Z.of_nat (length tasks) = TaskController.limitOf query)
    /\ (TaskController.pageOf query = totalPages ->
        1 <= Z.of_nat (length tasks) <= TaskController.limitOf query
        /\ Z.of_nat (length tasks)
           = total
             - (TaskController.pageOf query - 1)
               * TaskController.limitOf query)
    /\ (totalPages < TaskController.pageOf query -> tasks = []).
Proof.
  intros Hok Hsize Hpage.
  destruct (GetTasks_ok_inv query env coll c Hok) as (userID & Hget & _ & ->).
  cbv zeta. cbn [task.Body].
  pose proof (limitOf_bounds query) as Hlimit.
  pose proof (pageOf_bounds query) as Hp.
  destruct (skipOf_small query Hpage) as [Hskip Hskip0].
  set (found := List.filter (TaskController.selected query userID) coll).
  set (sorted := store_sort _ _ found).
  assert (Hfound : (length found <= length coll)%nat)
    by apply List.filter_length_le.
  assert (Hsorted : length sorted = length found)
    by (apply Permutation_length, store_sort_Permutation).
  set (total := Z.of_nat (length found)).
  assert (Htotal : 0 <= total <= strconv.maxInt64 - 100)
    by (unfold total; lia).
  pose proof (totalPagesOf_div total _ Htotal Hlimit) as Hpages.
  pose proof (Z.div_mod (total + TaskController.limitOf query - 1)
                (TaskController.limitOf query) ltac:(lia)) as Hdm.
  pose proof (Z.mod_pos_bound (total + TaskController.limitOf query - 1)
                (TaskController.limitOf query) ltac:(lia)) as Hmod.
  rewrite <- Hpages in Hdm.
  set (pages := TaskController.totalPagesOf total
                  (TaskController.limitOf query)) in *.
  exists userID, total, pages. eexists.
  split; [exact Hget | ]. split; [reflexivity | ].
  split; [rewrite lookup_insert_ne by discriminate; apply lookup_insert_eq | ].
  split.
  { rewrite !(lookup_insert_ne _ _ "data") by discriminate.
    apply lookup_insert_eq. }
  assert (Hlen : Z.of_nat (length (List.map task.Decode
                    (List.firstn (Z.to_nat (TaskController.limitOf query))
                       (List.skipn (Z.to_nat (TaskController.skipOf query))
                          sorted))))
                 = Z.min (TaskController.limitOf query)
                     (Z.max 0
                        (total
                         - (TaskController.pageOf query - 1)
                           * TaskController.limitOf query))).
  { rewrite List.length_map, List.length_firstn, List.length_skipn, Hsorted.
    rewrite <- Hskip. unfold total. lia. }
  split; [ | split].
  - intros Hlt. rewrite Hlen. nia.
  - intros Heq. rewrite Hlen. nia.
  - intros Hgt. apply List.length_zero_iff_nil.
    apply Nat2Z.inj. rewrite Hlen. nia.
Qed.

End Pages.

(** ** Repeated updates, and whose a task is *)
Section TaskOwners.
Context {T : TaskExternals}.

(** A stored task with a new update date. *)
Definition touch (now : time.Time) (d : task.D) : task.D :=
  {| task._id := task._id d;
     task.title := task.title d;
     task.description := task.description d;
     task.completed := task.completed d;
     task.dueDate := task.dueDate d;
     task.priority := task.priority d;
     task.user := task.user d;
     task.createdAt := task.createdAt d;
     task.updatedAt := primitive.NewDateTimeFromTime now |}.

Lemma updateSet_twice (input : task.Input) (now now' : time.Time)
    (d : task.D) :
  TaskController.updateSet input now' (TaskController.updateSet input now d)
  = touch now' (TaskController.updateSet input now d).
Proof.
  unfold TaskController.updateSet, touch.
  cbn [task._id task.title task.description task.completed task.dueDate
       task.priority task.user task.createdAt task.updatedAt].
  destruct (String.eqb (task.in_Title input) "");
    destruct (String.eqb (task.in_Description input) "");
    destruct (String.eqb (task.in_Priority input) "");
    destruct (task.in_DueDate input); reflexivity.
Qed.

Lemma task_updateFirst_ext (id : primitive.ObjectID) (f g : task.D -> task.D)
    (coll : task.Collection) (d : task.D) :
  List.find (task.byID id) coll = Some d ->
  f d = g d ->
  task.updateFirst id f coll = task.updateFirst id g coll.
Proof.
  intros Hfind Heq. induction coll as [ | a coll IH]; [reflexivity | ].
  cbn [List.find task.updateFirst] in *. destruct (task.byID id a).
  - injection Hfind as ->. now rewrite Heq.
  - now rewrite IH.
Qed.

(** X26.  Sending an update a second time changes nothing but the
    update date: after an update answered 200, the same request,
    with the store answering, is answered 200 again, with the task
    of the first reply under a new update date, and the collection
    differs from the one the first update left only in the update
    date of that task. *)
Theorem UpdateTask_repeated (id : string) (env env' : Env)
    (coll : task.Collection) (c : gin.Context) :
  task.Status (TaskController.UpdateTask id env coll c).1 = http.StatusOK ->
  storeErr env' 0 = false ->
  storeErr env' 1 = false ->
  storeErr env' 2 = false ->
  exists objectID d',
    primitive.ObjectIDFromHex id = Some objectID
    /\ (TaskController.UpdateTask id env coll c).1
       = task.success http.StatusOK (task.One (task.Decode d'))
    /\ TaskController.UpdateTask id env'
         (TaskController.UpdateTask id env coll c).2 c
       = (task.success http.StatusOK
            (task.One (task.Decode (touch (clock env' 0) d'))),
          task.updateFirst objectID (touch (clock env' 0))
            (TaskController.UpdateTask id env coll c).2).
Proof.
  intros Hok Hs0 Hs1 Hs2.
  destruct (UpdateTask_ok_inv id env coll c Hok)
    as (objectID & input & d & Hhex & Hin & Hbad & Hfind & Hget & Hout).
  rewrite Hout. cbn [fst snd].
  set (f := TaskController.updateSet input (clock env 0)).
  set (f' := TaskController.updateSet input (clock env' 0)).
  exists objectID, (f d). split; [exact Hhex | ]. split; [reflexivity | ].
  assert (Hfind' : List.find (task.byID objectID)
                     (task.updateFirst objectID f coll) = Some (f d))
    by (apply task_find_updateFirst; [reflexivity | exact Hfind]).
  unfold TaskController.UpdateTask, task.FindOne.
  rewrite Hget, Hhex, Hin, Hbad, Hs0, Hfind'.
  cbn [task.Decode task.User TaskController.owns].
  replace (task.user (f d)) with (task.user d) by reflexivity.
  rewrite String.eqb_refl. cbn [negb]. rewrite Hs1, Hs2.
  fold f'.
  rewrite (task_find_updateFirst objectID f' _ (f d) (fun _ => eq_refl) Hfind').
  unfold f' at 1. unfold f at 1. rewrite updateSet_twice. fold f.
  f_equal.
  apply (task_updateFirst_ext objectID f' _ _ (f d) Hfind').
  unfold f', f. apply updateSet_twice.
Qed.

(** The part of a stored task that says whose it is and since
    when. *)
Definition origin (d : task.D)
  : primitive.ObjectID * primitive.ObjectID * primitive.DateTime :=
  (task._id d, task.user d, task.createdAt d).

Lemma In_task_updateFirst (id : primitive.ObjectID) (f : task.D -> task.D)
    (coll : task.Collection) (x : task.D) :
  In x (task.updateFirst id f coll) ->
  In x coll \/ exists d, In d coll /\ x = f d.
Proof.
  induction coll as [ | a coll IH]; [intros [] | ].
  cbn [task.updateFirst]. destruct (task.byID id a).
  - intros [<- | Hin]; [right; exists a; split; [now left | reflexivity] | ].
    left. now right.
  - intros [<- | Hin]; [left; now left | ].
    destruct (IH Hin) as [Hx | (d & Hd & ->)]; [left; now right | ].
    right. exists d. split; [now right | reflexivity].
Qed.

(** X27.  A task never changes hands: every document in the
    collection after [CreateTask], [UpdateTask] or [DeleteTask] has
    the [_id], the owner and the creation date of a document that
    was there before, or it is the one document the request
    created, and then it belongs to the [ObjectID] found under
    "userId", has the [_id] the driver minted and was created at
    the reading of the clock. *)
Theorem task_never_changes_hands (id : string) (env : Env)
    (coll : task.Collection) (c : gin.Context) (x : task.D) :
  (In x (TaskController.CreateTask env coll c).2 ->
   In x coll
   \/ (gin.Get c "userId" = Some (gin.KObjectID (task.user x))
       /\ task._id x = freshID env
       /\ task.createdAt x = primitive.NewDateTimeFromTime (clock env 0)
       /\ (TaskController.CreateTask env coll c).2 = (coll ++ [x])%list))
  /\ (In x (TaskController.UpdateTask id env coll c).2 ->
      exists d, In d coll /\ origin x = origin d)
  /\ (In x (TaskController.DeleteTask id env coll c).2 -> In x coll).
Proof.
  split; [ | split].
  - destruct (Z.eq_dec (task.Status (TaskController.CreateTask env coll c).1)
                TaskController.StatusCreated) as [Hok | Hno].
    + destruct (CreateTask_ok_inv env coll c Hok)
        as (uid & input & d & Hget & _ & _ & _ & _ & Hd & ->).
      cbn [snd]. intros [Hin | [<- | []]]%List.in_app_or; [now left | right].
      rewrite Hd. cbn [task.user task._id task.createdAt].
      split; [exact Hget | ]. repeat split.
    + revert Hno. unfold TaskController.CreateTask, task.InsertOne.
      destruct (gin.Get c "userId") as [userID | ]; [ | now left].
      destruct (json_DecodeInput _); [ | now left].
      destruct (String.eqb _ ""); [now left | ].
      destruct (TaskController.badPriority _); [now left | ].
      destruct userID; [now left | ].
      destruct (storeErr env 0); [now left | ].
      destruct (existsb _ coll); [now left | ]. now intros Hno.
  - assert (Hsame : In x coll -> exists d, In d coll /\ origin x = origin d)
      by (intros Hin; now exists x).
    unfold TaskController.UpdateTask, task.FindOne.
    destruct (gin.Get c "userId") as [userID | ]; [ | exact Hsame].
    destruct (primitive.ObjectIDFromHex id) as [objectID | ]; [ | exact Hsame].
    destruct (json_DecodeInput _) as [input | ]; [ | exact Hsame].
    destruct (TaskController.badPriority _); [exact Hsame | ].
    destruct (storeErr env 0); [exact Hsame | ].
    destruct (List.find _ coll) as [d | ]; [ | exact Hsame].
    destruct (negb _); [exact Hsame | ].
    destruct (storeErr env 1); [exact Hsame | ].
    assert (Hupd : In x (task.updateFirst objectID
                           (TaskController.updateSet input (clock env 0)) coll) ->
                   exists d, In d coll /\ origin x = origin d).
    { intros [Hin | (d0 & Hd0 & ->)]%In_task_updateFirst; [now apply Hsame | ].
      now exists d0. }
    destruct (storeErr env 2); [exact Hupd | ].
    destruct (List.find _ (task.updateFirst _ _ _)); exact Hupd.
  - unfold TaskController.DeleteTask, task.FindOne.
    destruct (gin.Get c "userId") as [userID | ]; [ | tauto].
    destruct (primitive.ObjectIDFromHex id) as [objectID | ]; [ | tauto].
    destruct (storeErr env 0); [tauto | ].
    destruct (List.find _ coll) as [d | ]; [ | tauto].
    destruct (negb _); [tauto | ].
    destruct (storeErr env 1); [tauto | ].
    cbn [snd]. intros Hin. apply list_elem_of_In.
    eapply elem_of_sublist; [ | apply (task_deleteFirst_sublist objectID)].
    now apply list_elem_of_In.
Qed.

End TaskOwners.

(** * Sample sessions for the further properties *)

(** ** The sample task externals meet the law *)
Section SampleTaskLaws.

Lemma insert_Permutation (field : string) (order : Z) (d : task.D)
    (l : list task.D) :
  Permutation (SampleTasks.insertBy field order d l) (d :: l).
Proof.
  induction l as [ | x l IH]; cbn [SampleTasks.insertBy]; [reflexivity | ].
  destruct (_ <=? _); [reflexivity | ].
  rewrite IH. apply perm_swap.
Qed.

Lemma SampleTasks_laws : SortLaws SampleTasks.externals.
Proof.
  split. intros field order l. cbn [store_sort SampleTasks.externals].
  induction l as [ | d l IH]; cbn [SampleTasks.sort List.fold_right];
    [reflexivity | ].
  rewrite insert_Permutation. now constructor.
Qed.

End SampleTaskLaws.

(** ** The further properties on concrete requests *)
Section MoreSessions.

Let E : Externals := Sample.externals.
#[local] Existing Instance E.
Let L : CodecLaws E := Sample_laws.
#[local] Existing Instance L.
Let T : TaskExternals := SampleTasks.externals.
#[local] Existing Instance T.
Let S : SortLaws T := SampleTasks_laws.
#[local] Existing Instance S.

(** alice as [sendTokenResponse] receives her at registration. *)
Definition aliceUser : models.User :=
  models.withID
    (models.NewUser "alice" "alice@example.org" "bcrypt:secret1" t0) aliceID.

(** The document of alice after her registration. *)
Definition aliceDoc : bson.D :=
  {| bson._id := aliceID;
     bson.username := "alice";
     bson.email := "alice@example.org";
     bson.password := "bcrypt:secret1";
     bson.refreshToken := bson.Value (utils.HashString aliceRefresh1);
     bson.refreshTokenExpire :=
       bson.Value (primitive.NewDateTimeFromTime (t0 + 7 * 24 * time.Hour));
     bson.createdAt := primitive.NewDateTimeFromTime t0;
     bson.updatedAt := primitive.NewDateTimeFromTime t0 |}.

(** Surroundings of a registration in which the third call to the
    store, the write of the refresh token, fails. *)
Definition envTokenWriteFails : Env :=
  {| environ := ∅;
     clock := fun _ => t0;
     storeErr := fun k => (k =? 2)%nat;
     entropy := "0123456789abcdef0123456789abcdef";
     salt := "";
     freshID := aliceID |}.

(** A request carrying alice's access token. *)
Definition asAlice (body : string) : gin.Context :=
  request ("Bearer " +:+ aliceToken) body.

Definition loginAlice : gin.Context :=
  request "" "alice@example.org,secret1".

Lemma collAlice_eq : collAlice = [aliceDoc].
Proof. vm_compute. reflexivity. Qed.

Lemma reachable_collAlice : routes.reachable collAlice.
Proof.
  apply (routes.reachable_serve routes.PostRegister envRegister
           registerAlice []).
  constructor.
Qed.

(** A request was answered 200: by evaluation, the body being that
    of the last response written. *)
Ltac answered_ok :=
  lazymatch goal with
  | |- succeeded _ ?out =>
      exists (gin.Body
                (List.last (gin.Writer out.1)
                   {| gin.Status := 0; gin.Body := ∅ |}));
      vm_compute; reflexivity
  end.

Lemma registerAlice_succeeded :
  succeeded registerAlice (controllers.Register envRegister [] registerAlice).
Proof. answered_ok. Qed.

Lemma NoDup_ids_collAlice : NoDup (ids collAlice).
Proof. apply reachable_NoDup, reachable_collAlice. Qed.

Lemma asAlice_header (body : string) :
  gostrings.Split (gin.GetHeader (asAlice body) "Authorization") " "
  = ["Bearer"; aliceToken].
Proof. vm_compute. reflexivity. Qed.

Lemma aliceToken_verified :
  verifyAccessToken envHourLater aliceToken = Some (bson._id aliceDoc).
Proof. vm_compute. reflexivity. Qed.

Lemma sendTokenResponse_pair_witness :
  exists accessToken refreshToken expiry,
    controllers.sendTokenResponse envRegister collAlice (request "" "")
      aliceUser
    = (gin.JSON (request "" "") http.StatusOK
         (tokenBody accessToken refreshToken aliceUser),
       mongo.updateFirst (mongo.ById (models.ID aliceUser))
         (mongo.SetRefresh (Some (utils.HashString refreshToken))
            (Some expiry)) collAlice,
       false)
    /\ expiry = clock envRegister 2 + 7 * 24 * time.Hour
    /\ forall env',
         environ env' = environ envRegister ->
         clock env' 0 < time.FromUnix (expirySecond envRegister) ->
         verifyAccessToken env' accessToken = Some (models.ID aliceUser).
Proof.
  apply (sendTokenResponse_pair envRegister collAlice (request "" "")
           aliceUser).
  - reflexivity.
  - reflexivity.
  - vm_compute. discriminate.
Defined.

Lemma Register_creates_account_witness :
  (forall d, In d [] ->
             bson.username d <> "alice"
             /\ bson.email d <> "alice@example.org")
  /\ exists hashed accessToken refreshToken user,
       bcrypt_GenerateFromPassword (salt envRegister) "secret1" = Some hashed
       /\ controllers.Register envRegister [] registerAlice
          = (gin.JSON registerAlice http.StatusOK
               (tokenBody accessToken refreshToken user),
             ([] ++
              [{| bson._id := freshID envRegister;
                  bson.username := "alice";
                  bson.email := "alice@example.org";
                  bson.password := hashed;
                  bson.refreshToken :=
                    bson.Value (utils.HashString refreshToken);
                  bson.refreshTokenExpire :=
                    bson.Value
                      (primitive.NewDateTimeFromTime
                         (clock envRegister 3 + 7 * 24 * time.Hour));
                  bson.createdAt :=
                    primitive.NewDateTimeFromTime (clock envRegister 0);
                  bson.updatedAt :=
                    primitive.NewDateTimeFromTime (clock envRegister 0) |}])%list).
Proof.
  apply (Register_creates_account envRegister [] registerAlice
           "alice" "alice@example.org" "secret1").
  - vm_compute. reflexivity.
  - exact registerAlice_succeeded.
Defined.

Lemma Register_no_rollback_witness :
  controllers.Register envTokenWriteFails [] registerAlice
  = (gin.JSON registerAlice http.StatusInternalServerError
       (gin.failure "Failed to generate authentication tokens"),
     ([] ++ [registered envTokenWriteFails "alice" "alice@example.org"
               "bcrypt:secret1"])%list)
  /\ bson.refreshToken
       (registered envTokenWriteFails "alice" "alice@example.org"
          "bcrypt:secret1") = bson.Absent
  /\ bson.refreshTokenExpire
       (registered envTokenWriteFails "alice" "alice@example.org"
          "bcrypt:secret1") = bson.Absent
  /\ controllers.Register envHourLater
       ([] ++ [registered envTokenWriteFails "alice" "alice@example.org"
                 "bcrypt:secret1"])%list registerAlice
     = (gin.JSON registerAlice http.StatusBadRequest
          (gin.failure "Username or email already in use"),
        ([] ++ [registered envTokenWriteFails "alice" "alice@example.org"
                  "bcrypt:secret1"])%list).
Proof.
  apply (Register_no_rollback envTokenWriteFails envHourLater []
           registerAlice registerAlice "alice" "alice@example.org" "secret1"
           "bcrypt:secret1").
  - vm_compute. reflexivity.
  - vm_compute. reflexivity.
  - reflexivity.
  - reflexivity.
  - reflexivity.
  - reflexivity.
  - reflexivity.
  - reflexivity.
  - reflexivity.
Defined.


Lemma register_then_login_witness :
  succeeded loginAlice
    (controllers.Login envHourLater
       (controllers.Register envRegister [] registerAlice).2 loginAlice).
Proof.
  apply (register_then_login envRegister envHourLater [] registerAlice
           loginAlice "alice" "alice@example.org" "secret1").
  - intros salt pw hashed Hhash. cbn in Hhash. injection Hhash as <-.
    cbn. apply String.eqb_refl.
  - vm_compute. reflexivity.
  - exact registerAlice_succeeded.
  - vm_compute. reflexivity.
  - reflexivity.
  - reflexivity.
Defined.

Lemma Login_replaces_refresh_token_witness :
  controllers.RefreshToken envHourLater
    (controllers.Login envHourLater collAlice loginAlice).2
    (request "" aliceRefresh1)
  = (gin.JSON (request "" aliceRefresh1) http.StatusUnauthorized
       (gin.failure "Invalid or expired refresh token"),
     (controllers.Login envHourLater collAlice loginAlice).2).
Proof.
  apply (Login_replaces_refresh_token envHourLater envHourLater collAlice
           loginAlice (request "" aliceRefresh1) "alice@example.org"
           "secret1" aliceRefresh1).
  - exact NoDup_ids_collAlice.
  - vm_compute. reflexivity.
  - answered_ok.
  - intros d Hin _. rewrite collAlice_eq in Hin.
    destruct Hin as [<- | []]. reflexivity.
  - rewrite collAlice_eq. apply list.NoDup_singleton.
  - vm_compute. discriminate.
  - vm_compute. reflexivity.
  - reflexivity.
Defined.

Lemma Logout_revokes_witness :
  succeeded (asAlice "")
    (routes.handler routes.PostLogout envHourLater collAlice (asAlice ""))
  /\ (routes.handler routes.PostLogout envHourLater collAlice (asAlice "")).2
     = mongo.updateFirst (mongo.ById (bson._id aliceDoc))
         (mongo.SetRefresh None None) collAlice
  /\ (forall x,
        In x (routes.handler routes.PostLogout envHourLater collAlice
                (asAlice "")).2 ->
        (x = mongo.apply (mongo.SetRefresh None None) aliceDoc
         /\ bson.refreshToken x = bson.Null
         /\ bson.refreshTokenExpire x = bson.Null)
        \/ (In x collAlice /\ x <> aliceDoc))
  /\ controllers.RefreshToken envHourLater
       (routes.handler routes.PostLogout envHourLater collAlice
          (asAlice "")).2
       (request "" aliceRefresh1)
     = (gin.JSON (request "" aliceRefresh1) http.StatusUnauthorized
          (gin.failure "Invalid or expired refresh token"),
        (routes.handler routes.PostLogout envHourLater collAlice
           (asAlice "")).2)
  /\ (routes.handler routes.PostLogout envHourLater
        (routes.handler routes.PostLogout envHourLater collAlice
           (asAlice "")).2 (asAlice "")).2
     = (routes.handler routes.PostLogout envHourLater collAlice
          (asAlice "")).2.
Proof.
  apply (Logout_revokes envHourLater envHourLater collAlice (asAlice "")
           (request "" aliceRefresh1) aliceToken aliceRefresh1 aliceDoc).
  - exact NoDup_ids_collAlice.
  - exact (asAlice_header "").
  - exact aliceToken_verified.
  - rewrite collAlice_eq. now left.
  - reflexivity.
  - reflexivity.
  - intros x Hin _. rewrite collAlice_eq in Hin.
    destruct Hin as [<- | []]. reflexivity.
  - vm_compute. reflexivity.
  - reflexivity.
Defined.

Lemma register_then_authenticate_witness :
  exists accessToken refreshToken user d,
    (controllers.Register envRegister [] registerAlice).1
    = gin.JSON registerAlice http.StatusOK
        (tokenBody accessToken refreshToken user)
    /\ In d (controllers.Register envRegister [] registerAlice).2
    /\ bson.username d = "alice"
    /\ bson.email d = "alice@example.org"
    /\ forall (next : gin.HandlerFunc) (env' : Env) (c' : gin.Context),
         environ env' = environ envRegister ->
         clock env' 0
           < time.FromUnix (expirySecond (advance 1 2 envRegister)) ->
         storeErr env' 0 = false ->
         gostrings.Split (gin.GetHeader c' "Authorization") " "
           = ["Bearer"; accessToken] ->
         middleware.Protect next env'
           (controllers.Register envRegister [] registerAlice).2 c'
         = next (advance 1 1 env')
             (controllers.Register envRegister [] registerAlice).2
             (gin.Set_ (gin.Set_ c' "user" (gin.KUser (bson.Decode d)))
                "userId" (gin.KObjectID (bson._id d))).
Proof.
  apply (register_then_authenticate envRegister [] registerAlice
           "alice" "alice@example.org" "secret1").
  - vm_compute. reflexivity.
  - exact registerAlice_succeeded.
  - reflexivity.
  - vm_compute. discriminate.
Defined.

Lemma GetMe_profile_witness :
  (middleware.Protect controllers.GetMe envHourLater collAlice
     (asAlice "")).2 = collAlice
  /\ gin.IsAborted
       (middleware.Protect controllers.GetMe envHourLater collAlice
          (asAlice "")).1
     = gin.IsAborted (asAlice "")
  /\ gin.Writer
       (middleware.Protect controllers.GetMe envHourLater collAlice
          (asAlice "")).1
     = (gin.Writer (asAlice "") ++
        [{| gin.Status := http.StatusOK;
            gin.Body :=
              <["success" := gin.Bool true]>
                (<["data" :=
                     gin.UserResponse
                       {| models.resp_ID := bson._id aliceDoc;
                          models.resp_Username := bson.username aliceDoc;
                          models.resp_Email := bson.email aliceDoc;
                          models.resp_CreatedAt :=
                            primitive.Time (bson.createdAt aliceDoc) |}]> ∅)
         |}])%list.
Proof.
  apply (GetMe_profile envHourLater collAlice (asAlice "") aliceToken
           aliceDoc).
  - exact NoDup_ids_collAlice.
  - exact (asAlice_header "").
  - exact aliceToken_verified.
  - rewrite collAlice_eq. now left.
  - reflexivity.
Defined.

Definition bobID : primitive.ObjectID := "mnopqrstuvwx".

(** A context as the middleware leaves it for the account [uid]. *)
Definition authenticated (uid : primitive.ObjectID) (body : string)
  : gin.Context :=
  gin.Set_ (request "" body) "userId" (gin.KObjectID uid).

(** Surroundings in which the clock stands at [t] and the driver
    mints [id]. *)
Definition envTask (t : time.Time) (id : primitive.ObjectID) : Env :=
  envAt t ∅ "" id.

Definition milkID : primitive.ObjectID := "task-0000001".
Definition rentID : primitive.ObjectID := "task-0000002".

(** alice's task, created at [t0]. *)
Definition milk : task.D :=
  {| task._id := milkID;
     task.title := "Buy milk";
     task.description := bson.Value "2 litres";
     task.completed := false;
     task.dueDate := bson.Absent;
     task.priority := "high";
     task.user := aliceID;
     task.createdAt := primitive.NewDateTimeFromTime t0;
     task.updatedAt := primitive.NewDateTimeFromTime t0 |}.

(** bob's task, created an hour later, without description or
    priority in the request. *)
Definition rent : task.D :=
  {| task._id := rentID;
     task.title := "Pay rent";
     task.description := bson.Absent;
     task.completed := false;
     task.dueDate := bson.Absent;
     task.priority := "medium";
     task.user := bobID;
     task.createdAt := primitive.NewDateTimeFromTime (t0 + time.Hour);
     task.updatedAt := primitive.NewDateTimeFromTime (t0 + time.Hour) |}.

Definition createMilk : gin.Context :=
  authenticated aliceID "Buy milk,2 litres,false,high".

Definition createRent : gin.Context :=
  authenticated bobID "Pay rent,,,".

(** The tasks collection after both creations. *)
Definition tasksBoth : task.Collection :=
  (TaskController.CreateTask (envTask (t0 + time.Hour) rentID)
     (TaskController.CreateTask (envTask t0 milkID) [] createMilk).2
     createRent).2.

Lemma tasksBoth_eq : tasksBoth = [milk; rent].
Proof. vm_compute. reflexivity. Qed.

(** The query string of a request without parameters. *)
Definition noQuery : string -> string := fun _ => "".

(** alice marks her task as completed, sending nothing else. *)
Definition completeMilk : gin.Context := authenticated aliceID ",,true,".

Lemma NoDup_tasksBoth : NoDup (taskIDs tasksBoth).
Proof.
  rewrite tasksBoth_eq. cbn [taskIDs List.map task._id milk rent].
  apply list.NoDup_cons. split; [ | apply list.NoDup_singleton].
  intros [= ]%list_elem_of_singleton.
Qed.

Lemma totalPages_rounds_up_witness :
  let pages := TaskController.totalPagesOf 25 10 in
  (25 = 0 -> pages = 0) /\ 10 * (pages - 1) < 25 <= 10 * pages.
Proof.
  apply (totalPages_rounds_up 25 10); unfold strconv.maxInt64; lia.
Defined.

Lemma GetTasks_own_tasks_only_witness :
  (length [task.Decode milk] <= Z.to_nat (TaskController.limitOf noQuery)
   <= 100)%nat
  /\ task.Body
       (TaskController.GetTasks noQuery (envTask t0 "") tasksBoth
          (authenticated aliceID ""))
     !! "count"
     = Some (task.Int (Z.of_nat (length [task.Decode milk])))
  /\ Forall (fun t =>
               gin.Get (authenticated aliceID "") "userId"
               = Some (gin.KObjectID (task.User t))
               /\ (noQuery "completed" <> "" ->
                   task.Completed t
                   = String.eqb (noQuery "completed") "true")
               /\ (noQuery "priority" <> "" ->
                   task.Priority t = noQuery "priority")
               /\ exists d, In d tasksBoth /\ t = task.Decode d)
       [task.Decode milk].
Proof.
  apply (GetTasks_own_tasks_only noQuery (envTask t0 "") tasksBoth
           (authenticated aliceID "") [task.Decode milk]).
  vm_compute. reflexivity.
Defined.

Lemma tasks_of_others_untouched_witness :
  In rent (TaskController.CreateTask (envTask t0 "task-0000003") tasksBoth
             createMilk).2
  /\ In rent (TaskController.UpdateTask (primitive.Hex rentID)
                (envTask t0 "") tasksBoth completeMilk).2
  /\ In rent (TaskController.DeleteTask (primitive.Hex rentID)
                (envTask t0 "") tasksBoth (authenticated aliceID "")).2.
Proof.
  assert (Hc : gin.Get createMilk "userId"
               = Some (gin.KObjectID aliceID)) by reflexivity.
  assert (Hin : In rent tasksBoth)
    by (rewrite tasksBoth_eq; right; now left).
  split; [ | split].
  - apply (tasks_of_others_untouched (primitive.Hex rentID)
             (envTask t0 "task-0000003") tasksBoth createMilk rent Hin).
    rewrite Hc. discriminate.
  - apply (tasks_of_others_untouched (primitive.Hex rentID)
             (envTask t0 "") tasksBoth completeMilk rent Hin).
    discriminate.
  - apply (tasks_of_others_untouched (primitive.Hex rentID)
             (envTask t0 "") tasksBoth (authenticated aliceID "") rent Hin).
    discriminate.
Defined.

Lemma UpdateTask_merges_witness :
  exists objectID input d d',
    primitive.ObjectIDFromHex (primitive.Hex milkID) = Some objectID
    /\ json_DecodeInput (gin.Request_Body completeMilk) = Some input
    /\ List.find (task.byID objectID) tasksBoth = Some d
    /\ gin.Get completeMilk "userId" = Some (gin.KObjectID (task.user d))
    /\ (TaskController.UpdateTask (primitive.Hex milkID)
          (envTask (t0 + time.Hour) "") tasksBoth completeMilk).1
       = task.success http.StatusOK (task.One (task.Decode d'))
    /\ List.find (task.byID objectID)
         (TaskController.UpdateTask (primitive.Hex milkID)
            (envTask (t0 + time.Hour) "") tasksBoth completeMilk).2
       = Some d'
    /\ length (TaskController.UpdateTask (primitive.Hex milkID)
                 (envTask (t0 + time.Hour) "") tasksBoth completeMilk).2
       = length tasksBoth
    /\ task._id d' = task._id d
    /\ task.user d' = task.user d
    /\ task.createdAt d' = task.createdAt d
    /\ task.updatedAt d'
       = primitive.NewDateTimeFromTime
           (clock (envTask (t0 + time.Hour) "") 0)
    /\ task.completed d' = task.in_Completed input
    /\ task.title d'
       = (if String.eqb (task.in_Title input) "" then task.title d
          else task.in_Title input)
    /\ task.description d'
       = (if String.eqb (task.in_Description input) "" then task.description d
          else bson.Value (task.in_Description input))
    /\ task.priority d'
       = (if String.eqb (task.in_Priority input) "" then task.priority d
          else task.in_Priority input)
    /\ (task.in_DueDate input = None -> task.dueDate d' = task.dueDate d).
Proof.
  apply (UpdateTask_merges (primitive.Hex milkID)
           (envTask (t0 + time.Hour) "") tasksBoth completeMilk).
  vm_compute. reflexivity.
Defined.

Lemma CreateTask_then_GetTask_witness :
  exists t t',
    (TaskController.CreateTask (envTask t0 milkID) [] createMilk).1
    = task.success TaskController.StatusCreated (task.One t)
    /\ TaskController.GetTask (primitive.Hex (task.ID t))
         (envTask (t0 + time.Hour) "")
         (TaskController.CreateTask (envTask t0 milkID) [] createMilk).2
         (authenticated aliceID "")
       = task.success http.StatusOK (task.One t')
    /\ task.ID t' = task.ID t
    /\ task.Title t' = task.Title t
    /\ task.Description t' = task.Description t
    /\ task.Completed t' = task.Completed t
    /\ task.Priority t' = task.Priority t
    /\ task.User t' = task.User t
    /\ gin.Get createMilk "userId" = Some (gin.KObjectID (task.User t))
    /\ task.CreatedAt t'
       = primitive.Time (primitive.NewDateTimeFromTime (task.CreatedAt t))
    /\ task.UpdatedAt t'
       = primitive.Time (primitive.NewDateTimeFromTime (task.UpdatedAt t))
    /\ task.DueDate t'
       = option_map
           (fun d => primitive.Time (primitive.NewDateTimeFromTime d))
           (task.DueDate t)
    /\ task.Title t <> ""
    /\ (task.Priority t = "low" \/ task.Priority t = "medium"
        \/ task.Priority t = "high").
Proof.
  apply (CreateTask_then_GetTask (envTask t0 milkID)
           (envTask (t0 + time.Hour) "") [] createMilk
           (authenticated aliceID "")).
  - vm_compute. reflexivity.
  - reflexivity.
  - reflexivity.
  - reflexivity.
Defined.

Lemma wellFormed_tasksBoth : Forall wellFormed tasksBoth.
Proof.
  rewrite tasksBoth_eq. constructor; [ | constructor; [ | constructor]].
  - split; [discriminate | right; right; reflexivity].
  - split; [discriminate | right; left; reflexivity].
Qed.

Lemma task_collection_invariant_witness :
  (NoDup (taskIDs (TaskController.CreateTask (envTask t0 "task-0000003")
                     tasksBoth createMilk).2)
   /\ Forall wellFormed
        (TaskController.CreateTask (envTask t0 "task-0000003") tasksBoth
           createMilk).2)
  /\ (NoDup (taskIDs (TaskController.UpdateTask (primitive.Hex milkID)
                        (envTask t0 "task-0000003") tasksBoth createMilk).2)
      /\ Forall wellFormed
           (TaskController.UpdateTask (primitive.Hex milkID)
              (envTask t0 "task-0000003") tasksBoth createMilk).2)
  /\ (NoDup (taskIDs (TaskController.DeleteTask (primitive.Hex milkID)
                        (envTask t0 "task-0000003") tasksBoth createMilk).2)
      /\ Forall wellFormed
           (TaskController.DeleteTask (primitive.Hex milkID)
              (envTask t0 "task-0000003") tasksBoth createMilk).2).
Proof.
  apply (task_collection_invariant (primitive.Hex milkID)
           (envTask t0 "task-0000003") tasksBoth createMilk).
  - exact NoDup_tasksBoth.
  - exact wellFormed_tasksBoth.
Defined.

Lemma DeleteTask_removes_witness :
  exists d,
    In d tasksBoth
    /\ primitive.ObjectIDFromHex (primitive.Hex milkID) = Some (task._id d)
    /\ gin.Get (authenticated aliceID "") "userId"
       = Some (gin.KObjectID (task.user d))
    /\ (forall x,
          In x (TaskController.DeleteTask (primitive.Hex milkID)
                  (envTask t0 "") tasksBoth (authenticated aliceID "")).2
          <-> In x tasksBoth /\ x <> d)
    /\ TaskController.GetTask (primitive.Hex milkID)
         (envTask (t0 + time.Hour) "")
         (TaskController.DeleteTask (primitive.Hex milkID)
            (envTask t0 "") tasksBoth (authenticated aliceID "")).2
         (authenticated aliceID "")
       = task.failure TaskController.StatusNotFound "Task not found".
Proof.
  apply (DeleteTask_removes (primitive.Hex milkID) (envTask t0 "")
           (envTask (t0 + time.Hour) "") tasksBoth
           (authenticated aliceID "") (authenticated aliceID "")
           (gin.KObjectID aliceID)).
  - exact NoDup_tasksBoth.
  - vm_compute. reflexivity.
  - reflexivity.
  - reflexivity.
Defined.

Lemma GetTasks_pages_witness :
  exists userID total totalPages tasks,
    gin.Get (authenticated aliceID "") "userId" = Some userID
    /\ total
       = Z.of_nat
           (length (List.filter (TaskController.selected noQuery userID)
                      tasksBoth))
    /\ task.Body
         (TaskController.GetTasks noQuery (envTask t0 "") tasksBoth
            (authenticated aliceID ""))
       !! "pagination"
       = Some (task.Pagination total (TaskController.pageOf noQuery)
                 (TaskController.limitOf noQuery) totalPages)
    /\ task.Body
         (TaskController.GetTasks noQuery (envTask t0 "") tasksBoth
            (authenticated aliceID ""))
       !! "data"
       = Some (task.Many tasks)
    /\ (TaskController.pageOf noQuery < totalPages ->
        Z.of_nat (length tasks) = TaskController.limitOf noQuery)
    /\ (TaskController.pageOf noQuery = totalPages ->
        1 <= Z.of_nat (length tasks) <= TaskController.limitOf noQuery
        /\ Z.of_nat (length tasks)
           = total
             - (TaskController.pageOf noQuery - 1)
               * TaskController.limitOf noQuery)
    /\ (totalPages < TaskController.pageOf noQuery -> tasks = []).
Proof.
  apply (GetTasks_pages noQuery (envTask t0 "") tasksBoth
           (authenticated aliceID "")).
  - vm_compute. reflexivity.
  - rewrite tasksBoth_eq. vm_compute. discriminate.
  - vm_compute. discriminate.
Defined.

Lemma UpdateTask_repeated_witness :
  exists objectID d',
    primitive.ObjectIDFromHex (primitive.Hex milkID) = Some objectID
    /\ (TaskController.UpdateTask (primitive.Hex milkID)
          (envTask (t0 + time.Hour) "") tasksBoth completeMilk).1
       = task.success http.StatusOK (task.One (task.Decode d'))
    /\ TaskController.UpdateTask (primitive.Hex milkID)
         (envTask (t0 + 2 * time.Hour) "")
         (TaskController.UpdateTask (primitive.Hex milkID)
            (envTask (t0 + time.Hour) "") tasksBoth completeMilk).2
         completeMilk
       = (task.success http.StatusOK
            (task.One
               (task.Decode
                  (touch (clock (envTask (t0 + 2 * time.Hour) "") 0) d'))),
          task.updateFirst objectID
            (touch (clock (envTask (t0 + 2 * time.Hour) "") 0))
            (TaskController.UpdateTask (primitive.Hex milkID)
               (envTask (t0 + time.Hour) "") tasksBoth completeMilk).2).
Proof.
  apply (UpdateTask_repeated (primitive.Hex milkID)
           (envTask (t0 + time.Hour) "") (envTask (t0 + 2 * time.Hour) "")
           tasksBoth completeMilk).
  - vm_compute. reflexivity.
  - reflexivity.
  - reflexivity.
  - reflexivity.
Defined.

(** alice reads her task through the route, an hour after she
    registered, with the access token of her registration. *)
Definition readMilk : TaskRoutes.Route :=
  TaskRoutes.GetTask (primitive.Hex milkID).

Lemma readMilk_served :
  (TaskRoutes.serve readMilk envHourLater collAlice tasksBoth (asAlice "")).1
  = inr (task.success http.StatusOK (task.One (task.Decode milk))).
Proof. vm_compute. reflexivity. Qed.

Lemma task_shown_to_owner_only_witness :
  exists tokenString u,
    gostrings.Split (gin.GetHeader (asAlice "") "Authorization") " "
      = ["Bearer"; tokenString]
    /\ verifyAccessToken envHourLater tokenString
       = Some (task.User (task.Decode milk))
    /\ In u collAlice
    /\ bson._id u = task.User (task.Decode milk).
Proof.
  apply (task_shown_to_owner_only readMilk envHourLater collAlice tasksBoth
           (asAlice "")
           (task.success http.StatusOK (task.One (task.Decode milk)))
           (task.Decode milk)).
  - reflexivity.
  - exact readMilk_served.
  - rewrite shown_success. left. reflexivity.
Defined.

Lemma second_of_two {A : Type} (a b x y : A) : [a; x] = [b; y] -> x = y.
Proof. intros Heq. exact (f_equal (fun l => List.nth 1 l x) Heq). Qed.

Lemma task_kept_without_owner_token_witness :
  In rent
    (TaskRoutes.serve (TaskRoutes.DeleteTask (primitive.Hex rentID))
       envHourLater collAlice tasksBoth (asAlice "")).2.
Proof.
  apply (task_kept_without_owner_token
           (TaskRoutes.DeleteTask (primitive.Hex rentID)) envHourLater
           collAlice tasksBoth (asAlice "") rent).
  - reflexivity.
  - rewrite tasksBoth_eq. (right; left; reflexivity).
  - intros tokenString Hsplit. rewrite asAlice_header in Hsplit.
    apply second_of_two in Hsplit. rewrite <- Hsplit, aliceToken_verified.
    discriminate.
Defined.

Lemma task_handlers_find_userId_witness :
  task.Status (task.success http.StatusOK (task.One (task.Decode milk)))
    <> http.StatusUnauthorized
  /\ task.success http.StatusOK (task.One (task.Decode milk))
     <> TaskController.recovered
  /\ exists b,
       task.Body (task.success http.StatusOK (task.One (task.Decode milk)))
         !! "success" = Some (task.Bool b).
Proof.
  apply (task_handlers_find_userId readMilk envHourLater collAlice tasksBoth
           (asAlice "")).
  - reflexivity.
  - exact readMilk_served.
Defined.


End MoreSessions.
